(** * Dependency isolation for host plugins: a shallow embedding

    The development follows the Python sources file by file:
    [dependency_manager.py] (the process-wide dependency manager and its
    store), [utils.py] (orphan cleanup, validation of a declaration file,
    display of a size), [auto_patcher.py] (the import interceptor),
    [config.py] (configuration load and save) and [__init__.py] (what
    runs when the host loads the package).

    Python [str] values are Rocq strings, read as the UTF-8 bytes of the
    text, so that [s.encode()] is the identity. *)

From Stdlib Require Import ZArith QArith String Ascii List Lia Permutation Sorted.
From stdpp Require Import base option list strings gmap.

Local Open Scope string_scope.
Local Open Scope list_scope.

(* ===================================================================== *)
(** * Python strings *)
(* ===================================================================== *)

Module PyStr.

(** [s.startswith(p)] *)
Fixpoint startswith (s p : string) : bool :=
  match p with
  | EmptyString => true
  | String c p' =>
      match s with
      | EmptyString => false
      | String d s' => if Ascii.eqb c d then startswith s' p' else false
      end
  end.

(** [s[:n]] *)
Fixpoint take (n : nat) (s : string) : string :=
  match n, s with
  | S n', String c s' => String c (take n' s')
  | _, _ => EmptyString
  end.

(** [s.split(sep)[0]] for a non-empty separator: the part of [s] before
    the first occurrence of [sep], all of [s] when there is none. *)
Fixpoint split_head (sep s : string) : string :=
  match s with
  | EmptyString => EmptyString
  | String c s' =>
      if startswith s sep then EmptyString else String c (split_head sep s')
  end.

(** [sep.join(l)] *)
Fixpoint join (sep : string) (l : list string) : string :=
  match l with
  | [] => EmptyString
  | [x] => x
  | x :: l' => x ++ sep ++ join sep l'
  end.

(** [s.split(sep)] for a one-character separator; [acc] holds the
    current field in reverse. *)
Fixpoint split_on_aux (sep : ascii) (s : string) (acc : string) : list string :=
  match s with
  | EmptyString => [String.rev acc]
  | String c s' =>
      if Ascii.eqb c sep then String.rev acc :: split_on_aux sep s' EmptyString
      else split_on_aux sep s' (String c acc)
  end.

Definition split_on (sep : ascii) (s : string) : list string :=
  split_on_aux sep s EmptyString.

(** [c in s] for a character [c] *)
Fixpoint has_char (c : ascii) (s : string) : bool :=
  match s with
  | EmptyString => false
  | String d s' => Ascii.eqb d c || has_char c s'
  end.

(** [s.endswith(p)] *)
Definition endswith (s p : string) : bool :=
  startswith (String.rev s) (String.rev p).

(** [s[n:]] *)
Fixpoint drop (n : nat) (s : string) : string :=
  match n, s with
  | S n', String _ s' => drop n' s'
  | _, _ => s
  end.

Definition bytes (l : list nat) : string :=
  string_of_list_ascii (map ascii_of_nat l).

(** The characters for which [str.isspace] holds, by their UTF-8
    encodings: U+0009 to U+000D, U+001C to U+0020, U+0085, U+00A0,
    U+1680, U+2000 to U+200A, U+2028, U+2029, U+202F, U+205F, U+3000. *)
Definition whitespace : list string :=
  map (fun n => bytes [n]) [9; 10; 11; 12; 13; 28; 29; 30; 31; 32]
  ++ [bytes [194; 133]; bytes [194; 160]; bytes [225; 154; 128]]
  ++ map (fun n => bytes [226; 128; n])
       [128; 129; 130; 131; 132; 133; 134; 135; 136; 137; 138; 168; 169; 175]
  ++ [bytes [226; 129; 159]; bytes [227; 128; 128]].

(** The white-space character [s] starts (resp. ends) with, if any. *)
Definition leading_space (s : string) : option string :=
  List.find (startswith s) whitespace.

Definition trailing_space (s : string) : option string :=
  List.find (endswith s) whitespace.

Fixpoint lstrip_fuel (fuel : nat) (s : string) : string :=
  match fuel with
  | O => s
  | S fuel' =>
      match leading_space s with
      | Some w => lstrip_fuel fuel' (drop (String.length w) s)
      | None => s
      end
  end.

Fixpoint rstrip_fuel (fuel : nat) (s : string) : string :=
  match fuel with
  | O => s
  | S fuel' =>
      match trailing_space s with
      | Some w => rstrip_fuel fuel' (take (String.length s - String.length w) s)
      | None => s
      end
  end.

(** [s.strip()]: every step removes at least one byte, so the length of
    [s] is fuel enough. *)
Definition strip (s : string) : string :=
  let s' := lstrip_fuel (String.length s) s in
  rstrip_fuel (String.length s') s'.

(** Text-mode reading translates the line ends CR LF and CR to LF. *)
Fixpoint universal_newlines (s : string) : string :=
  match s with
  | EmptyString => EmptyString
  | String c s' =>
      if Ascii.eqb c "013"%char then
        match s' with
        | String d s'' =>
            if Ascii.eqb d "010"%char then String "010"%char (universal_newlines s'')
            else String "010"%char (universal_newlines s')
        | EmptyString => String "010"%char EmptyString
        end
      else String c (universal_newlines s')
  end.

(** The lines [for line in f] yields, without their line ends. A final
    line end does not start another line. *)
Definition lines (s : string) : list string :=
  match s with
  | EmptyString => []
  | _ =>
      let l := split_on "010"%char (universal_newlines s) in
      if endswith (universal_newlines s) (bytes [10]) then removelast l else l
  end.

(** [p in s] for texts *)
Fixpoint contains (s p : string) : bool :=
  startswith s p
  || match s with
     | EmptyString => false
     | String _ s' => contains s' p
     end.

(** [s.replace(c, '')] for a character [c] *)
Fixpoint remove_char (c : ascii) (s : string) : string :=
  match s with
  | EmptyString => EmptyString
  | String d s' => if Ascii.eqb d c then remove_char c s' else String d (remove_char c s')
  end.

(** The bytes that continue a UTF-8 sequence. *)
Definition is_continuation (c : ascii) : bool :=
  let n := nat_of_ascii c in (128 <=? n)%nat && (n <? 192)%nat.

(** The characters of a text, each with the bytes that encode it. *)
Fixpoint chars (s : string) : list string :=
  match s with
  | EmptyString => []
  | String c s' =>
      match chars s' with
      | String d x :: rest =>
          if is_continuation d then String c (String d x) :: rest
          else String c EmptyString :: String d x :: rest
      | rest => String c EmptyString :: rest
      end
  end.

(** [c.isalnum()] for an ASCII character: a digit or a letter. *)
Definition isalnum_ascii (c : ascii) : bool :=
  let n := nat_of_ascii c in
  ((48 <=? n) && (n <=? 57) || (65 <=? n) && (n <=? 90) || (97 <=? n) && (n <=? 122))%nat.

End PyStr.

(** The Unicode character database, for the characters outside ASCII:
    whether [str.isalnum] holds for a character, given by its UTF-8
    encoding. *)
Class Unicode := {
  isalnum_wide : string -> bool
}.

Module PyText.

Section WithUnicode.
Context {unicode : Unicode}.

Definition char_isalnum (ch : string) : bool :=
  match ch with
  | String c rest =>
      if (nat_of_ascii c <? 128)%nat then PyStr.isalnum_ascii c && String.eqb rest ""
      else isalnum_wide ch
  | EmptyString => false
  end.

(** [s.isalnum()]: at least one character, and all of them
    alphanumeric. *)
Definition isalnum (s : string) : bool :=
  match PyStr.chars s with
  | [] => false
  | cs => forallb char_isalnum cs
  end.

End WithUnicode.

End PyText.

(* ===================================================================== *)
(** * [hashlib.md5(...).hexdigest()] *)
(* ===================================================================== *)

Module MD5.

Local Open Scope Z_scope.

Definition w32 (x : Z) : Z := x mod 2 ^ 32.

Definition rotl (x : Z) (c : Z) : Z :=
  w32 (Z.lor (Z.shiftl x c) (Z.shiftr (w32 x) (32 - c))).

Definition not32 (x : Z) : Z := Z.lxor (w32 x) (2 ^ 32 - 1).

(** Per-round shift amounts. *)
Definition shifts : list Z :=
  [7; 12; 17; 22; 7; 12; 17; 22; 7; 12; 17; 22; 7; 12; 17; 22;
   5; 9; 14; 20; 5; 9; 14; 20; 5; 9; 14; 20; 5; 9; 14; 20;
   4; 11; 16; 23; 4; 11; 16; 23; 4; 11; 16; 23; 4; 11; 16; 23;
   6; 10; 15; 21; 6; 10; 15; 21; 6; 10; 15; 21; 6; 10; 15; 21].

(** [floor(2^32 * abs(sin(i + 1)))] for [i] from 0 to 63. *)
Definition sines : list Z :=
  [3614090360; 3905402710; 606105819; 3250441966; 4118548399; 1200080426;
   2821735955; 4249261313; 1770035416; 2336552879; 4294925233; 2304563134;
   1804603682; 4254626195; 2792965006; 1236535329; 4129170786; 3225465664;
   643717713; 3921069994; 3593408605; 38016083; 3634488961; 3889429448;
   568446438; 3275163606; 4107603335; 1163531501; 2850285829; 4243563512;
   1735328473; 2368359562; 4294588738; 2272392833; 1839030562; 4259657740;
   2763975236; 1272893353; 4139469664; 3200236656; 681279174; 3936430074;
   3572445317; 76029189; 3654602809; 3873151461; 530742520; 3299628645;
   4096336452; 1126891415; 2878612391; 4237533241; 1700485571; 2399980690;
   4293915773; 2240044497; 1873313359; 4264355552; 2734768916; 1309151649;
   4149444226; 3174756917; 718787259; 3951481745].

Definition bytes_of_string (s : string) : list Z :=
  map (fun c => Z.of_nat (nat_of_ascii c)) (list_ascii_of_string s).

(** [n] as [k] little-endian bytes. *)
Fixpoint le_bytes (k : nat) (n : Z) : list Z :=
  match k with
  | O => []
  | S k' => n mod 256 :: le_bytes k' (n / 256)
  end.

Fixpoint le_word (bs : list Z) : Z :=
  match bs with
  | [] => 0
  | b :: bs' => b + 256 * le_word bs'
  end.

(** The message followed by 0x80, zero bytes up to 56 modulo 64, and the
    bit length on 8 bytes. *)
Definition pad (msg : list Z) : list Z :=
  let len := Z.of_nat (length msg) in
  let zeros := Z.to_nat ((55 - len) mod 64) in
  msg ++ [128] ++ repeat 0 zeros ++ le_bytes 8 ((8 * len) mod 2 ^ 64).

Fixpoint chunks (fuel : nat) (n : nat) (l : list Z) : list (list Z) :=
  match fuel with
  | O => []
  | S fuel' =>
      match l with
      | [] => []
      | _ => firstn n l :: chunks fuel' n (skipn n l)
      end
  end.

Definition words (block : list Z) : list Z :=
  map le_word (chunks 16 4 block).

Record regs := Regs { rA : Z; rB : Z; rC : Z; rD : Z }.

Definition round (M : list Z) (r : regs) (i : nat) : regs :=
  let '(Regs A B C D) := r in
  let iz := Z.of_nat i in
  let '(F, g) :=
    if (i <? 16)%nat then (Z.lor (Z.land B C) (Z.land (not32 B) D), iz)
    else if (i <? 32)%nat then
      (Z.lor (Z.land D B) (Z.land (not32 D) C), (5 * iz + 1) mod 16)
    else if (i <? 48)%nat then (Z.lxor B (Z.lxor C D), (3 * iz + 5) mod 16)
    else (Z.lxor C (Z.lor B (not32 D)), (7 * iz) mod 16) in
  let F' := w32 (F + A + nth i sines 0 + nth (Z.to_nat g) M 0) in
  Regs D (w32 (B + rotl F' (nth i shifts 0))) B C.

Definition process (r : regs) (block : list Z) : regs :=
  let r' := fold_left (round (words block)) (seq 0 64) r in
  Regs (w32 (rA r + rA r')) (w32 (rB r + rB r'))
       (w32 (rC r + rC r')) (w32 (rD r + rD r')).

Definition init : regs := Regs 1732584193 4023233417 2562383102 271733878.

Definition digest (s : string) : list Z :=
  let msg := pad (bytes_of_string s) in
  let r := fold_left process (chunks (length msg) 64 msg) init in
  le_bytes 4 (rA r) ++ le_bytes 4 (rB r) ++ le_bytes 4 (rC r) ++ le_bytes 4 (rD r).

Definition hex_digit (n : Z) : ascii :=
  nth (Z.to_nat n) (list_ascii_of_string "0123456789abcdef") "0"%char.

Fixpoint hex (bs : list Z) : string :=
  match bs with
  | [] => EmptyString
  | b :: bs' => String (hex_digit (b / 16)) (String (hex_digit (b mod 16)) (hex bs'))
  end.

Definition hexdigest (s : string) : string := hex (digest s).

End MD5.


(* ===================================================================== *)
(** * Exceptions and results *)
(* ===================================================================== *)

(** The exception classes the sources name or let through. [SystemExit]
    and [KeyboardInterrupt] derive from [BaseException] only; all others
    derive from [Exception]. *)
Inductive exn :=
  | ImportError
  | ModuleNotFoundError
  | TimeoutExpired
  | FileNotFoundError
  | FileExistsError
  | AttributeError
  | RecursionError
  | OtherError (name : string)
  | SystemExit
  | KeyboardInterrupt.

(** [isinstance(e, ImportError)] *)
Definition is_ImportError (e : exn) : bool :=
  match e with
  | ImportError | ModuleNotFoundError => true
  | _ => false
  end.

(** [isinstance(e, subprocess.TimeoutExpired)] *)
Definition is_TimeoutExpired (e : exn) : bool :=
  match e with
  | TimeoutExpired => true
  | _ => false
  end.

(** [isinstance(e, Exception)] *)
Definition is_Exception (e : exn) : bool :=
  match e with
  | SystemExit | KeyboardInterrupt => false
  | _ => true
  end.

Inductive result (A : Type) :=
  | Return (a : A)
  | Raise (e : exn).
Arguments Return {A} a.
Arguments Raise {A} e.

(* ===================================================================== *)
(** * [pathlib] paths and the file system *)
(* ===================================================================== *)

(** A path is its [parts] tuple, as [PurePosixPath.parts] gives it: the
    root, when there is one, is the first part. *)
Abbreviation Path := (list string).

Module PyPath.

Definition is_root (s : string) : bool :=
  String.eqb s "/" || String.eqb s "//".

(** [PurePosixPath(s)]: empty and single-dot components are dropped, two
    leading slashes (exactly) form a root of their own. *)
Definition parse (s : string) : Path :=
  let comps :=
    List.filter (fun c => negb (String.eqb c "" || String.eqb c "."))
      (PyStr.split_on "/"%char s) in
  if PyStr.startswith s "//" && negb (PyStr.startswith s "///") then "//" :: comps
  else if PyStr.startswith s "/" then "/" :: comps
  else comps.

(** [p / s]: an absolute right operand replaces the left one. *)
Definition div (p : Path) (s : string) : Path :=
  if PyStr.startswith s "/" then parse s else p ++ parse s.

(** [str(p)] *)
Definition str (p : Path) : string :=
  match p with
  | [] => "."
  | r :: rest => if is_root r then r ++ PyStr.join "/" rest else PyStr.join "/" p
  end.

(** [p.name] *)
Definition name (p : Path) : string :=
  match p with
  | [r] => if is_root r then "" else r
  | _ => List.last p ""
  end.

(** [p.parent] *)
Definition parent (p : Path) : Path :=
  match p with
  | [r] => if is_root r then p else []
  | _ => removelast p
  end.

(** [p.parents]: the ancestors of [p], nearest first, as [pathlib] slices
    them off the parts; the root is the last one of an absolute path, the
    empty path (the current directory) of a relative one. *)
Definition parents (p : Path) : list Path :=
  let n :=
    match p with
    | r :: _ => if is_root r then (length p - 1)%nat else length p
    | [] => 0%nat
    end in
  map (fun idx => take (length p - idx - 1) p) (seq 0 n).

End PyPath.

Infix "</>" := PyPath.div (at level 40, left associativity).

(** JSON values as [json.load] returns them. Numbers with a fraction or an
    exponent carry their value as a rational. *)
#[local] Unset Elimination Schemes.
Inductive JSON :=
  | JNull
  | JBool (b : bool)
  | JInt (z : Z)
  | JFloat (q : Q)
  | JStr (s : string)
  | JArr (l : list JSON)
  | JObj (members : list (string * JSON)).
#[local] Set Elimination Schemes.

(** What a file holds, by the way it is read: text that is read line by
    line, or the text of a JSON document, named by the document. [Text]
    stands for content [json.load] rejects. *)
Inductive Content :=
  | Text (s : string)
  | JsonDoc (doc : JSON).

Inductive node :=
  | Dir
  | File (c : Content).

(** The directory tree: the kind of every existing path. Parts are taken
    as they stand ([..] and symbolic links are not resolved). *)
Abbreviation FS := (gmap Path node).

Module Fs.

(** [p.exists()] *)
Definition exists_ (fs : FS) (p : Path) : bool :=
  match fs !! p with Some _ => true | None => false end.

(** [p.is_dir()] *)
Definition is_dir (fs : FS) (p : Path) : bool :=
  match fs !! p with Some Dir => true | _ => false end.

(** [p.mkdir(exist_ok=True)]: it raises when a file stands at [p] and
    when the parent is missing or is a file. *)
Definition mkdir_exist_ok (fs : FS) (p : Path) : result FS :=
  match fs !! p with
  | Some Dir => Return fs
  | Some (File _) => Raise FileExistsError
  | None =>
      match fs !! PyPath.parent p with
      | Some Dir => Return (<[p := Dir]> fs)
      | Some (File _) => Raise (OtherError "NotADirectoryError")
      | None => Raise FileNotFoundError
      end
  end.

(** [open(p, 'w')] followed by a complete write of [c]: [None] when the
    file cannot be opened (missing parent directory, or a directory
    standing at [p]). *)
Definition write_file (fs : FS) (p : Path) (c : Content) : option FS :=
  match fs !! p with
  | Some Dir => None
  | _ => if is_dir fs (PyPath.parent p) then Some (<[p := File c]> fs) else None
  end.

(** [p.iterdir()]: the existing paths one part longer than [p], [None]
    when [p] is not a directory. The order is the file system's. *)
Definition iterdir (fs : FS) (p : Path) : option (list Path) :=
  if is_dir fs p then
    Some (List.filter (fun q => bool_decide (removelast q = p /\ q <> p))
            (map fst (map_to_list fs)))
  else None.

(** [shutil.rmtree(p)]: [p] and everything below it are gone. *)
Definition rmtree (fs : FS) (p : Path) : FS :=
  filter (fun kv => ~ p `prefix_of` kv.1) fs.

End Fs.

(* ===================================================================== *)
(** * JSON values as Python objects *)
(* ===================================================================== *)

Module PyJson.

(** The dict [json.load] builds from the members of an object: a later
    member with the same key replaces the value of an earlier one. *)
Definition dict_of (members : list (string * JSON)) : gmap string JSON :=
  fold_left (fun m kv => <[kv.1 := kv.2]> m) members ∅.

(** Whether a value is hashable, so that it can be an element of a set:
    lists and dicts are not. *)
Definition hashable (v : JSON) : bool :=
  match v with
  | JArr _ | JObj _ => false
  | _ => true
  end.

(** Whether [set(v)] raises [TypeError]: [v] cannot be iterated over, or
    one of its elements is not hashable. *)
Definition set_raises (v : JSON) : bool :=
  match v with
  | JArr l => existsb (fun x => negb (hashable x)) l
  | JStr _ | JObj _ => false
  | _ => true
  end.

Definition as_str (v : JSON) : option string :=
  match v with
  | JStr s => Some s
  | _ => None
  end.

(** What iterating over [v] yields, when all of it is text: the elements
    of a list, the characters of a text, the keys of a dict. *)
Definition str_elements (v : JSON) : option (list string) :=
  match v with
  | JArr l => mapM as_str l
  | JStr s => Some (PyStr.chars s)
  | JObj members => Some (map fst members)
  | _ => None
  end.

(** [bool(v)] *)
Definition truthy (v : JSON) : bool :=
  match v with
  | JNull => false
  | JBool b => b
  | JInt z => negb (z =? 0)%Z
  | JFloat q => negb (Qeq_bool q 0)
  | JStr s => negb (String.eqb s "")
  | JArr l => match l with [] => false | _ => true end
  | JObj members => match members with [] => false | _ => true end
  end.

End PyJson.

(* ===================================================================== *)
(** * Python numbers *)
(* ===================================================================== *)

Module PyNum.

Local Open Scope Z_scope.

(** An [int], or a [float] by the rational it stands for. *)
Inductive Number :=
  | PyInt (z : Z)
  | PyFloat (q : Q).

(** [num / den] for [0 <= num] and [0 < den], rounded to the nearest
    integer, a tie to the even one. *)
Definition round_half_even (num den : Z) : Z :=
  let fl := num / den in
  let r := num mod den in
  if 2 * r <? den then fl
  else if den <? 2 * r then fl + 1
  else if Z.even fl then fl else fl + 1.

(** [float(n)]: the nearest double, a tie to the even mantissa;
    [OverflowError] when that lies beyond the largest double. *)
Definition float_of_int (n : Z) : result Q :=
  let a := Z.abs n in
  if a <? 2 ^ 53 then Return (inject_Z n)
  else
    let e := Z.log2 a - 52 in
    let v := round_half_even a (2 ^ e) * 2 ^ e in
    if 2 ^ 1024 <=? v then Raise (OtherError "OverflowError")
    else Return (inject_Z (Z.sgn n * v)).

Definition digit (d : Z) : ascii := ascii_of_nat (48 + Z.to_nat d).

Fixpoint decimal_fuel (fuel : nat) (n : Z) (acc : string) : string :=
  match fuel with
  | O => acc
  | S fuel' =>
      let acc' := String (digit (n mod 10)) acc in
      if n <? 10 then acc' else decimal_fuel fuel' (n / 10) acc'
  end.

(** [str(n)] for [0 <= n]; a number has no more decimal digits than
    binary ones. *)
Definition decimal (n : Z) : string :=
  decimal_fuel (S (Z.to_nat (Z.log2 n))) n EmptyString.

(** The text of [m] hundredths, [0 <= m]: the integer part, a point, two
    digits. *)
Definition hundredths (m : Z) : string :=
  (decimal (m / 100) ++ "." ++ String (digit (m / 10 mod 10)) (String (digit (m mod 10)) ""))%string.

(** [f"{x:.2f}"] for a float: the decimal expansion of the value rounded
    to two places, a tie to the even digit, with the sign of [x]. *)
Definition format_2f (x : Q) : string :=
  let m := round_half_even (Z.abs (Qnum x) * 100) (Z.pos (Qden x)) in
  ((if (Qnum x <? 0)%Z then "-" else "") ++ hundredths m)%string.

End PyNum.

(* ===================================================================== *)
(** * Python sets of strings *)
(* ===================================================================== *)

(** A [set] is unordered: iterating over it yields every element once, in
    an order the hash table decides (for [str] the hash is salted per
    process). A set is represented by the list its iteration yields, and
    the interpreter's choice of order is the parameter [set_add]: adding an
    element already present changes nothing, adding a new one yields some
    arrangement of the old elements and the new one. *)
Class PySet := {
  set_add : string -> list string -> list string;
  set_add_present : forall x s, x ∈ s -> set_add x s = s;
  set_add_fresh : forall x s, x ∉ s -> set_add x s ≡ₚ x :: s
}.

(** [s.update(l)], and [set(l)] when [s] is empty. *)
Definition set_update {sets : PySet} (s : list string) (l : list string) : list string :=
  fold_left (fun acc x => set_add x acc) l s.

(** A table in which a new element always lands behind the old ones. *)
Definition append_add (x : string) (s : list string) : list string :=
  if bool_decide (x ∈ s) then s else s ++ [x].

(** A table in which a new element always lands before the old ones. *)
Definition prepend_add (x : string) (s : list string) : list string :=
  if bool_decide (x ∈ s) then s else x :: s.

Definition append_order : PySet.
Proof.
  refine {| set_add := append_add |}.
  - intros x s Hin. unfold append_add. by rewrite bool_decide_eq_true_2.
  - intros x s Hnin. unfold append_add. rewrite bool_decide_eq_false_2 by done.
    symmetry. apply Permutation_cons_append.
Defined.

Definition prepend_order : PySet.
Proof.
  refine {| set_add := prepend_add |}.
  - intros x s Hin. unfold prepend_add. by rewrite bool_decide_eq_true_2.
  - intros x s Hnin. unfold prepend_add. by rewrite bool_decide_eq_false_2.
Defined.

(* ===================================================================== *)
(** * The process and its surroundings *)
(* ===================================================================== *)

(** What [subprocess.run] does with a command: the process runs to an
    exit status, runs into the time limit, or cannot be run at all (an
    [OSError] or the like, always a subclass of [Exception]). *)
Inductive ProcOutcome :=
  | Completed (returncode : Z) (stderr : string)
  | TimedOut
  | Failed (name : string).

Record CompletedProcess := { returncode : Z; stderr : string }.

(** The entry point [builtins.__import__] holds: the one in place when the
    patcher was built, or a closure made by an execution of
    [def custom_import] (every execution makes a new function object). *)
Inductive ImportFn :=
  | Original
  | Custom (id : nat).

Record Module_ := { mod_name : string; mod_origin : string }.

Record World := {
  fs : FS;
  sys_path : list string;
  sys_modules : list (string * Module_);
  sys_executable : string;
  builtins_import : ImportFn;
  next_fn : nat;               (* function objects made so far *)
  ticks : nat;                 (* readings of [time.time()] so far *)
  pip_log : list (list string) (* the commands run as subprocesses so far *)
}.

Definition set_fs (x : FS) (w : World) : World :=
  {| fs := x; sys_path := sys_path w; sys_modules := sys_modules w;
     sys_executable := sys_executable w; builtins_import := builtins_import w;
     next_fn := next_fn w; ticks := ticks w; pip_log := pip_log w |}.

Definition set_sys_path (x : list string) (w : World) : World :=
  {| fs := fs w; sys_path := x; sys_modules := sys_modules w;
     sys_executable := sys_executable w; builtins_import := builtins_import w;
     next_fn := next_fn w; ticks := ticks w; pip_log := pip_log w |}.

Definition set_ticks (x : nat) (w : World) : World :=
  {| fs := fs w; sys_path := sys_path w; sys_modules := sys_modules w;
     sys_executable := sys_executable w; builtins_import := builtins_import w;
     next_fn := next_fn w; ticks := x; pip_log := pip_log w |}.

Definition set_pip_log (x : list (list string)) (w : World) : World :=
  {| fs := fs w; sys_path := sys_path w; sys_modules := sys_modules w;
     sys_executable := sys_executable w; builtins_import := builtins_import w;
     next_fn := next_fn w; ticks := ticks w; pip_log := x |}.

Definition set_builtins_import (f : ImportFn) (n : nat) (w : World) : World :=
  {| fs := fs w; sys_path := sys_path w; sys_modules := sys_modules w;
     sys_executable := sys_executable w; builtins_import := f;
     next_fn := n; ticks := ticks w; pip_log := pip_log w |}.

(** The arguments of [__import__]; [globals] and [locals] are handed on
    untouched and are left out. *)
Record ImportArgs := { name : string; fromlist : list string; level : Z }.

Inductive ImportOutcome :=
  | Imported (m : Module_)
  | Raised (e : exn).

(** What lies outside the program: the clock, the commands run as
    subprocesses (the [n]-th one, by its command line and time limit, turns
    a file system into an outcome and a file system), whether a tree can be
    removed, and the import entry point found in place when the patcher
    was built, which may run any code of the modules it loads. *)
Class Host := {
  clock : nat -> Q;
  run_process : nat -> list string -> Z -> FS -> ProcOutcome * FS;
  removable : FS -> Path -> bool;
  baseline_import : ImportArgs -> World -> ImportOutcome * World
}.

(** [time.time()] *)
Definition time_time {host : Host} (w : World) : Q * World :=
  (clock (ticks w), set_ticks (S (ticks w)) w).

(** [subprocess.run(cmd, capture_output=True, text=True, timeout=t)] *)
Definition subprocess_run {host : Host} (cmd : list string) (t : Z) (w : World)
  : result CompletedProcess * World :=
  let '(out, fs') := run_process (length (pip_log w)) cmd t (fs w) in
  let w' := set_pip_log (pip_log w ++ [cmd]) (set_fs fs' w) in
  match out with
  | Completed rc err => (Return {| returncode := rc; stderr := err |}, w')
  | TimedOut => (Raise TimeoutExpired, w')
  | Failed name => (Raise (OtherError name), w')
  end.

(* ===================================================================== *)
(** * [dependency_manager.py] *)
(* ===================================================================== *)

(** The value of [self.plugins[plugin_name]]. *)
Record PluginInfo := {
  dir : Path;
  requirements_file : Path;
  deps_hash : string;
  isolated_deps_dir : Path;
  registered_time : Q
}.

(** The value of [self.dependency_metadata[dep_key]]. *)
Record DepRecord := {
  package : string;
  spec : string;
  install_dir : string;
  plugin : string;
  installed_time : Q
}.

(** The attributes of the one [GlobalDependencyManager] object. [plugins]
    is a dict iterated in insertion order; [installed_deps] maps a plugin
    to a set of directory strings. *)
Record Manager := {
  custom_nodes_dir : Path;
  deps_manager_dir : Path;
  global_deps_dir : Path;
  plugins : list (string * PluginInfo);
  installed_deps : gmap string (list string);
  dependency_metadata : gmap string DepRecord
}.

Definition set_plugins (x : list (string * PluginInfo)) (m : Manager) : Manager :=
  {| custom_nodes_dir := custom_nodes_dir m; deps_manager_dir := deps_manager_dir m;
     global_deps_dir := global_deps_dir m; plugins := x;
     installed_deps := installed_deps m; dependency_metadata := dependency_metadata m |}.

Definition set_installed_deps (x : gmap string (list string)) (m : Manager) : Manager :=
  {| custom_nodes_dir := custom_nodes_dir m; deps_manager_dir := deps_manager_dir m;
     global_deps_dir := global_deps_dir m; plugins := plugins m;
     installed_deps := x; dependency_metadata := dependency_metadata m |}.

Definition set_dependency_metadata (x : gmap string DepRecord) (m : Manager) : Manager :=
  {| custom_nodes_dir := custom_nodes_dir m; deps_manager_dir := deps_manager_dir m;
     global_deps_dir := global_deps_dir m; plugins := plugins m;
     installed_deps := installed_deps m; dependency_metadata := x |}.

(** A parsed line of a declaration file: [(pkg_name, pkg_spec, line_num)]. *)
Abbreviation Requirement := (string * string * nat)%type.

(** The manager object and the process it lives in. *)
Abbreviation State := (Manager * World)%type.

Module GlobalDependencyManager.

(** [d[k]] and [k in d] for the dict [plugins]. *)
Fixpoint plugins_get (ps : list (string * PluginInfo)) (k : string) : option PluginInfo :=
  match ps with
  | [] => None
  | (k', v) :: ps' => if String.eqb k' k then Some v else plugins_get ps' k
  end.

(** [d[k] = v]: an existing key keeps its place. *)
Fixpoint plugins_set (ps : list (string * PluginInfo)) (k : string) (v : PluginInfo)
  : list (string * PluginInfo) :=
  match ps with
  | [] => [(k, v)]
  | (k', v') :: ps' =>
      if String.eqb k' k then (k, v) :: ps' else (k', v') :: plugins_set ps' k v
  end.

(** [_get_requirements_hash]: the first 16 hex digits of the MD5 of the
    text as read; [None] when the file cannot be read. *)
Definition _get_requirements_hash (w : World) (requirements_file : Path) : option string :=
  match fs w !! requirements_file with
  | Some (File (Text content)) =>
      Some (PyStr.take 16 (MD5.hexdigest (PyStr.universal_newlines content)))
  | _ => None
  end.

(** One line of a declaration file, [line_num] counting from 1. *)
Definition parse_line (line_num : nat) (line : string) : option Requirement :=
  let line := PyStr.strip line in
  if negb (String.eqb line "") && negb (PyStr.startswith line "#") then
    let pkg_name :=
      PyStr.strip
        (PyStr.split_head "<=" (PyStr.split_head ">=" (PyStr.split_head "==" line))) in
    Some (pkg_name, line, line_num)
  else None.

Fixpoint parse_lines (line_num : nat) (ls : list string) : list Requirement :=
  match ls with
  | [] => []
  | l :: ls' =>
      match parse_line line_num l with
      | Some r => r :: parse_lines (S line_num) ls'
      | None => parse_lines (S line_num) ls'
      end
  end.

(** [_parse_requirements]: a file that cannot be opened gives the empty
    list (the error is logged). The text is taken to be valid UTF-8. *)
Definition _parse_requirements (w : World) (requirements_file : Path) : list Requirement :=
  match fs w !! requirements_file with
  | Some (File (Text content)) => parse_lines 1 (PyStr.lines content)
  | _ => []
  end.

(** The test of [_find_comfyui_root] on a directory. *)
Definition is_comfyui_root (tree : FS) (parent : Path) : bool :=
  Fs.exists_ tree (parent </> "web" </> "extensions.py")
  || Fs.exists_ tree (parent </> "main.py").

(** [_find_comfyui_root]; [current_dir] is [Path(__file__).parent]. *)
Definition _find_comfyui_root (tree : FS) (current_dir : Path) : Path :=
  match List.find (is_comfyui_root tree) (current_dir :: PyPath.parents current_dir) with
  | Some parent => parent
  | None => PyPath.parent (PyPath.parent current_dir)
  end.

(** [get_plugin_info] *)
Definition get_plugin_info (mgr : Manager) (plugin_name : string) : option PluginInfo :=
  plugins_get (plugins mgr) plugin_name.

(** [list_plugins] *)
Definition list_plugins (mgr : Manager) : list string := map fst (plugins mgr).

(** The keys of a dependency record. *)
Definition record_keys : list string :=
  ["package"; "spec"; "install_dir"; "plugin"; "installed_time"].

(** The record a loaded value stands for: a dict with exactly the five
    keys of a record, four texts and a float. The store holds records
    only; [None] for any other value. *)
Definition record_of_json (v : JSON) : option DepRecord :=
  match v with
  | JObj members =>
      let d := PyJson.dict_of members in
      match d !! "package", d !! "spec", d !! "install_dir", d !! "plugin",
            d !! "installed_time" with
      | Some (JStr p), Some (JStr s), Some (JStr i), Some (JStr pl), Some (JFloat t) =>
          if forallb (fun kv => bool_decide (kv.1 ∈ record_keys)) members then
            Some {| package := p; spec := s; install_dir := i; plugin := pl;
                    installed_time := t |}
          else None
      | _, _, _, _, _ => None
      end
  | _ => None
  end.

(** The value of [data.get('dependencies', {})] as the store's records:
    [None] when it is not a dict of records. *)
Definition records_of_json (v : JSON) : option (gmap string DepRecord) :=
  match v with
  | JObj members =>
      let d := PyJson.dict_of members in
      if forallb (fun kv => bool_decide (is_Some (record_of_json kv.2))) (map_to_list d)
      then Some (omap record_of_json d)
      else None
  | _ => None
  end.

(** The entries of the custom-nodes directory [cn] that discovery
    registers: a directory, other than the manager's own directory [md],
    that holds a [requirements.txt]. *)
Definition eligible (tree : FS) (cn md : Path) (x : string) : bool :=
  Fs.is_dir tree (cn ++ [x])
  && negb (bool_decide (cn ++ [x] = md))
  && Fs.exists_ tree ((cn ++ [x]) </> "requirements.txt").

Section WithHost.
Context {sets : PySet} {host : Host}.

(** [_register_plugin] *)
Definition _register_plugin (plugin_name : string) (plugin_dir requirements_file : Path)
    (st : State) : result unit * State :=
  let '(mgr, w) := st in
  match _get_requirements_hash w requirements_file with
  | None => (Raise FileNotFoundError, st)
  | Some h =>
      let '(t, w') := time_time w in
      let info := {| dir := plugin_dir; requirements_file := requirements_file;
                     deps_hash := h;
                     isolated_deps_dir := global_deps_dir mgr </> plugin_name;
                     registered_time := t |} in
      (Return tt, (set_plugins (plugins_set (plugins mgr) plugin_name info) mgr, w'))
  end.

(** The command line of the installer. *)
Definition pip_command (w : World) (pkg_spec : string) (target_dir : Path) : list string :=
  [sys_executable w; "-m"; "pip"; "install"; pkg_spec;
   "--target"; PyPath.str target_dir; "--no-deps";
   "--disable-pip-version-check"; "--quiet"; "--timeout"; "60"; "--retries"; "3"].

(** [_install_package_isolated]: the two handlers turn a time-out and
    any other [Exception] into [False]. *)
Definition _install_package_isolated (pkg_spec : string) (target_dir : Path)
    (plugin_name : string) (w : World) : result bool * World :=
  let cmd := pip_command w pkg_spec target_dir in
  let '(r, w') := subprocess_run cmd 300 w in
  match r with
  | Return res => (Return (returncode res =? 0)%Z, w')
  | Raise e =>
      if is_TimeoutExpired e then (Return false, w')
      else if is_Exception e then (Return false, w')
      else (Raise e, w')
  end.

(** [get_plugin_deps_paths]: [list(...)] of the plugin's set, the empty
    list for a plugin without one. *)
Definition get_plugin_deps_paths (mgr : Manager) (plugin_name : string) : list string :=
  default [] (installed_deps mgr !! plugin_name).

(** The document [_save_metadata] writes. *)
Definition record_json (r : DepRecord) : JSON :=
  JObj [("package", JStr (package r)); ("spec", JStr (spec r));
        ("install_dir", JStr (install_dir r)); ("plugin", JStr (plugin r));
        ("installed_time", JFloat (installed_time r))].

Definition metadata_json (mgr : Manager) (t : Q) : JSON :=
  JObj [("dependencies",
          JObj (map (fun kv => (kv.1, record_json kv.2))
                  (map_to_list (dependency_metadata mgr))));
        ("installed_deps",
          JObj (map (fun kv => (kv.1, JArr (map JStr kv.2)))
                  (map_to_list (installed_deps mgr))));
        ("last_updated", JFloat t)].

(** [_save_metadata]: a failure to write is logged, not raised. *)
Definition _save_metadata (st : State) : State :=
  let '(mgr, w) := st in
  let metadata_file := global_deps_dir mgr </> "metadata.json" in
  let '(t, w1) := time_time w in
  match Fs.write_file (fs w1) metadata_file (JsonDoc (metadata_json mgr t)) with
  | Some fs' => (mgr, set_fs fs' w1)
  | None => (mgr, w1)
  end.

(** The directory of one requirement: the package name and the first
    12 hex digits of the MD5 of the whole specifier. *)
Definition pkg_isolated_dir (info : PluginInfo) (pkg_name pkg_spec : string) : Path :=
  let pkg_hash := PyStr.take 12 (MD5.hexdigest pkg_spec) in
  isolated_deps_dir info </> (pkg_name ++ "_" ++ pkg_hash).

Definition dep_key (plugin_name pkg_name : string) : string :=
  plugin_name ++ ":" ++ pkg_name.

(** The end of the loop body, reached after an install or a cache hit:
    search path, path set, metadata. [record_dependency] is its effect
    on the manager, [t] being the reading of the clock. *)
Definition record_dependency (plugin_name pkg_name pkg_spec : string) (d : string)
    (t : Q) (mgr : Manager) : Manager :=
  let deps := default [] (installed_deps mgr !! plugin_name) in
  let mgr1 :=
    set_installed_deps (<[plugin_name := set_add d deps]> (installed_deps mgr)) mgr in
  let rec := {| package := pkg_name; spec := pkg_spec; install_dir := d;
                plugin := plugin_name; installed_time := t |} in
  set_dependency_metadata
    (<[dep_key plugin_name pkg_name := rec]> (dependency_metadata mgr1)) mgr1.

Definition track_dependency (plugin_name pkg_name pkg_spec : string) (d : Path)
    (st : State) : State :=
  let '(mgr, w) := st in
  let w1 :=
    if bool_decide (PyPath.str d ∈ sys_path w) then w
    else set_sys_path (PyPath.str d :: sys_path w) w in
  let '(t, w2) := time_time w1 in
  (record_dependency plugin_name pkg_name pkg_spec (PyPath.str d) t mgr, w2).

(** One turn of the loop: [Return true] when the requirement counted
    ([success_count += 1]), [Return false] when it was skipped
    ([continue]). *)
Definition process_requirement (plugin_name : string) (info : PluginInfo)
    (req : Requirement) (st : State) : result bool * State :=
  let '(pkg_name, pkg_spec, line_num) := req in
  let '(mgr, w) := st in
  let d := pkg_isolated_dir info pkg_name pkg_spec in
  if Fs.exists_ (fs w) d then
    (Return true, track_dependency plugin_name pkg_name pkg_spec d st)
  else
    let '(r, w') := _install_package_isolated pkg_spec d plugin_name w in
    match r with
    | Return true =>
        (Return true, track_dependency plugin_name pkg_name pkg_spec d (mgr, w'))
    | Return false => (Return false, (mgr, w'))
    | Raise e => (Raise e, (mgr, w'))
    end.

(** The loop over the requirements. *)
Fixpoint process_requirements (plugin_name : string) (info : PluginInfo)
    (reqs : list Requirement) (success_count : nat) (st : State) : result nat * State :=
  match reqs with
  | [] => (Return success_count, st)
  | req :: reqs' =>
      let '(r, st') := process_requirement plugin_name info req st in
      match r with
      | Return b =>
          process_requirements plugin_name info reqs'
            (if b then S success_count else success_count) st'
      | Raise e => (Raise e, st')
      end
  end.

(** [initialize_plugin_dependencies] *)
Definition initialize_plugin_dependencies (plugin_name : string) (st : State)
    : result bool * State :=
  let '(mgr, w) := st in
  match plugins_get (plugins mgr) plugin_name with
  | None => (Return false, st)
  | Some plugin_info =>
      let requirements := _parse_requirements w (requirements_file plugin_info) in
      match requirements with
      | [] => (Return true, st)
      | _ =>
          match Fs.mkdir_exist_ok (fs w) (isolated_deps_dir plugin_info) with
          | Raise e => (Raise e, st)
          | Return fs1 =>
              let '(r, st') :=
                process_requirements plugin_name plugin_info requirements 0
                  (mgr, set_fs fs1 w) in
              match r with
              | Return success_count =>
                  (Return (0 <? success_count)%nat, _save_metadata st')
              | Raise e => (Raise e, st')
              end
          end
      end
  end.

(** [auto_initialize_all_plugins] *)
Fixpoint initialize_each (names : list string) (st : State) : result unit * State :=
  match names with
  | [] => (Return tt, st)
  | n :: names' =>
      let '(r, st') := initialize_plugin_dependencies n st in
      match r with
      | Return _ => initialize_each names' st'
      | Raise e => (Raise e, st')
      end
  end.

Definition auto_initialize_all_plugins (st : State) : result unit * State :=
  initialize_each (map fst (plugins st.1)) st.

(** [cleanup_orphaned_deps], the method: its body is [pass]. *)
Definition cleanup_orphaned_deps (st : State) : State := st.

(** The outcome of every requirement in turn, as the loop meets it:
    [true] for an install or a cache hit, [false] for a skip. The list
    stops at a requirement that raises. *)
Fixpoint requirement_outcomes (plugin_name : string) (info : PluginInfo)
    (reqs : list Requirement) (st : State) : list bool :=
  match reqs with
  | [] => []
  | req :: reqs' =>
      let '(r, st') := process_requirement plugin_name info req st in
      match r with
      | Return b => b :: requirement_outcomes plugin_name info reqs' st'
      | Raise _ => []
      end
  end.

(** The requirements that counted, in the order of the loop, and the
    directory strings the loop recorded for them. *)
Definition counted (reqs : list Requirement) (outs : list bool) : list Requirement :=
  map fst (List.filter snd (zip reqs outs)).

(** The requirements that were skipped. *)
Definition skipped (reqs : list Requirement) (outs : list bool) : list Requirement :=
  map fst (List.filter (fun ro => negb ro.2) (zip reqs outs)).

Definition dir_string (info : PluginInfo) (req : Requirement) : string :=
  PyPath.str (pkg_isolated_dir info req.1.1 req.1.2).

Definition recorded_dirs (info : PluginInfo) (reqs : list Requirement)
    (outs : list bool) : list string :=
  map (dir_string info) (counted reqs outs).

(** The manager after the loop has recorded the requirements of [l],
    each with the reading of the clock taken for it. *)
Definition record_all (plugin_name : string) (info : PluginInfo)
    (l : list (Requirement * Q)) (mgr : Manager) : Manager :=
  fold_left
    (fun m rt =>
       record_dependency plugin_name rt.1.1.1 rt.1.1.2 (dir_string info rt.1) rt.2 m)
    l mgr.

(** [_load_metadata]: the manager with what the metadata file gives.
    Any exception is logged and leaves the attributes as they are at that
    point: the records are assigned before the path sets are built.
    [None] when the file gives the store a value that is not a dict of
    records or a set that is not made of texts. *)
Definition _load_metadata (mgr : Manager) (w : World) : option Manager :=
  let metadata_file := global_deps_dir mgr </> "metadata.json" in
  if Fs.exists_ (fs w) metadata_file then
    match fs w !! metadata_file with
    | Some (File (JsonDoc (JObj members))) =>
        let data := PyJson.dict_of members in
        match records_of_json (default (JObj []) (data !! "dependencies")) with
        | None => None
        | Some records =>
            let mgr1 := set_dependency_metadata records mgr in
            match default (JObj []) (data !! "installed_deps") with
            | JObj items =>
                let d := PyJson.dict_of items in
                if existsb (fun kv => PyJson.set_raises kv.2) (map_to_list d) then Some mgr1
                else if forallb (fun kv => bool_decide (is_Some (PyJson.str_elements kv.2)))
                          (map_to_list d)
                then Some (set_installed_deps
                             (omap (fun v => set_update [] <$> PyJson.str_elements v) d) mgr1)
                else None
            | _ => Some mgr1
            end
        end
    | _ => Some mgr
    end
  else Some mgr.

(** The loop of [_auto_discover_plugins] over the entries of the
    custom-nodes directory. An exception of [_register_plugin] ends it. *)
Fixpoint discover_each (entries : list Path) (st : State) : result unit * State :=
  match entries with
  | [] => (Return tt, st)
  | plugin_dir :: rest =>
      let '(mgr, w) := st in
      if Fs.is_dir (fs w) plugin_dir
         && negb (bool_decide (plugin_dir = deps_manager_dir mgr)) then
        let requirements_file := plugin_dir </> "requirements.txt" in
        if Fs.exists_ (fs w) requirements_file then
          let plugin_name := PyPath.name plugin_dir in
          let '(r, st') := _register_plugin plugin_name plugin_dir requirements_file st in
          match r with
          | Return _ => discover_each rest st'
          | Raise e => (Raise e, st')
          end
        else discover_each rest st
      else discover_each rest st
  end.

(** [_auto_discover_plugins]: listing a path that is not a directory
    raises. *)
Definition _auto_discover_plugins (st : State) : result unit * State :=
  let '(mgr, w) := st in
  match Fs.iterdir (fs w) (custom_nodes_dir mgr) with
  | Some entries => discover_each entries st
  | None =>
      if Fs.exists_ (fs w) (custom_nodes_dir mgr)
      then (Raise (OtherError "NotADirectoryError"), st)
      else (Raise FileNotFoundError, st)
  end.

(** [__init__], past the guard of the singleton; [current_dir] is
    [Path(__file__).parent]. [None] when the metadata file gives the store
    values it cannot hold, see [_load_metadata]. When the call raises, the
    attributes assigned so far stay. *)
Definition __init__ (current_dir : Path) (w : World) : option (result unit * State) :=
  let comfyui_root := _find_comfyui_root (fs w) current_dir in
  let custom_nodes_dir := comfyui_root </> "custom_nodes" in
  let deps_manager_dir := custom_nodes_dir </> "comfyui-dependency-isolation" in
  let global_deps_dir := deps_manager_dir </> "isolated_deps" in
  let mgr := {| custom_nodes_dir := custom_nodes_dir;
                deps_manager_dir := deps_manager_dir;
                global_deps_dir := global_deps_dir;
                plugins := []; installed_deps := ∅; dependency_metadata := ∅ |} in
  match Fs.mkdir_exist_ok (fs w) global_deps_dir with
  | Raise e => Some (Raise e, (mgr, w))
  | Return fs1 =>
      let w1 := set_fs fs1 w in
      match _load_metadata mgr w1 with
      | Some mgr1 => Some (_auto_discover_plugins (mgr1, w1))
      | None => None
      end
  end.

End WithHost.

End GlobalDependencyManager.

(* ===================================================================== *)
(** * [utils.py] *)
(* ===================================================================== *)

Module Utils.

Section WithHost.
Context {sets : PySet} {host : Host}.

(** The first loop of [cleanup_orphaned_deps]: the union of the path
    sets of the registered plugins. *)
Definition active_deps (mgr : Manager) : list string :=
  fold_left
    (fun acc plugin_name =>
       set_update acc (GlobalDependencyManager.get_plugin_deps_paths mgr plugin_name))
    (map fst (plugins mgr)) [].

(** Whether [q] lies at or below an immediate child directory of [root]
    whose own string is not in [active]. *)
Definition swept (tree : FS) (active : list string) (root q : Path) : bool :=
  let item := take (S (length root)) q in
  (length root <? length q)%nat
  && bool_decide (take (length root) q = root)
  && Fs.is_dir tree item
  && negb (bool_decide (PyPath.str item ∈ active)).

(** One turn of the second loop. A removal that raises is logged and
    leaves the tree as it was. *)
Definition cleanup_item (active : list string) (acc : FS * nat) (item : Path) : FS * nat :=
  let '(fs1, removed_count) := acc in
  if Fs.is_dir fs1 item && negb (bool_decide (PyPath.str item ∈ active)) then
    if removable fs1 item then (Fs.rmtree fs1 item, S removed_count)
    else (fs1, removed_count)
  else (fs1, removed_count).

(** [cleanup_orphaned_deps], the function: it returns nothing; the
    count is the one it logs. *)
Definition cleanup_orphaned_deps (st : State) : result nat * State :=
  let '(mgr, w) := st in
  let deps_dir := global_deps_dir mgr in
  let active := active_deps mgr in
  match Fs.iterdir (fs w) deps_dir with
  | None => (Raise FileNotFoundError, st)
  | Some items =>
      let '(fs', removed_count) := fold_left (cleanup_item active) items (fs w, 0%nat) in
      (Return removed_count, (mgr, set_fs fs' w))
  end.

End WithHost.

Section WithUnicode.
Context {unicode : Unicode}.

(** The texts one of which makes a line pass without a look at its
    characters. *)
Definition operators : list string := ["=="; ">="; "<="; ">"; "<"; "@"].

(** The test of [validate_requirements_file] on one line. *)
Definition valid_line (line : string) : bool :=
  let line := PyStr.strip line in
  if negb (String.eqb line "") && negb (PyStr.startswith line "#") then
    if negb (existsb (PyStr.contains line) operators) then
      if negb (PyText.isalnum (PyStr.remove_char "_" (PyStr.remove_char "-" line)))
      then false
      else true
    else true
  else true.

(** [validate_requirements_file]: the first line that fails ends the loop
    with [False]; a file that cannot be opened gives [False]. The text is
    taken to be valid UTF-8. [None] for a file held as a JSON document,
    whose text is not at hand. *)
Definition validate_requirements_file (w : World) (requirements_path : Path) : option bool :=
  match fs w !! requirements_path with
  | Some (File (Text content)) => Some (forallb valid_line (PyStr.lines content))
  | Some (File (JsonDoc _)) => None
  | _ => Some false
  end.

End WithUnicode.

(** [size_bytes < 1024.0] *)
Definition below_1024 (size_bytes : PyNum.Number) : bool :=
  match size_bytes with
  | PyNum.PyInt z => (z <? 1024)%Z
  | PyNum.PyFloat q => negb (Qle_bool 1024 q)
  end.

(** [f"{size_bytes:.2f} {unit}"]: an int is made a float first. *)
Definition format_size (size_bytes : PyNum.Number) (unit : string) : result string :=
  match size_bytes with
  | PyNum.PyInt z =>
      match PyNum.float_of_int z with
      | Return x => Return (PyNum.format_2f x ++ " " ++ unit)%string
      | Raise e => Raise e
      end
  | PyNum.PyFloat x => Return (PyNum.format_2f x ++ " " ++ unit)%string
  end.

(** [size_bytes /= 1024.0]. The quotient is exact: the value is at
    least 1024 where the loop divides, and 1024 is a power of two. *)
Definition divide_1024 (size_bytes : PyNum.Number) : result Q :=
  match size_bytes with
  | PyNum.PyInt z =>
      match PyNum.float_of_int z with
      | Return x => Return (x / 1024)%Q
      | Raise e => Raise e
      end
  | PyNum.PyFloat x => Return (x / 1024)%Q
  end.

Fixpoint format_units (units : list string) (size_bytes : PyNum.Number) : result string :=
  match units with
  | [] => format_size size_bytes "TB"
  | unit :: units' =>
      if below_1024 size_bytes then format_size size_bytes unit
      else
        match divide_1024 size_bytes with
        | Return x => format_units units' (PyNum.PyFloat x)
        | Raise e => Raise e
        end
  end.

(** [format_file_size] *)
Definition format_file_size (size_bytes : Z) : result string :=
  format_units ["B"; "KB"; "MB"; "GB"] (PyNum.PyInt size_bytes).

End Utils.

(* ===================================================================== *)
(** * [auto_patcher.py] *)
(* ===================================================================== *)

(** The attributes of the one [AutoImportPatcher] object;
    [_original_import_saved] is [None] until the attribute is set. *)
Record Patcher := {
  original_import : ImportFn;
  _original_import_saved : option ImportFn;
  patched_plugins : list string
}.

Module AutoImportPatcher.

(** [__init__]: the patcher keeps the entry point it finds. *)
Definition init (w : World) : Patcher :=
  {| original_import := builtins_import w;
     _original_import_saved := None;
     patched_plugins := [] |}.

(** The plugin, in dict order, whose directory string [filename] starts
    with. *)
Fixpoint owner (ps : list (string * PluginInfo)) (filename : string) : option string :=
  match ps with
  | [] => None
  | (plugin_name, plugin_info) :: ps' =>
      if PyStr.startswith filename (PyPath.str (dir plugin_info)) then Some plugin_name
      else owner ps' filename
  end.

Fixpoint first_owner (ps : list (string * PluginInfo)) (frames : list string) : option string :=
  match frames with
  | [] => None
  | filename :: frames' =>
      match owner ps filename with
      | Some plugin_name => Some plugin_name
      | None => first_owner ps frames'
      end
  end.

(** [_get_caller_plugin]: [stack] holds the file names of the frames
    above its own, nearest first (the first is [custom_import]'s); ten
    of them are looked at. *)
Definition _get_caller_plugin (mgr : Manager) (stack : list string) : option string :=
  first_owner (plugins mgr) (firstn 10 stack).

Section WithHost.
Context {sets : PySet} {host : Host}.

(** A call of [self._original_import_saved]. The attribute holds the
    entry point the patcher found when it was built, which [Host]
    provides. A closure of the patcher itself there would call itself
    without end. *)
Definition call_saved (p : Patcher) (args : ImportArgs) (w : World)
    : ImportOutcome * World :=
  match _original_import_saved p with
  | Some Original => baseline_import args w
  | Some (Custom _) => (Raised RecursionError, w)
  | None => (Raised AttributeError, w)
  end.

(** The loop of [custom_import] over the plugin's directories: [Some]
    when the loop leaves the function (by [return] or by an exception),
    [None] when it runs to its end. *)
Fixpoint try_isolated (p : Patcher) (args : ImportArgs) (plugin_deps : list string)
    (w : World) : option ImportOutcome * World :=
  match plugin_deps with
  | [] => (None, w)
  | deps_path :: rest =>
      let original_sys_path := sys_path w in
      let w1 := set_sys_path (deps_path :: sys_path w) w in
      let '(out, w2) := call_saved p args w1 in
      match out with
      | Imported m => (Some (Imported m), set_sys_path original_sys_path w2)
      | Raised e =>
          if is_ImportError e then
            try_isolated p args rest (set_sys_path original_sys_path w2)
          else if is_Exception e then
            (Some (Raised e), set_sys_path original_sys_path w2)
          else (Some (Raised e), w2)
      end
  end.

(** The attempts with the directories of [ds], made in turn from [w],
    all end in module-not-found; [w'] is the world after the last of
    them, search path restored. *)
Inductive all_not_found (args : ImportArgs) : list string -> World -> World -> Prop :=
  | anf_nil (w : World) : all_not_found args [] w w
  | anf_cons (d : string) (ds : list string) (w w2 w' : World) (e : exn) :
      baseline_import args (set_sys_path (d :: sys_path w) w) = (Raised e, w2) ->
      is_ImportError e = true ->
      all_not_found args ds (set_sys_path (sys_path w) w2) w' ->
      all_not_found args (d :: ds) w w'.

(** [custom_import], the closure: it reads the patcher and the manager
    when it is called. *)
Definition custom_import (mgr : Manager) (p : Patcher) (stack : list string)
    (args : ImportArgs) (w : World) : ImportOutcome * World :=
  match _get_caller_plugin mgr stack with
  | Some caller_plugin =>
      if negb (String.eqb caller_plugin "")
         && bool_decide (caller_plugin ∈ patched_plugins p) then
        let plugin_deps :=
          GlobalDependencyManager.get_plugin_deps_paths mgr caller_plugin in
        match try_isolated p args plugin_deps w with
        | (Some out, w') => (out, w')
        | (None, w') => call_saved p args w'
        end
      else call_saved p args w
  | None => call_saved p args w
  end.

(** A call of [builtins.__import__], whatever it holds. *)
Definition call_import (f : ImportFn) (mgr : Manager) (p : Patcher)
    (stack : list string) (args : ImportArgs) (w : World) : ImportOutcome * World :=
  match f with
  | Original => baseline_import args w
  | Custom _ => custom_import mgr p stack args w
  end.

(** [patch_plugin_imports] *)
Definition patch_plugin_imports (mgr : Manager) (plugin_name : string)
    (pw : Patcher * World) : Patcher * World :=
  let '(p, w) := pw in
  if bool_decide (plugin_name ∈ patched_plugins p) then pw
  else
    let plugin_deps_paths :=
      GlobalDependencyManager.get_plugin_deps_paths mgr plugin_name in
    match plugin_deps_paths with
    | [] => pw
    | _ =>
        let saved :=
          match _original_import_saved p with
          | Some f => Some f
          | None => Some (original_import p)
          end in
        let custom_import := Custom (next_fn w) in
        ({| original_import := original_import p;
            _original_import_saved := saved;
            patched_plugins := set_add plugin_name (patched_plugins p) |},
         set_builtins_import custom_import (S (next_fn w)) w)
    end.

(** [restore_import] *)
Definition restore_import (pw : Patcher * World) : Patcher * World :=
  let '(p, w) := pw in
  match _original_import_saved p with
  | Some f =>
      ({| original_import := original_import p;
          _original_import_saved := Some f;
          patched_plugins := [] |},
       set_builtins_import f (next_fn w) w)
  | None => pw
  end.

(** [get_patched_plugins] *)
Definition get_patched_plugins (p : Patcher) : list string := patched_plugins p.

(** The states of a patcher built in the world [w0] and driven by calls
    of [patch_plugin_imports] and [restore_import]; the manager may differ
    from call to call. *)
Inductive patcher_run (w0 : World) : Patcher * World -> Prop :=
  | run_init : patcher_run w0 (init w0, w0)
  | run_patch (mgr : Manager) (plugin_name : string) (pw : Patcher * World) :
      patcher_run w0 pw -> patcher_run w0 (patch_plugin_imports mgr plugin_name pw)
  | run_restore (pw : Patcher * World) :
      patcher_run w0 pw -> patcher_run w0 (restore_import pw).

End WithHost.

End AutoImportPatcher.

(* ===================================================================== *)
(** * [config.py] *)
(* ===================================================================== *)

(** A configuration: a dict from option names to JSON values, compared as
    Python compares dicts, by content. *)
Abbreviation ConfigDict := (gmap string JSON).

Module Config.

Definition DEFAULT_CONFIG : ConfigDict :=
  list_to_map
    [("auto_initialize", JBool true);
     ("check_updates", JBool false);
     ("timeout", JInt 300);
     ("mirror_url", JStr "");
     ("log_level", JStr "INFO");
     ("cleanup_orphaned", JBool true);
     ("max_cache_size", JStr "1GB");
     ("enable_web_ui", JBool true)].

(** The number of characters of a text: the bytes that do not continue
    a UTF-8 sequence. *)
Definition is_lead (c : ascii) : bool :=
  let n := nat_of_ascii c in (n <? 128)%nat || (192 <=? n)%nat.

Definition text_length (s : string) : nat :=
  length (List.filter is_lead (list_ascii_of_string s)).

(** The first character of a text, and what follows it. *)
Fixpoint rest_of_char (s : string) : string :=
  match s with
  | EmptyString => EmptyString
  | String c s' => if is_lead c then s else rest_of_char s'
  end.

Definition split_char (s : string) : string * string :=
  match s with
  | EmptyString => (EmptyString, EmptyString)
  | String c s' =>
      let r := rest_of_char s' in
      (PyStr.take (String.length s - String.length r) s, r)
  end.

(** The keys of a JSON object as a dict lists them: every key once, at
    its first place. *)
Fixpoint dict_keys (members : list (string * JSON)) (seen : list string) : list string :=
  match members with
  | [] => []
  | (k, _) :: members' =>
      if bool_decide (k ∈ seen) then dict_keys members' seen
      else k :: dict_keys members' (k :: seen)
  end.

(** An element of an update sequence: it must yield exactly two items,
    the key and the value. A non-empty text yields its characters, an
    object its keys. [None] when [dict.update] raises on the element. *)
Definition as_pair (j : JSON) : option (JSON * JSON) :=
  match j with
  | JArr [k; v] => Some (k, v)
  | JStr s =>
      if (text_length s =? 2)%nat then
        let '(c1, c2) := split_char s in Some (JStr c1, JStr c2)
      else None
  | JObj members =>
      match dict_keys members [] with
      | [k1; k2] => Some (JStr k1, JStr k2)
      | _ => None
      end
  | _ => None
  end.

(** Whether a JSON value can be a dict key. *)
Definition hashable (j : JSON) : bool :=
  match j with
  | JArr _ | JObj _ => false
  | _ => true
  end.

Inductive Updated :=
  | UpdatedTo (config : ConfigDict)
  | UpdateRaises
  | KeyNotText.

(** [config.update(pairs)] for a list: every element must be a pair with
    a hashable key. A key that is hashable and not a text gives a dict
    outside [ConfigDict]: [KeyNotText], unless a later element raises. *)
Fixpoint update_pairs (config : ConfigDict) (l : list JSON) (text_keys : bool) : Updated :=
  match l with
  | [] => if text_keys then UpdatedTo config else KeyNotText
  | j :: l' =>
      match as_pair j with
      | Some (JStr k, v) => update_pairs (<[k := v]> config) l' text_keys
      | Some (k, v) => if hashable k then update_pairs config l' false else UpdateRaises
      | None => UpdateRaises
      end
  end.

(** [config.update(user_config)] for whatever [json.load] returned: an
    object updates key by key, a list is a sequence of pairs, a text is
    the sequence of its characters (none of which is a pair), anything
    else is not iterable. *)
Definition dict_update (config : ConfigDict) (user_config : JSON) : Updated :=
  match user_config with
  | JObj members =>
      UpdatedTo (fold_left (fun m kv => <[kv.1 := kv.2]> m) members config)
  | JArr l => update_pairs config l true
  | JStr s => if String.eqb s "" then UpdatedTo config else UpdateRaises
  | _ => UpdateRaises
  end.

Section WithPackageDir.
(** The directory of [config.py], [Path(__file__).parent]. *)
Variable package_dir : Path.

Definition config_path : Path := package_dir </> "config.json".

(** [load_config]: [None] only for a file holding a list of pairs with
    a key that is not a text, whose result is a dict outside
    [ConfigDict]. Any exception gives the defaults. *)
Definition load_config (w : World) : option ConfigDict :=
  if Fs.exists_ (fs w) config_path then
    match fs w !! config_path with
    | Some (File (JsonDoc user_config)) =>
        match dict_update DEFAULT_CONFIG user_config with
        | UpdatedTo config => Some config
        | UpdateRaises => Some DEFAULT_CONFIG
        | KeyNotText => None
        end
    | _ => Some DEFAULT_CONFIG
    end
  else Some DEFAULT_CONFIG.

(** [save_config]: a failure to write is logged, not raised. *)
Definition save_config (config : ConfigDict) (w : World) : World :=
  match Fs.write_file (fs w) config_path (JsonDoc (JObj (map_to_list config))) with
  | Some fs' => set_fs fs' w
  | None => w
  end.

(** [get_web_config] *)
Definition get_web_config (w : World) : option ConfigDict :=
  match load_config w with
  | Some config =>
      Some (list_to_map
        [("auto_initialize", default (JBool true) (config !! "auto_initialize"));
         ("enable_web_ui", default (JBool true) (config !! "enable_web_ui"));
         ("log_level", default (JStr "INFO") (config !! "log_level"))])
  | None => None
  end.

End WithPackageDir.

End Config.

(* ===================================================================== *)
(** * [__init__.py] *)
(* ===================================================================== *)

Module Init.

(** What the package holds once its body has run: the manager, when
    [dependency_manager] could be imported, and the patcher, when
    [get_auto_patcher] was called. *)
Record Loaded := { manager : option Manager; auto_patcher : option Patcher }.

Section WithHost.
Context {sets : PySet} {host : Host}.

(** The loop over the registered plugins that enables interception. *)
Definition patch_each (mgr : Manager) (names : list string) (pw : Patcher * World)
    : Patcher * World :=
  fold_left (fun pw plugin_name => AutoImportPatcher.patch_plugin_imports mgr plugin_name pw)
    names pw.

(** [get_auto_patcher().patch_plugin_imports(plugin_name)] for every
    registered plugin: the patcher is built at the first call. *)
Definition patch_all (mgr : Manager) (w : World) : option Patcher * World :=
  match GlobalDependencyManager.list_plugins mgr with
  | [] => (None, w)
  | names =>
      let '(p, w') := patch_each mgr names (AutoImportPatcher.init w, w) in
      (Some p, w')
  end.

(** The body of the package, run when the host imports it;
    [package_dir] is [Path(__file__).parent]. An exception of class
    [Exception] is logged and ends the [try] statement; any other passes
    to the host. [None] when a file read on the way gives a value outside
    the typed store, see [_load_metadata] and [Config.load_config]. *)
Definition startup (package_dir : Path) (w : World) : option (result Loaded * World) :=
  let w0 := set_sys_path (PyPath.str package_dir :: sys_path w) w in
  let caught (e : exn) (l : Loaded) (w' : World) :=
    if is_Exception e then (Return l, w') else (Raise e, w') in
  match GlobalDependencyManager.__init__ package_dir w0 with
  | None => None
  | Some (Raise e, (_, w1)) =>
      Some (caught e {| manager := None; auto_patcher := None |} w1)
  | Some (Return _, (mgr, w1)) =>
      match Config.load_config package_dir w1 with
      | None => None
      | Some config =>
          if PyJson.truthy (default (JBool true) (config !! "auto_initialize")) then
            let '(r, (mgr2, w2)) :=
              GlobalDependencyManager.auto_initialize_all_plugins (mgr, w1) in
            match r with
            | Raise e =>
                Some (caught e {| manager := Some mgr2; auto_patcher := None |} w2)
            | Return _ =>
                let '(p, w3) := patch_all mgr2 w2 in
                Some (Return {| manager := Some mgr2; auto_patcher := p |}, w3)
            end
          else Some (Return {| manager := Some mgr; auto_patcher := None |}, w1)
      end
  end.

End WithHost.

End Init.

(* ===================================================================== *)
(** * A small host to run the model on *)
(* ===================================================================== *)

Module Demo.

(** [mkdir -p]: the directory and the ancestors it lacks. *)
Fixpoint makedirs (fuel : nat) (fs : FS) (p : Path) : FS :=
  match fuel with
  | O => fs
  | S fuel' =>
      match fs !! p with
      | Some _ => fs
      | None => <[p := Dir]> (makedirs fuel' fs (PyPath.parent p))
      end
  end.

(** An installer: a specifier starting with [missing] has no matching
    distribution (exit status 1), one starting with [slow] runs into the
    time limit, one starting with [noexec] cannot be started; any other
    is unpacked as one module file under the target directory. *)
Definition pip (n : nat) (cmd : list string) (t : Z) (fs : FS) : ProcOutcome * FS :=
  let pkg_spec := nth 4 cmd "" in
  let target := PyPath.parse (nth 6 cmd "") in
  if PyStr.startswith pkg_spec "missing" then
    (Completed 1 "ERROR: No matching distribution found", fs)
  else if PyStr.startswith pkg_spec "slow" then (TimedOut, fs)
  else if PyStr.startswith pkg_spec "noexec" then (Failed "PermissionError", fs)
  else
    let pkg_name :=
      PyStr.split_head "<=" (PyStr.split_head ">=" (PyStr.split_head "==" pkg_spec)) in
    (Completed 0 "",
     <[target ++ [(pkg_name ++ ".py")%string] := File (Text ("# " ++ pkg_spec)%string)]>
       (makedirs (length target) fs target)).

(** The module file [name.py] of the first directory of the search path
    that has one. *)
Fixpoint find_module (fs : FS) (path : list string) (name : string)
    : option (string * string) :=
  match path with
  | [] => None
  | d :: path' =>
      let file := PyPath.parse d ++ [(name ++ ".py")%string] in
      match fs !! file with
      | Some (File (Text src)) => Some (PyPath.str file, src)
      | _ => find_module fs path' name
      end
  end.

Definition cached (w : World) (name : string) : option Module_ :=
  snd <$> List.find (fun kv => String.eqb kv.1 name) (sys_modules w).

Definition add_module (m : Module_) (w : World) : World :=
  {| fs := fs w; sys_path := sys_path w;
     sys_modules := (mod_name m, m) :: sys_modules w;
     sys_executable := sys_executable w; builtins_import := builtins_import w;
     next_fn := next_fn w; ticks := ticks w; pip_log := pip_log w |}.

(** An importer: a module already loaded is returned as it is; otherwise
    the search path is walked. Running the source of a module raises what
    its first statement raises. *)
Definition importer (args : ImportArgs) (w : World) : ImportOutcome * World :=
  match cached w (name args) with
  | Some m => (Imported m, w)
  | None =>
      match find_module (fs w) (sys_path w) (name args) with
      | None => (Raised ModuleNotFoundError, w)
      | Some (origin, src) =>
          if PyStr.startswith src "raise SystemExit" then (Raised SystemExit, w)
          else if PyStr.startswith src "raise RuntimeError" then
            (Raised (OtherError "RuntimeError"), w)
          else
            let m := {| mod_name := name args; mod_origin := origin |} in
            (Imported m, add_module m w)
      end
  end.

Definition host : Host :=
  {| clock := fun n => inject_Z (1700000000 + Z.of_nat n);
     run_process := pip;
     removable := fun _ _ => true;
     baseline_import := importer |}.

(** A host installation with two plugins. *)
Definition root : Path := ["/"; "ComfyUI"].
Definition nodes : Path := root </> "custom_nodes".
Definition manager_dir : Path := nodes </> "comfyui-dependency-isolation".
Definition deps_dir : Path := manager_dir </> "isolated_deps".

Definition newline : string := PyStr.bytes [10].

Definition fs0 : FS :=
  list_to_map
    [(["/"], Dir); (root, Dir); (root ++ ["main.py"], File (Text ""));
     (nodes, Dir); (manager_dir, Dir); (deps_dir, Dir);
     (nodes ++ ["plugin_a"], Dir);
     (nodes ++ ["plugin_a"; "requirements.txt"],
       File (Text ("# image tools" ++ newline ++ "numpy==1.21.0" ++ newline
                   ++ "pillow>=9.0.0" ++ newline)%string));
     (nodes ++ ["plugin_b"], Dir);
     (nodes ++ ["plugin_b"; "requirements.txt"],
       File (Text ("numpy==1.21.0" ++ newline ++ "missing-package==0.1" ++ newline
                   ++ "numpy>=1.24" ++ newline)%string));
     (["/"; "usr"], Dir); (["/"; "usr"; "lib"], Dir);
     (["/"; "usr"; "lib"; "numpy.py"], File (Text "# numpy 2.0"))].

Definition world0 : World :=
  {| fs := fs0; sys_path := ["/usr/lib"]; sys_modules := [];
     sys_executable := "/usr/bin/python3"; builtins_import := Original;
     next_fn := 0; ticks := 0; pip_log := [] |}.

Definition manager0 : Manager :=
  {| custom_nodes_dir := nodes; deps_manager_dir := manager_dir;
     global_deps_dir := deps_dir; plugins := [];
     installed_deps := ∅; dependency_metadata := ∅ |}.

(** A character table for texts in ASCII: no other character counts as
    alphanumeric. *)
Definition ascii_table : Unicode := {| isalnum_wide := fun _ => false |}.

(** The installation with the package cloned under the name of its
    repository. *)
Definition cloned_dir : Path := nodes </> "Comfyui-Dependency-isolation".

Definition world_cloned : World :=
  set_fs (<[cloned_dir := Dir]> (delete deps_dir (delete manager_dir fs0))) world0.

(** The installation with a configuration file that switches start-up
    off. *)
Definition user_config : list (string * JSON) :=
  [("auto_initialize", JBool false); ("timeout", JInt 60)].

Definition world_configured : World :=
  set_fs (<[manager_dir </> "config.json" := File (JsonDoc (JObj user_config))]> fs0) world0.

Definition configured : ConfigDict :=
  <["timeout" := JInt 60]> (<["auto_initialize" := JBool false]> Config.DEFAULT_CONFIG).

(** The installation with a third plugin, whose requirement asks for an
    extra. *)
Definition requirements_c : Path := nodes </> "plugin_c" </> "requirements.txt".

Definition world_extras : World :=
  set_fs (<[requirements_c :=
              File (Text ("# http" ++ newline ++ "requests[socks]" ++ newline)%string)]>
            (<[nodes </> "plugin_c" := Dir]> fs0)) world0.

Section Runs.
Context (sets : PySet).
#[local] Existing Instance host.

Definition register (plugin_name : string) (st : State) : State :=
  (GlobalDependencyManager._register_plugin plugin_name
     (nodes </> plugin_name) (nodes </> plugin_name </> "requirements.txt") st).2.

(** After discovery of the two plugins. *)
Definition discovered : State := register "plugin_b" (register "plugin_a" (manager0, world0)).

(** [plugin_a] as the loop of [initialize_plugin_dependencies] meets
    it: its entry, its requirements, and the state once its private
    root is made. *)
Definition info_a : PluginInfo :=
  default {| dir := []; requirements_file := []; deps_hash := "";
             isolated_deps_dir := []; registered_time := 0 |}
    (GlobalDependencyManager.plugins_get (plugins discovered.1) "plugin_a").

Definition info_b : PluginInfo :=
  default info_a
    (GlobalDependencyManager.plugins_get (plugins discovered.1) "plugin_b").

Definition reqs_a : list Requirement :=
  GlobalDependencyManager._parse_requirements discovered.2 (requirements_file info_a).

Definition ready_a : State :=
  (discovered.1,
   set_fs (<[isolated_deps_dir info_a := Dir]> (fs discovered.2)) discovered.2).

Definition initialize (plugin_name : string) (st : State) : State :=
  (GlobalDependencyManager.initialize_plugin_dependencies plugin_name st).2.

(** After [initialize_plugin_dependencies] for [plugin_a], and for
    both. *)
Definition initialized_a : State := initialize "plugin_a" discovered.
Definition initialized : State := initialize "plugin_b" initialized_a.

(** After orphan cleanup. *)
Definition cleaned : State := (Utils.cleanup_orphaned_deps initialized).2.

(** A later process on the tree that [initialized] leaves. *)
Definition restarted : World := set_fs (fs initialized.2) world0.

(** After [patch_plugin_imports] for [plugin_a], and for both. *)
Definition patched_a : Patcher * World :=
  AutoImportPatcher.patch_plugin_imports initialized.1 "plugin_a"
    (AutoImportPatcher.init initialized.2, initialized.2).

Definition patched : Patcher * World :=
  AutoImportPatcher.patch_plugin_imports initialized.1 "plugin_b" patched_a.

(** The call stack of an import statement in [plugin_a/nodes.py], seen
    from [_get_caller_plugin]. *)
Definition stack_a : list string :=
  [PyPath.str (manager_dir </> "auto_patcher.py");
   PyPath.str (nodes </> "plugin_a" </> "nodes.py");
   PyPath.str (root </> "execution.py");
   PyPath.str (root </> "main.py")].

Definition import_of (module_name : string) : ImportArgs :=
  {| name := module_name; fromlist := []; level := 0 |}.

(** [import m] from [plugin_a], everything patched. *)
Definition import_from_a (module_name : string) (w : World) : ImportOutcome * World :=
  AutoImportPatcher.custom_import initialized.1 patched.1 stack_a
    (import_of module_name) w.

(** The patched world with one more module in the first directory
    [plugin_a] has on record, whose source is [src]. *)
Definition with_module (module_name src : string) : World :=
  let d := hd "" (GlobalDependencyManager.get_plugin_deps_paths initialized.1 "plugin_a") in
  set_fs (<[PyPath.parse d ++ [(module_name ++ ".py")%string] := File (Text src)]>
            (fs patched.2)) patched.2.
End Runs.

End Demo.

(* ===================================================================== *)
(** * Properties *)
(* ===================================================================== *)

Import GlobalDependencyManager.

(** ** The hash and the parser on known values *)

Example md5_empty : MD5.hexdigest "" = "d41d8cd98f00b204e9800998ecf8427e".
Proof. vm_compute. reflexivity. Qed.

Example md5_abc : MD5.hexdigest "abc" = "900150983cd24fb0d6963f7d28e17f72".
Proof. vm_compute. reflexivity. Qed.

Example md5_two_blocks :
  MD5.hexdigest "aaaaaaaaaaaaaaaaaaaaaaaaaaaaaaaaaaaaaaaaaaaaaaaaaaaaaaaaaaaaaaaa"
  = "014842d480b571495a4a0363793f7367".
Proof. vm_compute. reflexivity. Qed.

Example parse_plugin_b :
  _parse_requirements Demo.world0 (Demo.nodes ++ ["plugin_b"; "requirements.txt"])
  = [("numpy", "numpy==1.21.0", 1%nat);
     ("missing-package", "missing-package==0.1", 2%nat);
     ("numpy", "numpy>=1.24", 3%nat)].
Proof. vm_compute. reflexivity. Qed.

Example div_url :
  ["/"; "r"] </> "git+https://host/x.git_0123" = ["/"; "r"; "git+https:"; "host"; "x.git_0123"].
Proof. vm_compute. reflexivity. Qed.

(** ** Sets *)

Section SetFacts.
Context {sets : PySet}.

Lemma elem_of_set_add (x y : string) (s : list string) :
  y ∈ set_add x s <-> y = x \/ y ∈ s.
Proof.
  destruct (decide (x ∈ s)) as [Hin | Hnin].
  - rewrite (set_add_present x s Hin). split; [by right | intros [-> | ?]; done].
  - rewrite (set_add_fresh x s Hnin). apply elem_of_cons.
Qed.

Lemma NoDup_set_add (x : string) (s : list string) :
  NoDup s -> NoDup (set_add x s).
Proof.
  intros Hs. destruct (decide (x ∈ s)) as [Hin | Hnin].
  - by rewrite (set_add_present x s Hin).
  - rewrite (set_add_fresh x s Hnin). by apply NoDup_cons.
Qed.

Lemma elem_of_set_update (y : string) (l s : list string) :
  y ∈ set_update s l <-> y ∈ s \/ y ∈ l.
Proof.
  unfold set_update. revert s. induction l as [| x l IH]; intros s; simpl.
  - split; [by left | intros [? | Hnil]; [done | by apply elem_of_nil in Hnil]].
  - rewrite IH, elem_of_set_add, elem_of_cons. tauto.
Qed.
End SetFacts.

(** ** The installer *)

Section InstallerFacts.
Context {host : Host}.

Lemma subprocess_run_exception (cmd : list string) (t : Z) (w w' : World) (e : exn) :
  subprocess_run cmd t w = (Raise e, w') -> is_Exception e = true.
Proof.
  unfold subprocess_run. destruct (run_process _ _ _ _) as [out fs'].
  destruct out; intros [= <- _]; reflexivity.
Qed.

Lemma install_returns (pkg_spec : string) (target_dir : Path) (plugin_name : string)
    (w : World) :
  exists b w', _install_package_isolated pkg_spec target_dir plugin_name w = (Return b, w').
Proof.
  unfold _install_package_isolated.
  destruct (subprocess_run _ _ _) as [r w'] eqn:Hrun.
  destruct r as [res | e]; [by eauto |].
  destruct (is_TimeoutExpired e); [by eauto |].
  rewrite (subprocess_run_exception _ _ _ _ _ Hrun). by eauto.
Qed.
End InstallerFacts.


(** ** The loop of [initialize_plugin_dependencies] *)

#[local] Arguments track_dependency : simpl never.
#[local] Arguments _install_package_isolated : simpl never.
#[local] Arguments process_requirement : simpl never.
#[local] Arguments _save_metadata : simpl never.

Section LoopFacts.
Context {sets : PySet} {host : Host}.

Lemma get_record_dependency_same (plugin_name n s d : string) (t : Q) (mgr : Manager) :
  get_plugin_deps_paths (record_dependency plugin_name n s d t mgr) plugin_name
  = set_add d (get_plugin_deps_paths mgr plugin_name).
Proof.
  unfold get_plugin_deps_paths, record_dependency. simpl. by rewrite lookup_insert_eq.
Qed.

Lemma get_record_dependency_other (plugin_name q n s d : string) (t : Q) (mgr : Manager) :
  q <> plugin_name ->
  get_plugin_deps_paths (record_dependency plugin_name n s d t mgr) q
  = get_plugin_deps_paths mgr q.
Proof.
  intros Hq. unfold get_plugin_deps_paths, record_dependency. simpl.
  by rewrite lookup_insert_ne.
Qed.

Lemma track_dependency_world (plugin_name n s : string) (d : Path) (mgr : Manager)
    (w : World) :
  exists t,
    (track_dependency plugin_name n s d (mgr, w)).1
    = record_dependency plugin_name n s (PyPath.str d) t mgr
    /\ fs (track_dependency plugin_name n s d (mgr, w)).2 = fs w
    /\ pip_log (track_dependency plugin_name n s d (mgr, w)).2 = pip_log w.
Proof.
  unfold track_dependency, time_time. cbn.
  destruct (bool_decide _); cbn; eexists; split; try reflexivity; split; reflexivity.
Qed.

(** One turn of the loop never raises; it leaves the manager alone when
    the requirement is skipped and records the requirement otherwise. A
    directory that exists is a cache hit, without any subprocess. *)
Lemma process_requirement_step (plugin_name : string) (info : PluginInfo)
    (req : Requirement) (mgr : Manager) (w : World) :
  exists b mgr' w',
    process_requirement plugin_name info req (mgr, w) = (Return b, (mgr', w'))
    /\ (if b then
          exists t, mgr' = record_dependency plugin_name req.1.1 req.1.2
                             (dir_string info req) t mgr
        else mgr' = mgr)
    /\ (Fs.exists_ (fs w) (pkg_isolated_dir info req.1.1 req.1.2) = true ->
        b = true /\ fs w' = fs w /\ pip_log w' = pip_log w).
Proof.
  destruct req as [[n s] l]. unfold process_requirement, dir_string. cbn [fst snd].
  destruct (Fs.exists_ (fs w) (pkg_isolated_dir info n s)) eqn:Hex.
  - destruct (track_dependency_world plugin_name n s (pkg_isolated_dir info n s) mgr w)
      as (t & Hm & Hfs & Hlog).
    destruct (track_dependency _ _ _ _ _) as [mgr' w']. cbn [fst snd] in Hm, Hfs, Hlog.
    exists true, mgr', w'. split; [reflexivity |]. split; [by eauto |]. done.
  - destruct (install_returns s (pkg_isolated_dir info n s) plugin_name w)
      as (b & w1 & Hinst).
    rewrite Hinst. destruct b.
    + destruct (track_dependency_world plugin_name n s (pkg_isolated_dir info n s) mgr w1)
        as (t & Hm & _).
      destruct (track_dependency _ _ _ _ _) as [mgr' w']. cbn [fst snd] in Hm.
      exists true, mgr', w'. split; [reflexivity |]. split; [by eauto |]. done.
    + exists false, mgr, w1. split; [reflexivity |]. split; done.
Qed.

Lemma requirement_outcomes_length (plugin_name : string) (info : PluginInfo)
    (reqs : list Requirement) (st : State) :
  length (requirement_outcomes plugin_name info reqs st) = length reqs.
Proof.
  revert st. induction reqs as [| req reqs IH]; intros [mgr w]; [reflexivity |].
  simpl. destruct (process_requirement_step plugin_name info req mgr w)
    as (b & mgr' & w' & Hstep & _).
  rewrite Hstep. simpl. by rewrite IH.
Qed.

(** The loop as a whole: it returns, having counted the requirements
    whose outcome is [true]. *)
Lemma process_requirements_returns (plugin_name : string) (info : PluginInfo)
    (reqs : list Requirement) (c : nat) (st : State) :
  exists st',
    process_requirements plugin_name info reqs c st
    = (Return (c + length (counted reqs (requirement_outcomes plugin_name info reqs st)))%nat,
       st').
Proof.
  revert c st. induction reqs as [| req reqs IH]; intros c [mgr w].
  - simpl. exists (mgr, w). unfold counted. simpl. by rewrite Nat.add_0_r.
  - simpl. destruct (process_requirement_step plugin_name info req mgr w)
      as (b & mgr' & w' & Hstep & _).
    rewrite Hstep.
    destruct (IH (if b then S c else c) (mgr', w')) as [st' Hst'].
    exists st'. rewrite Hst'. f_equal. f_equal. unfold counted. simpl.
    destruct b; simpl; lia.
Qed.

(** Running the loop over [l1 ++ l2] is running it over [l1], then over
    [l2] from the state reached. *)
Lemma process_requirements_app (plugin_name : string) (info : PluginInfo)
    (l1 l2 : list Requirement) (c : nat) (st : State) :
  process_requirements plugin_name info (l1 ++ l2) c st
  = match process_requirements plugin_name info l1 c st with
    | (Return c1, st1) => process_requirements plugin_name info l2 c1 st1
    | (Raise e, st1) => (Raise e, st1)
    end.
Proof.
  revert c st. induction l1 as [| req l1 IH]; intros c st; simpl.
  - reflexivity.
  - destruct (process_requirement plugin_name info req st) as [r st'].
    destruct r as [b | e]; [apply IH | reflexivity].
Qed.

Lemma requirement_outcomes_app (plugin_name : string) (info : PluginInfo)
    (l1 l2 : list Requirement) (c : nat) (st : State) :
  requirement_outcomes plugin_name info (l1 ++ l2) st
  = requirement_outcomes plugin_name info l1 st
    ++ requirement_outcomes plugin_name info l2
         (process_requirements plugin_name info l1 c st).2.
Proof.
  revert c st. induction l1 as [| req l1 IH]; intros c [mgr w]; simpl.
  - reflexivity.
  - destruct (process_requirement_step plugin_name info req mgr w)
      as (b & mgr' & w' & Hstep & _).
    rewrite Hstep. simpl. f_equal. apply IH.
Qed.
End LoopFacts.

(** ** The store after the loop *)

Section StoreFacts.
Context {sets : PySet} {host : Host}.

Lemma counted_cons (req : Requirement) (reqs : list Requirement) (b : bool)
    (outs : list bool) :
  counted (req :: reqs) (b :: outs)
  = if b then req :: counted reqs outs else counted reqs outs.
Proof. unfold counted. simpl. by destruct b. Qed.

Lemma counted_app (l1 l2 : list Requirement) (o1 o2 : list bool) :
  length l1 = length o1 ->
  counted (l1 ++ l2) (o1 ++ o2) = counted l1 o1 ++ counted l2 o2.
Proof.
  revert o1. induction l1 as [| r l1 IH]; intros [| b o1] Hlen; try done.
  simpl in Hlen. rewrite <- !app_comm_cons, !counted_cons, IH by lia.
  by destruct b.
Qed.

(** The manager the loop leaves is the one it found, with the counted
    requirements recorded in turn. *)
Lemma process_requirements_manager (plugin_name : string) (info : PluginInfo)
    (reqs : list Requirement) (c : nat) (mgr : Manager) (w : World) :
  exists ts,
    length ts = length (counted reqs (requirement_outcomes plugin_name info reqs (mgr, w)))
    /\ (process_requirements plugin_name info reqs c (mgr, w)).2.1
       = record_all plugin_name info
           (zip (counted reqs (requirement_outcomes plugin_name info reqs (mgr, w))) ts)
           mgr.
Proof.
  revert c mgr w. induction reqs as [| req reqs IH]; intros c mgr w.
  - exists []. done.
  - simpl. destruct (process_requirement_step plugin_name info req mgr w)
      as (b & mgr1 & w1 & Hstep & Hmgr & _).
    rewrite Hstep.
    destruct (IH (if b then S c else c) mgr1 w1) as (ts & Hlen & Hrun).
    rewrite Hrun, counted_cons. destruct b.
    + destruct Hmgr as [t ->]. exists (t :: ts). split; [simpl; lia | done].
    + subst mgr1. by exists ts.
Qed.

Lemma get_record_all (plugin_name : string) (info : PluginInfo)
    (l : list (Requirement * Q)) (mgr : Manager) :
  get_plugin_deps_paths (record_all plugin_name info l mgr) plugin_name
  = set_update (get_plugin_deps_paths mgr plugin_name) (map (dir_string info) l.*1).
Proof.
  unfold record_all, set_update. revert mgr.
  induction l as [| [req t] l IH]; intros mgr; [done |].
  simpl. rewrite IH. by rewrite get_record_dependency_same.
Qed.

Lemma get_record_all_other (plugin_name q : string) (info : PluginInfo)
    (l : list (Requirement * Q)) (mgr : Manager) :
  q <> plugin_name ->
  get_plugin_deps_paths (record_all plugin_name info l mgr) q
  = get_plugin_deps_paths mgr q.
Proof.
  intros Hq. unfold record_all. revert mgr.
  induction l as [| [req t] l IH]; intros mgr; [done |].
  simpl. rewrite IH. by apply get_record_dependency_other.
Qed.

Lemma NoDup_set_update (s l : list string) : NoDup s -> NoDup (set_update s l).
Proof.
  unfold set_update. revert s. induction l as [| x l IH]; intros s Hs; [done |].
  simpl. apply IH. by apply NoDup_set_add.
Qed.

(** A record under a key after the loop was there before, or belongs to
    a counted requirement with that key. *)
Lemma metadata_record_all_origin (plugin_name : string) (info : PluginInfo)
    (l : list (Requirement * Q)) (mgr : Manager) (k : string) (r : DepRecord) :
  dependency_metadata (record_all plugin_name info l mgr) !! k = Some r ->
  dependency_metadata mgr !! k = Some r
  \/ exists req, req ∈ l.*1 /\ k = dep_key plugin_name req.1.1
       /\ package r = req.1.1 /\ spec r = req.1.2
       /\ install_dir r = dir_string info req /\ plugin r = plugin_name.
Proof.
  unfold record_all. revert mgr. induction l as [| [req t] l IH]; intros mgr Hk.
  - by left.
  - simpl in Hk. apply IH in Hk as [Hk | (req' & Hin & Hrest)].
    + unfold record_dependency in Hk. simpl in Hk.
      destruct (decide (dep_key plugin_name req.1.1 = k)) as [<- | Hne].
      * rewrite lookup_insert_eq in Hk. injection Hk as <-.
        right. exists req. simpl. split; [apply elem_of_cons; by left | done].
      * rewrite lookup_insert_ne in Hk by done. by left.
    + right. exists req'. split; [| done]. simpl. apply elem_of_cons. by right.
Qed.

(** A key no recorded requirement has keeps what it had. *)
Lemma metadata_record_all_frame (plugin_name : string) (info : PluginInfo)
    (l : list (Requirement * Q)) (mgr : Manager) (k : string) :
  (forall req, req ∈ l.*1 -> dep_key plugin_name req.1.1 <> k) ->
  dependency_metadata (record_all plugin_name info l mgr) !! k
  = dependency_metadata mgr !! k.
Proof.
  unfold record_all. revert mgr. induction l as [| [req t] l IH]; intros mgr Hne.
  - done.
  - simpl. rewrite IH.
    + unfold record_dependency. simpl. rewrite lookup_insert_ne; [done |].
      apply Hne. simpl. apply elem_of_cons. by left.
    + intros req' Hin. apply Hne. simpl. apply elem_of_cons. by right.
Qed.

(** A key that has a record keeps having one. *)
Lemma metadata_record_all_mono (plugin_name : string) (info : PluginInfo)
    (l : list (Requirement * Q)) (mgr : Manager) (k : string) :
  is_Some (dependency_metadata mgr !! k) ->
  is_Some (dependency_metadata (record_all plugin_name info l mgr) !! k).
Proof.
  unfold record_all. revert mgr. induction l as [| [req t] l IH]; intros mgr Hk.
  - done.
  - simpl. apply IH. unfold record_dependency. simpl.
    destruct (decide (dep_key plugin_name req.1.1 = k)) as [<- | Hne].
    + rewrite lookup_insert_eq. by eexists.
    + by rewrite lookup_insert_ne.
Qed.

(** Every recorded requirement has a record under its key. *)
Lemma metadata_record_all_some (plugin_name : string) (info : PluginInfo)
    (l : list (Requirement * Q)) (mgr : Manager) (req : Requirement) :
  req ∈ l.*1 ->
  is_Some (dependency_metadata (record_all plugin_name info l mgr)
             !! dep_key plugin_name req.1.1).
Proof.
  revert mgr. induction l as [| [req' t] l IH]; intros mgr Hin.
  - by apply elem_of_nil in Hin.
  - simpl in Hin. apply elem_of_cons in Hin as [Heq | Hin].
    + subst req'. unfold record_all. simpl.
      apply metadata_record_all_mono.
      unfold record_dependency. simpl. rewrite lookup_insert_eq. by eexists.
    + unfold record_all. simpl. by apply IH.
Qed.

Lemma append_inv_head (s a b : string) : (s ++ a)%string = (s ++ b)%string -> a = b.
Proof. induction s as [| c s IH]; simpl; [done | intros [= Heq]; auto]. Qed.

Lemma dep_key_inj (plugin_name n1 n2 : string) :
  dep_key plugin_name n1 = dep_key plugin_name n2 -> n1 = n2.
Proof.
  unfold dep_key. intros Heq.
  apply append_inv_head in Heq. by apply (append_inv_head ":") in Heq.
Qed.
End StoreFacts.

(** ** [initialize_plugin_dependencies] *)

Section InitializeFacts.
Context {sets : PySet} {host : Host}.

Lemma save_metadata_manager (st : State) :
  (_save_metadata st).1 = st.1 /\ pip_log (_save_metadata st).2 = pip_log st.2.
Proof.
  destruct st as [mgr w]. unfold _save_metadata, time_time. cbn.
  destruct (Fs.write_file _ _ _); done.
Qed.

Lemma set_fs_same (w : World) : set_fs (fs w) w = w.
Proof. by destruct w. Qed.

(** The function past its guards: a registered plugin with at least one
    requirement whose private root can be made. *)
Lemma initialize_run (plugin_name : string) (mgr : Manager) (w : World)
    (info : PluginInfo) (fs1 : FS) :
  plugins_get (plugins mgr) plugin_name = Some info ->
  _parse_requirements w (requirements_file info) <> [] ->
  Fs.mkdir_exist_ok (fs w) (isolated_deps_dir info) = Return fs1 ->
  exists st',
    process_requirements plugin_name info
      (_parse_requirements w (requirements_file info)) 0 (mgr, set_fs fs1 w)
    = (Return (length (counted (_parse_requirements w (requirements_file info))
                         (requirement_outcomes plugin_name info
                            (_parse_requirements w (requirements_file info))
                            (mgr, set_fs fs1 w)))), st')
    /\ initialize_plugin_dependencies plugin_name (mgr, w)
       = (Return (0 <? length (counted (_parse_requirements w (requirements_file info))
                                 (requirement_outcomes plugin_name info
                                    (_parse_requirements w (requirements_file info))
                                    (mgr, set_fs fs1 w))))%nat,
          _save_metadata st').
Proof.
  intros Hreg Hreqs Hmk. unfold initialize_plugin_dependencies.
  rewrite Hreg, Hmk.
  destruct (process_requirements_returns plugin_name info
              (_parse_requirements w (requirements_file info)) 0 (mgr, set_fs fs1 w))
    as [st' Hrun].
  exists st'. split; [exact Hrun |].
  destruct (_parse_requirements w (requirements_file info)) as [| req reqs] eqn:Hparse;
    [done |].
  rewrite Hrun. reflexivity.
Qed.

(** When every directory is there, the loop counts every requirement and
    starts no subprocess. *)
Lemma process_requirements_cached (plugin_name : string) (info : PluginInfo)
    (reqs : list Requirement) (c : nat) (mgr : Manager) (w : World) :
  forallb (fun req => Fs.exists_ (fs w) (pkg_isolated_dir info req.1.1 req.1.2)) reqs
  = true ->
  exists mgr' w',
    process_requirements plugin_name info reqs c (mgr, w)
    = (Return (c + length reqs)%nat, (mgr', w'))
    /\ fs w' = fs w /\ pip_log w' = pip_log w.
Proof.
  revert c mgr w. induction reqs as [| req reqs IH]; intros c mgr w Hall.
  - exists mgr, w. simpl. by rewrite Nat.add_0_r.
  - simpl in Hall. apply andb_prop in Hall as [Hreq Hall]. simpl.
    destruct (process_requirement_step plugin_name info req mgr w)
      as (b & mgr1 & w1 & Hstep & _ & Hhit).
    destruct (Hhit Hreq) as (-> & Hfs & Hlog). rewrite Hstep.
    rewrite <- Hfs in Hall.
    destruct (IH (S c) mgr1 w1 Hall) as (mgr' & w' & Hrun & Hfs' & Hlog').
    exists mgr', w'. rewrite Hrun. split; [f_equal; f_equal; lia |].
    split; congruence.
Qed.

Lemma counted_positive (reqs : list Requirement) (outs : list bool) :
  length outs = length reqs -> true ∈ outs -> (0 < length (counted reqs outs))%nat.
Proof.
  revert outs. induction reqs as [| req reqs IH]; intros [| b outs] Hlen Hin; try done.
  - by apply elem_of_nil in Hin.
  - rewrite counted_cons. destruct b; simpl; [lia |].
    apply elem_of_cons in Hin as [? | Hin]; [done |]. apply IH; [simpl in Hlen; lia | done].
Qed.

Lemma counted_zip (reqs : list Requirement) (outs : list bool) (ts : list Q) :
  length ts = length (counted reqs outs) ->
  (zip (counted reqs outs) ts).*1 = counted reqs outs.
Proof. intros Hlen. apply fst_zip. lia. Qed.
End InitializeFacts.

(** C5. For a registered plugin whose private install root exists and all
    of whose content-addressed install directories exist, initialize starts
    no installer subprocess and returns success: every requirement is a
    cache hit. *)
Theorem initialize_all_cached_runs_no_installer {sets : PySet} {host : Host}
    (plugin_name : string) (mgr : Manager) (w : World) (info : PluginInfo) :
  plugins_get (plugins mgr) plugin_name = Some info ->
  Fs.is_dir (fs w) (isolated_deps_dir info) = true ->
  forallb (fun req => Fs.exists_ (fs w) (pkg_isolated_dir info req.1.1 req.1.2))
    (_parse_requirements w (requirements_file info)) = true ->
  exists st',
    initialize_plugin_dependencies plugin_name (mgr, w) = (Return true, st')
    /\ pip_log st'.2 = pip_log w.
Proof.
  intros Hreg Hdir Hall.
  destruct (_parse_requirements w (requirements_file info)) as [| req reqs] eqn:Hparse.
  - exists (mgr, w). unfold initialize_plugin_dependencies.
    by rewrite Hreg, Hparse.
  - assert (Hmk : Fs.mkdir_exist_ok (fs w) (isolated_deps_dir info) = Return (fs w)).
    { unfold Fs.mkdir_exist_ok, Fs.is_dir in *.
      destruct (fs w !! isolated_deps_dir info) as [[| c] |]; done. }
    destruct (process_requirements_cached plugin_name info (req :: reqs) 0 mgr w Hall)
      as (mgr' & w' & Hrun & _ & Hlog).
    unfold initialize_plugin_dependencies.
    rewrite Hreg, Hparse, Hmk, set_fs_same, Hrun.
    eexists. split; [reflexivity |].
    destruct (save_metadata_manager (mgr', w')) as [_ Hsave]. by rewrite Hsave.
Qed.

(** C6. For a registered plugin some of whose requirements install or are
    cache hits and some of whose requirements fail, initialize returns
    success and goes through every requirement, and what it adds to the
    store belongs to the requirements that succeeded: the plugin's paths
    afterwards are the paths it had and the directories of the succeeded
    requirements, every record afterwards was there before or is the record
    of a succeeded requirement, and every succeeded requirement has its
    path and a record under its key. A requirement that failed gets no
    path of its own (its directory is among the plugin's paths only if it
    was there before or a succeeded requirement has the same directory)
    and no record of its own (the record under its key is unchanged unless
    a succeeded requirement names the same package). *)
Theorem initialize_partial_failure {sets : PySet} {host : Host}
    (plugin_name : string) (mgr : Manager) (w : World) (info : PluginInfo) (fs1 : FS) :
  plugins_get (plugins mgr) plugin_name = Some info ->
  Fs.mkdir_exist_ok (fs w) (isolated_deps_dir info) = Return fs1 ->
  let reqs := _parse_requirements w (requirements_file info) in
  let outs := requirement_outcomes plugin_name info reqs (mgr, set_fs fs1 w) in
  true ∈ outs ->
  false ∈ outs ->
  exists st',
    initialize_plugin_dependencies plugin_name (mgr, w) = (Return true, st')
    /\ length outs = length reqs
    /\ (forall d, d ∈ get_plugin_deps_paths st'.1 plugin_name
                  <-> d ∈ get_plugin_deps_paths mgr plugin_name
                      \/ d ∈ recorded_dirs info reqs outs)
    /\ (forall k r, dependency_metadata st'.1 !! k = Some r ->
          dependency_metadata mgr !! k = Some r
          \/ exists req, req ∈ counted reqs outs /\ k = dep_key plugin_name req.1.1
               /\ package r = req.1.1 /\ spec r = req.1.2
               /\ install_dir r = dir_string info req /\ plugin r = plugin_name)
    /\ (forall req, req ∈ counted reqs outs ->
          dir_string info req ∈ get_plugin_deps_paths st'.1 plugin_name
          /\ is_Some (dependency_metadata st'.1 !! dep_key plugin_name req.1.1))
    /\ (forall req, req ∈ skipped reqs outs ->
          (dir_string info req ∉ get_plugin_deps_paths mgr plugin_name ->
           dir_string info req ∉ recorded_dirs info reqs outs ->
           dir_string info req ∉ get_plugin_deps_paths st'.1 plugin_name)
          /\ ((forall req', req' ∈ counted reqs outs -> req'.1.1 <> req.1.1) ->
              dependency_metadata st'.1 !! dep_key plugin_name req.1.1
              = dependency_metadata mgr !! dep_key plugin_name req.1.1)).
Proof.
  intros Hreg Hmk reqs outs Htrue Hfalse.
  assert (Hlen : length outs = length reqs) by apply requirement_outcomes_length.
  assert (Hne : reqs <> []).
  { intros Hnil. subst outs. rewrite Hnil in Htrue. by apply elem_of_nil in Htrue. }
  destruct (initialize_run plugin_name mgr w info fs1 Hreg Hne Hmk) as (st' & Hrun & Hinit).
  fold reqs in Hrun, Hinit. fold outs in Hrun, Hinit.
  destruct (process_requirements_manager plugin_name info reqs 0 mgr (set_fs fs1 w))
    as (ts & Hts & Hmgr).
  fold outs in Hts, Hmgr. rewrite Hrun in Hmgr. cbn [fst snd] in Hmgr.
  pose proof (counted_zip reqs outs ts Hts) as Hzip.
  exists (_save_metadata st'). destruct (save_metadata_manager st') as [-> _].
  rewrite Hmgr. split.
  { rewrite Hinit. f_equal. f_equal. apply Nat.ltb_lt. by apply counted_positive. }
  split; [done |]. split; [| split; [| split]].
  - intros d. rewrite get_record_all, elem_of_set_update, Hzip. done.
  - intros k r Hk. apply metadata_record_all_origin in Hk. by rewrite Hzip in Hk.
  - intros req Hreq. split.
    + rewrite get_record_all, elem_of_set_update, Hzip. right.
      unfold recorded_dirs. by apply list_elem_of_fmap_2.
    + apply metadata_record_all_some. by rewrite Hzip.
  - intros req _. split.
    + intros Hold Hnew. rewrite get_record_all, elem_of_set_update, Hzip.
      intros [? | ?]; done.
    + intros Hkeys. apply metadata_record_all_frame. rewrite Hzip.
      intros req' Hreq' Hkey. apply dep_key_inj in Hkey. by apply (Hkeys req').
Qed.

(** ** Content-addressed directories *)

Section PathStringFacts.

Lemma append_cons (c : ascii) (s t : string) :
  (String c s ++ t)%string = String c (s ++ t)%string.
Proof. reflexivity. Qed.

Lemma append_nil_l (t : string) : ("" ++ t)%string = t.
Proof. reflexivity. Qed.

Lemma append_assoc (a b c : string) : ((a ++ b) ++ c)%string = (a ++ (b ++ c))%string.
Proof.
  induction a as [| x a IH]; [reflexivity |].
  rewrite !append_cons. by rewrite IH.
Qed.

Lemma length_append (a b : string) :
  String.length (a ++ b) = (String.length a + String.length b)%nat.
Proof.
  induction a as [| x a IH]; [reflexivity |].
  rewrite append_cons. simpl. by rewrite IH.
Qed.

Lemma rev_app_append (a b t : string) :
  (String.rev_app a b ++ t)%string = String.rev_app a (b ++ t)%string.
Proof.
  revert b. induction a as [| x a IH]; intros b; [reflexivity |].
  simpl. rewrite IH. by rewrite append_cons.
Qed.

(** A text without the separator is one field. *)
Lemma split_on_aux_one_field (sep : ascii) (b acc : string) :
  PyStr.has_char sep b = false ->
  PyStr.split_on_aux sep b acc = [(String.rev acc ++ b)%string].
Proof.
  revert acc. induction b as [| c b IH]; intros acc Hno.
  - simpl. unfold String.rev. rewrite rev_app_append. reflexivity.
  - simpl in Hno. apply orb_false_elim in Hno as [Hc Hno].
    simpl. rewrite Hc. rewrite IH by done.
    unfold String.rev. simpl. rewrite !rev_app_append. reflexivity.
Qed.

(** Text without the separator, put behind a text, lengthens its last
    field. *)
Lemma split_on_aux_last_field (sep : ascii) (s b acc : string) :
  PyStr.has_char sep b = false ->
  exists fields f,
    PyStr.split_on_aux sep s acc = fields ++ [f]
    /\ PyStr.split_on_aux sep (s ++ b) acc = fields ++ [(f ++ b)%string].
Proof.
  intros Hno. revert acc. induction s as [| c s IH]; intros acc.
  - exists [], (String.rev acc). split; [reflexivity |].
    rewrite append_nil_l. by apply split_on_aux_one_field.
  - rewrite append_cons. simpl. destruct (Ascii.eqb c sep).
    + destruct (IH EmptyString) as (fields & f & H1 & H2).
      exists (String.rev acc :: fields), f. rewrite H1, H2. done.
    + apply IH.
Qed.

Lemma parse_last_part (a b : string) :
  PyStr.has_char "/" b = false -> (2 <= String.length b)%nat ->
  exists parts f, PyPath.parse (a ++ b) = parts ++ [(f ++ b)%string].
Proof.
  intros Hno Hlen. unfold PyPath.parse, PyStr.split_on.
  destruct (split_on_aux_last_field "/" a b EmptyString Hno) as (fields & f & _ & ->).
  rewrite List.filter_app. simpl.
  assert (Hkeep : negb (String.eqb (f ++ b) "" || String.eqb (f ++ b) ".") = true).
  { apply negb_true_iff, orb_false_intro; apply String.eqb_neq; intros Heq;
      apply (f_equal String.length) in Heq; rewrite length_append in Heq; simpl in Heq; lia. }
  rewrite Hkeep.
  destruct (_ && _); [| destruct (PyStr.startswith _ _)]; eexists _, f;
    rewrite ?app_comm_cons; reflexivity.
Qed.

Lemma div_last_part (p : Path) (a b : string) :
  PyStr.has_char "/" b = false -> (2 <= String.length b)%nat ->
  exists parts f, p </> (a ++ b) = parts ++ [(f ++ b)%string].
Proof.
  intros Hno Hlen. unfold PyPath.div.
  destruct (parse_last_part a b Hno Hlen) as (parts & f & ->).
  destruct (PyStr.startswith _ _); eexists _, f; rewrite ?app_assoc; reflexivity.
Qed.

Lemma join_last (sep : string) (l : list string) (c : string) :
  exists pre, PyStr.join sep (l ++ [c]) = (pre ++ c)%string.
Proof.
  induction l as [| x l [pre IH]].
  - by exists "".
  - exists (x ++ sep ++ pre)%string. simpl.
    destruct (l ++ [c]) as [| y l'] eqn:Hl; [by destruct l |].
    rewrite IH. by rewrite !append_assoc.
Qed.

Lemma str_last_part (parts : Path) (c : string) :
  (3 <= String.length c)%nat ->
  exists pre, PyPath.str (parts ++ [c]) = (pre ++ c)%string.
Proof.
  intros Hlen. destruct parts as [| r parts]; simpl.
  - assert (Hroot : PyPath.is_root c = false).
    { unfold PyPath.is_root. apply orb_false_intro; apply String.eqb_neq; intros ->;
        simpl in Hlen; lia. }
    rewrite Hroot. by exists "".
  - destruct (PyPath.is_root r).
    + destruct (join_last "/" parts c) as [pre ->]. exists (r ++ pre)%string.
      by rewrite append_assoc.
    + destruct (join_last "/" (r :: parts) c) as [pre Hpre]. exists pre.
      rewrite <- Hpre. reflexivity.
Qed.

Lemma append_same_length_tail (p1 p2 b1 b2 : string) :
  (p1 ++ b1)%string = (p2 ++ b2)%string -> String.length b1 = String.length b2 -> b1 = b2.
Proof.
  revert p2. induction p1 as [| c p1 IH]; intros [| d p2] Heq Hlen.
  - done.
  - apply (f_equal String.length) in Heq. rewrite append_nil_l, append_cons in Heq.
    simpl in Heq. rewrite length_append in Heq. lia.
  - apply (f_equal String.length) in Heq. rewrite append_nil_l, append_cons in Heq.
    simpl in Heq. rewrite length_append in Heq. lia.
  - rewrite !append_cons in Heq. injection Heq as _ Heq. by eapply IH.
Qed.

Lemma hex_digit_not_slash (n : Z) : Ascii.eqb (MD5.hex_digit n) "/" = false.
Proof.
  unfold MD5.hex_digit. generalize (Z.to_nat n). intros k.
  do 16 (destruct k as [| k]; [reflexivity |]). by destruct k.
Qed.

Lemma hex_no_slash (bs : list Z) : PyStr.has_char "/" (MD5.hex bs) = false.
Proof.
  induction bs as [| b bs IH]; [reflexivity |].
  simpl. by rewrite !hex_digit_not_slash, IH.
Qed.

Lemma take_no_char (c : ascii) (n : nat) (s : string) :
  PyStr.has_char c s = false -> PyStr.has_char c (PyStr.take n s) = false.
Proof.
  revert s. induction n as [| n IH]; intros [| d s] Hno; try reflexivity.
  simpl in *. apply orb_false_elim in Hno as [-> Hno]. by apply IH.
Qed.

Lemma hex_length (bs : list Z) : String.length (MD5.hex bs) = (2 * length bs)%nat.
Proof. induction bs as [| b bs IH]; [reflexivity |]. simpl. rewrite IH. lia. Qed.

Lemma take_length (n : nat) (s : string) :
  (n <= String.length s)%nat -> String.length (PyStr.take n s) = n.
Proof.
  revert s. induction n as [| n IH]; intros [| d s] Hle; simpl in *; try lia.
  rewrite IH; lia.
Qed.

Lemma hexdigest_length (s : string) : String.length (MD5.hexdigest s) = 32%nat.
Proof. unfold MD5.hexdigest. rewrite hex_length. reflexivity. Qed.

(** Two specifiers whose hash prefixes differ get different directories,
    whatever the package name. *)
Lemma dir_string_inj (info : PluginInfo) (n s1 s2 : string) (ln1 ln2 : nat) :
  PyStr.take 12 (MD5.hexdigest s1) <> PyStr.take 12 (MD5.hexdigest s2) ->
  dir_string info (n, s1, ln1) <> dir_string info (n, s2, ln2).
Proof.
  intros Hhash Heq. apply Hhash. unfold dir_string, pkg_isolated_dir in Heq. cbn [fst snd] in Heq.
  assert (Hlen : forall s, String.length ("_" ++ PyStr.take 12 (MD5.hexdigest s)) = 13%nat).
  { intros s. rewrite append_cons, append_nil_l. cbn [String.length].
    rewrite take_length; [done |]. rewrite hexdigest_length. lia. }
  assert (Hno : forall s, PyStr.has_char "/" ("_" ++ PyStr.take 12 (MD5.hexdigest s)) = false).
  { intros s. rewrite append_cons, append_nil_l. cbn [PyStr.has_char].
    apply orb_false_intro; [reflexivity | apply take_no_char, hex_no_slash]. }
  assert (Hend : forall s, exists pre,
             PyPath.str (isolated_deps_dir info
                           </> (n ++ "_" ++ PyStr.take 12 (MD5.hexdigest s)))
             = (pre ++ "_" ++ PyStr.take 12 (MD5.hexdigest s))%string).
  { intros s.
    destruct (div_last_part (isolated_deps_dir info) n _ (Hno s)) as (parts & f & ->).
    { rewrite Hlen. lia. }
    destruct (str_last_part parts (f ++ "_" ++ PyStr.take 12 (MD5.hexdigest s)))
      as [pre ->].
    { rewrite length_append, Hlen. lia. }
    exists (pre ++ f)%string. by rewrite append_assoc. }
  destruct (Hend s1) as [pre1 H1]. destruct (Hend s2) as [pre2 H2].
  rewrite H1, H2 in Heq.
  apply append_same_length_tail in Heq; [| rewrite !Hlen; reflexivity].
  by apply append_inv_head in Heq.
Qed.
End PathStringFacts.

(** ** Two lines for one package *)

Section SamePackageFacts.
Context {sets : PySet} {host : Host}.

Lemma record_all_app (plugin_name : string) (info : PluginInfo)
    (l1 l2 : list (Requirement * Q)) (mgr : Manager) :
  record_all plugin_name info (l1 ++ l2) mgr
  = record_all plugin_name info l2 (record_all plugin_name info l1 mgr).
Proof. unfold record_all. apply fold_left_app. Qed.

(** The last recorded requirement of a package decides the record under
    its key. *)
Lemma metadata_record_all_last (plugin_name : string) (info : PluginInfo)
    (l : list (Requirement * Q)) (mgr : Manager) (before after : list Requirement)
    (req : Requirement) :
  l.*1 = before ++ req :: after ->
  (forall req', req' ∈ after -> req'.1.1 <> req.1.1) ->
  exists t,
    dependency_metadata (record_all plugin_name info l mgr) !! dep_key plugin_name req.1.1
    = Some {| package := req.1.1; spec := req.1.2; install_dir := dir_string info req;
              plugin := plugin_name; installed_time := t |}.
Proof.
  intros Hl Hafter.
  apply fmap_app_inv in Hl as (la & l' & _ & Hl' & ->). symmetry in Hl'.
  apply fmap_cons_inv in Hl' as ([req0 t] & lb & Hreq & -> & ->).
  simpl in Hreq. subst req0.
  exists t. rewrite record_all_app. change ((req, t) :: lb) with ([(req, t)] ++ lb).
  rewrite record_all_app, metadata_record_all_frame.
  - unfold record_all, record_dependency. simpl. by rewrite lookup_insert_eq.
  - intros req' Hin Hkey. apply dep_key_inj in Hkey. by apply (Hafter req').
Qed.

Lemma counted_subset (reqs : list Requirement) (outs : list bool) (req : Requirement) :
  req ∈ counted reqs outs -> req ∈ reqs.
Proof.
  revert outs. induction reqs as [| r reqs IH]; intros [| b outs] Hin;
    try (by apply elem_of_nil in Hin).
  rewrite counted_cons in Hin. apply elem_of_cons. destruct b.
  - apply elem_of_cons in Hin as [-> | Hin]; [by left | right; by eapply IH].
  - right. by eapply IH.
Qed.

(** Outcomes with [true] at the places of two requirements. *)
Lemma outcomes_split (l1 l2 l3 : list Requirement) (r1 r2 : Requirement)
    (outs : list bool) :
  length outs = length (l1 ++ r1 :: l2 ++ r2 :: l3) ->
  outs !! length l1 = Some true ->
  outs !! (length l1 + S (length l2))%nat = Some true ->
  exists o1 o2 o3,
    outs = o1 ++ true :: o2 ++ true :: o3
    /\ length o1 = length l1 /\ length o2 = length l2.
Proof.
  intros Hlen H1 H2.
  pose proof (take_drop_middle outs _ _ H1) as Hsplit.
  set (o1 := take (length l1) outs) in *.
  set (rest := drop (S (length l1)) outs) in *.
  assert (Ho1 : length o1 = length l1).
  { subst o1. rewrite length_take. apply lookup_lt_Some in H1. lia. }
  assert (H2' : rest !! length l2 = Some true).
  { subst rest. rewrite lookup_drop. rewrite <- H2. f_equal. lia. }
  pose proof (take_drop_middle rest _ _ H2') as Hsplit2.
  exists o1, (take (length l2) rest), (drop (S (length l2)) rest).
  split; [by rewrite Hsplit2 |]. split; [done |].
  rewrite length_take. apply lookup_lt_Some in H2'. lia.
Qed.
End SamePackageFacts.


(** ** The interceptor *)

Import AutoImportPatcher.

Section InterceptorFacts.
Context {sets : PySet} {host : Host}.

Lemma sys_path_set_sys_path (l : list string) (w : World) :
  sys_path (set_sys_path l w) = l.
Proof. reflexivity. Qed.

(** Attempts that end in module-not-found are passed over; the next
    attempt starts from the search path the call started with. *)
Lemma try_isolated_skip (p : Patcher) (args : ImportArgs) (pre rest : list string)
    (w w1 : World) :
  _original_import_saved p = Some Original ->
  all_not_found args pre w w1 ->
  try_isolated p args (pre ++ rest) w = try_isolated p args rest w1
  /\ sys_path w1 = sys_path w.
Proof.
  intros Hsaved Hnf. induction Hnf as [w | d ds w w2 w' e Hcall He Hnf IH].
  - done.
  - simpl. unfold call_saved. rewrite Hsaved, Hcall, He.
    destruct IH as [-> ->]. done.
Qed.

(** The loop of [custom_import] whatever the attempts do: a return, an
    exhausted loop and a propagated [Exception] all leave the search
    path as the call found it. *)
Lemma try_isolated_path (p : Patcher) (args : ImportArgs) (deps : list string) (w : World) :
  match try_isolated p args deps w with
  | (Some (Imported _), w') => sys_path w' = sys_path w
  | (Some (Raised e), w') =>
      is_ImportError e = false
      /\ if is_Exception e then sys_path w' = sys_path w else True
  | (None, w') => sys_path w' = sys_path w
  end.
Proof.
  revert w. induction deps as [| d deps IH]; intros w; [reflexivity |].
  simpl. destruct (call_saved p args _) as [out w2].
  destruct out as [m | e]; [reflexivity |].
  destruct (is_ImportError e) eqn:Himp.
  - specialize (IH (set_sys_path (sys_path w) w2)).
    destruct (try_isolated _ _ _ _) as [[[m | e'] |] w']; exact IH.
  - destruct (is_Exception e) eqn:Hexc; rewrite ?Hexc; done.
Qed.
End InterceptorFacts.




(** ** Enabling interception *)

(** C4, as amended. The baseline entry point is saved by the first enable
    call that installs a replacement and is never overwritten afterwards:
    once saved it stays what it is. An enable call for a plugin that is
    already intercepted or has no recorded directory changes nothing. Any
    other enable call, the first or a later one, makes a new closure and
    installs it as the entry point, and adds the plugin to the intercepted
    set; all closures behave alike, since they read the same patcher. *)
Theorem patch_plugin_imports_effect {sets : PySet} {host : Host}
    (mgr : Manager) (plugin_name : string) (p : Patcher) (w : World) :
  let pw' := patch_plugin_imports mgr plugin_name (p, w) in
  original_import pw'.1 = original_import p
  /\ (forall f, _original_import_saved p = Some f -> _original_import_saved pw'.1 = Some f)
  /\ (if bool_decide (plugin_name ∈ patched_plugins p)
         || bool_decide (get_plugin_deps_paths mgr plugin_name = [])
      then pw' = (p, w)
      else
        builtins_import pw'.2 = Custom (next_fn w)
        /\ next_fn pw'.2 = S (next_fn w)
        /\ patched_plugins pw'.1 ≡ₚ plugin_name :: patched_plugins p
        /\ _original_import_saved pw'.1
           = Some (default (original_import p) (_original_import_saved p)))
  /\ (forall i j stack args w0,
        call_import (Custom i) mgr pw'.1 stack args w0
        = call_import (Custom j) mgr pw'.1 stack args w0).
Proof.
  intros pw'. subst pw'. unfold patch_plugin_imports.
  destruct (bool_decide (plugin_name ∈ patched_plugins p)) eqn:Hin; simpl.
  { repeat split; done. }
  destruct (get_plugin_deps_paths mgr plugin_name) as [| d ds] eqn:Hdeps; simpl.
  { repeat split; done. }
  apply bool_decide_eq_false in Hin.
  split; [done |]. split.
  { intros f Hf. by rewrite Hf. }
  split; [| done].
  split; [done |]. split; [done |]. split.
  - by apply set_add_fresh.
  - by destruct (_original_import_saved p).
Qed.

(** C4, the claim as stated fails: enabling [plugin_b] after [plugin_a]
    replaces the entry point installed for [plugin_a] by another function
    object. *)
Lemma second_enable_replaces_entry_point :
  builtins_import (Demo.patched_a append_order).2 = Custom 0
  /\ ("plugin_b" ∉ patched_plugins (Demo.patched_a append_order).1)
  /\ builtins_import (Demo.patched append_order).2 = Custom 1
  /\ (builtins_import (Demo.patched append_order).2
      <> builtins_import (Demo.patched_a append_order).2).
Proof.
  vm_compute. split; [reflexivity |]. split; [| split; [reflexivity | discriminate]].
  intros Hin. apply list_elem_of_In in Hin. simpl in Hin. destruct Hin as [Heq | []].
  discriminate.
Qed.

(** ** The accessor of a plugin's paths *)

(** C3, as amended. After the loop has processed a plugin's requirements,
    the accessor yields the directories the plugin had on record and those
    of the requirements that counted, each exactly once, in an order that
    is the set's own: some arrangement of the insertion sequence with
    duplicates dropped. *)
Theorem deps_paths_each_once_in_set_order {sets : PySet} {host : Host}
    (plugin_name : string) (info : PluginInfo) (reqs : list Requirement) (c : nat)
    (mgr : Manager) (w : World) :
  NoDup (get_plugin_deps_paths mgr plugin_name) ->
  let outs := requirement_outcomes plugin_name info reqs (mgr, w) in
  let mgr' := (process_requirements plugin_name info reqs c (mgr, w)).2.1 in
  NoDup (get_plugin_deps_paths mgr' plugin_name)
  /\ (forall d, d ∈ get_plugin_deps_paths mgr' plugin_name
                <-> d ∈ get_plugin_deps_paths mgr plugin_name
                    \/ d ∈ recorded_dirs info reqs outs)
  /\ get_plugin_deps_paths mgr' plugin_name
     ≡ₚ remove_dups (get_plugin_deps_paths mgr plugin_name ++ recorded_dirs info reqs outs).
Proof.
  intros Hnodup outs mgr'.
  destruct (process_requirements_manager plugin_name info reqs c mgr w) as (ts & Hts & Hmgr).
  fold outs in Hts, Hmgr. fold mgr' in Hmgr.
  pose proof (counted_zip reqs outs ts Hts) as Hzip.
  assert (Hget : get_plugin_deps_paths mgr' plugin_name
                 = set_update (get_plugin_deps_paths mgr plugin_name)
                     (recorded_dirs info reqs outs)).
  { rewrite Hmgr, get_record_all, Hzip. done. }
  assert (Hnd : NoDup (get_plugin_deps_paths mgr' plugin_name)).
  { rewrite Hget. by apply NoDup_set_update. }
  assert (Hiff : forall d, d ∈ get_plugin_deps_paths mgr' plugin_name
                           <-> d ∈ get_plugin_deps_paths mgr plugin_name
                               \/ d ∈ recorded_dirs info reqs outs).
  { intros d. rewrite Hget. apply elem_of_set_update. }
  split; [done |]. split; [done |].
  apply NoDup_Permutation; [done | apply NoDup_remove_dups |].
  intros d. rewrite Hiff, elem_of_remove_dups, elem_of_app. done.
Qed.

(** C3, the claim as stated fails: [plugin_a] lists numpy before pillow,
    both install in that order, and with a set that iterates over a new
    element before the old ones the accessor yields pillow's directory
    first. *)
Lemma deps_paths_not_in_insertion_order :
  let numpy_dir := "/ComfyUI/custom_nodes/comfyui-dependency-isolation/isolated_deps/plugin_a/numpy_afd1f656f208" in
  let pillow_dir := "/ComfyUI/custom_nodes/comfyui-dependency-isolation/isolated_deps/plugin_a/pillow_fe34fab1d3f2" in
  let outs :=
    requirement_outcomes (sets := prepend_order) (host := Demo.host)
      "plugin_a" Demo.info_a Demo.reqs_a Demo.ready_a in
  let mgr' :=
    (process_requirements (sets := prepend_order) (host := Demo.host)
       "plugin_a" Demo.info_a Demo.reqs_a 0 Demo.ready_a).2.1 in
  get_plugin_deps_paths Demo.ready_a.1 "plugin_a" = []
  /\ recorded_dirs Demo.info_a Demo.reqs_a outs = [numpy_dir; pillow_dir]
  /\ get_plugin_deps_paths mgr' "plugin_a" = [pillow_dir; numpy_dir]
  /\ get_plugin_deps_paths mgr' "plugin_a" <> [numpy_dir; pillow_dir].
Proof.
  vm_compute. split; [reflexivity |]. split; [reflexivity |].
  split; [reflexivity | discriminate].
Qed.

(** ** Orphan cleanup *)

Section CleanupFacts.
Context {sets : PySet} {host : Host}.

Lemma rmtree_lookup (tree : FS) (p q : Path) :
  Fs.rmtree tree p !! q = if bool_decide (p `prefix_of` q) then None else tree !! q.
Proof.
  unfold Fs.rmtree. rewrite map_lookup_filter. simpl.
  destruct (tree !! q) as [x |] eqn:Hq; simpl.
  - destruct (decide (p `prefix_of` q)) as [Hp | Hp].
    + rewrite bool_decide_eq_true_2 by done. rewrite option_guard_False; [done |]. tauto.
    + rewrite bool_decide_eq_false_2 by done. by rewrite option_guard_True.
  - by destruct (bool_decide _).
Qed.

Lemma same_length_prefix (p q : Path) :
  length p = length q -> p `prefix_of` q -> p = q.
Proof.
  intros Hlen [k ->]. rewrite length_app in Hlen.
  destruct k; [by rewrite app_nil_r | simpl in Hlen; lia].
Qed.

Lemma existsb_ext_in {A : Type} (f g : A -> bool) (l : list A) :
  (forall x, In x l -> f x = g x) -> existsb f l = existsb g l.
Proof.
  induction l as [| x l IH]; intros Hfg; [done |].
  simpl. rewrite Hfg by (by left). rewrite IH; [done |].
  intros y Hy. apply Hfg. by right.
Qed.
(** The second loop, when every removal succeeds: a path is gone exactly
    when one of the items is a directory with a string not on record and
    the path lies at or below it. *)
Lemma cleanup_fold_lookup (active : list string) (k : nat) (items : list Path) :
  (forall tree item, removable tree item = true) ->
  forall (tree : FS) (n : nat) (q : Path),
    NoDup items ->
    (forall i, i ∈ items -> length i = k) ->
    (fold_left (Utils.cleanup_item active) items (tree, n)).1 !! q
    = if existsb (fun i => bool_decide (i `prefix_of` q)
                           && (Fs.is_dir tree i
                               && negb (bool_decide (PyPath.str i ∈ active)))) items
      then None else tree !! q.
Proof.
  intros Hrm. induction items as [| i items IH]; intros tree n q Hnd Hlen; [done |].
  apply NoDup_cons in Hnd as [Hi Hnd].
  assert (Hlen' : forall j, j ∈ items -> length j = k).
  { intros j Hj. apply Hlen. by apply list_elem_of_further. }
  assert (Hik : length i = k) by (apply Hlen; apply list_elem_of_here).
  simpl. remember (Utils.cleanup_item active (tree, n) i) as st eqn:Hst.
  unfold Utils.cleanup_item in Hst.
  destruct (Fs.is_dir tree i && negb (bool_decide (PyPath.str i ∈ active))) eqn:Hcond;
    subst st.
  - rewrite Hrm, IH by done. rewrite rmtree_lookup.
    assert (Hsame : existsb (fun j => bool_decide (j `prefix_of` q)
                              && (Fs.is_dir (Fs.rmtree tree i) j
                                  && negb (bool_decide (PyPath.str j ∈ active)))) items
                    = existsb (fun j => bool_decide (j `prefix_of` q)
                                && (Fs.is_dir tree j
                                    && negb (bool_decide (PyPath.str j ∈ active)))) items).
    { apply existsb_ext_in. intros j Hj. apply list_elem_of_In in Hj.
      unfold Fs.is_dir. rewrite rmtree_lookup.
      rewrite (bool_decide_eq_false_2 (i `prefix_of` j)); [done |].
      intros Hpre. assert (Heq : i = j).
      { apply same_length_prefix; [| done]. rewrite Hik. symmetry. by apply Hlen'. }
      by subst j. }
    rewrite Hsame, andb_true_r.
    match goal with
    | |- context [existsb ?f items] => destruct (existsb f items)
    end; destruct (bool_decide (i `prefix_of` q)); reflexivity.
  - rewrite IH by done. rewrite andb_false_r. done.
Qed.


Lemma iterdir_elem (tree : FS) (root : Path) (items : list Path) (i : Path) :
  Fs.iterdir tree root = Some items ->
  i ∈ items <-> is_Some (tree !! i) /\ removelast i = root /\ i <> root.
Proof.
  unfold Fs.iterdir. destruct (Fs.is_dir tree root); [| done]. intros [= <-].
  rewrite list_elem_of_In, filter_In, bool_decide_eq_true, <- list_elem_of_In.
  rewrite list_elem_of_fmap. split.
  - intros [([k x] & -> & Hkx) Hrest]. apply elem_of_map_to_list in Hkx.
    split; [by eexists | done].
  - intros [[x Hx] Hrest]. split; [| done]. exists (i, x). split; [done |].
    by apply elem_of_map_to_list.
Qed.

Lemma iterdir_NoDup (tree : FS) (root : Path) (items : list Path) :
  Fs.iterdir tree root = Some items -> NoDup items.
Proof.
  unfold Fs.iterdir. destruct (Fs.is_dir tree root); [| done]. intros [= <-].
  apply NoDup_ListNoDup, List.NoDup_filter, NoDup_ListNoDup, NoDup_fst_map_to_list.
Qed.

Lemma removelast_length (i root : Path) :
  removelast i = root -> i <> root -> length i = S (length root).
Proof.
  intros <- Hne. destruct i as [| x i] using rev_ind; [done |].
  rewrite removelast_last, length_app. simpl. lia.
Qed.

(** The items of the second loop that sweep [q] away, and [swept]. *)
Lemma existsb_swept (tree : FS) (active : list string) (root q : Path)
    (items : list Path) :
  Fs.iterdir tree root = Some items ->
  existsb (fun i => bool_decide (i `prefix_of` q)
                    && (Fs.is_dir tree i && negb (bool_decide (PyPath.str i ∈ active))))
    items
  = Utils.swept tree active root q.
Proof.
  intros Hiter. apply eq_true_iff_eq. rewrite existsb_exists. unfold Utils.swept.
  rewrite !andb_true_iff, Nat.ltb_lt, bool_decide_eq_true. split.
  - intros (i & Hi & Hcond).
    apply andb_true_iff in Hcond as [Hpre Hcond].
    apply andb_true_iff in Hcond as [Hdir Hact].
    apply list_elem_of_In, (iterdir_elem _ _ _ _ Hiter) in Hi as (_ & Hlast & Hne).
    apply bool_decide_eq_true in Hpre. destruct Hpre as [k ->].
    pose proof (removelast_length _ _ Hlast Hne) as Hlen.
    rewrite length_app. rewrite !take_app_le by lia.
    rewrite (take_ge i (S (length root))) by lia.
    assert (Htake : take (length root) i = root).
    { rewrite <- Hlast. destruct i as [| x i] using rev_ind; [done |].
      rewrite removelast_last. rewrite length_app in Hlen. simpl in Hlen.
      rewrite take_app_le by lia. by rewrite take_ge by lia. }
    rewrite Htake. repeat split; try done. lia.
  - intros [[[Hlen Htake] Hdir] Hact].
    exists (take (S (length root)) q). split;
      [| apply andb_true_iff; split; [| apply andb_true_iff; split; done]].
    + apply list_elem_of_In, (iterdir_elem _ _ _ _ Hiter).
      unfold Fs.is_dir in Hdir.
      destruct (tree !! take (S (length root)) q) as [x |] eqn:Hx; [| done].
      split; [by eexists |].
      assert (Hsnoc : exists x', take (S (length root)) q = root ++ [x']).
      { destruct (q !! length root) as [x' |] eqn:Hq.
        - exists x'. rewrite (take_S_r _ _ _ Hq). by rewrite Htake.
        - apply lookup_ge_None in Hq. lia. }
      destruct Hsnoc as [x' ->]. rewrite removelast_last. split; [done |].
      intros Heq. apply (f_equal length) in Heq. rewrite length_app in Heq.
      simpl in Heq. lia.
    + apply bool_decide_eq_true. apply prefix_take.
Qed.

(** What [cleanup_orphaned_deps] does to the tree, when every removal
    succeeds: it removes the immediate child directories of the root whose
    own path strings are not on record, with everything below them, and
    nothing else. *)
Lemma cleanup_lookup (mgr : Manager) (w : World) :
  (forall tree item, removable tree item = true) ->
  Fs.is_dir (fs w) (global_deps_dir mgr) = true ->
  exists n w',
    Utils.cleanup_orphaned_deps (mgr, w) = (Return n, (mgr, w'))
    /\ forall q,
         fs w' !! q
         = if Utils.swept (fs w) (Utils.active_deps mgr) (global_deps_dir mgr) q
           then None else fs w !! q.
Proof.
  intros Hrm Hdir. unfold Utils.cleanup_orphaned_deps.
  destruct (Fs.iterdir (fs w) (global_deps_dir mgr)) as [items |] eqn:Hiter.
  - destruct (fold_left _ items _) as [tree' n] eqn:Hfold.
    exists n, (set_fs tree' w). split; [done |]. intros q. simpl.
    change tree' with (tree', n).1. rewrite <- Hfold.
    rewrite (cleanup_fold_lookup _ (S (length (global_deps_dir mgr)))); try done.
    + by rewrite (existsb_swept _ _ _ _ _ Hiter).
    + by eapply iterdir_NoDup.
    + intros i Hi. apply (iterdir_elem _ _ _ _ Hiter) in Hi as (_ & Hlast & Hne).
      by apply removelast_length.
  - unfold Fs.iterdir in Hiter. by rewrite Hdir in Hiter.
Qed.

(** When no string on record names an immediate child of the root, which
    is so for the directories [initialize_plugin_dependencies] records,
    every directory right under the root is removed. *)
Lemma cleanup_removes_every_child_directory (mgr : Manager) (w : World)
    (child : string) :
  (forall tree item, removable tree item = true) ->
  Fs.is_dir (fs w) (global_deps_dir mgr) = true ->
  Fs.is_dir (fs w) (global_deps_dir mgr ++ [child]) = true ->
  PyPath.str (global_deps_dir mgr ++ [child]) ∉ Utils.active_deps mgr ->
  forall sub,
    fs (Utils.cleanup_orphaned_deps (mgr, w)).2.2 !! (global_deps_dir mgr ++ child :: sub)
    = None.
Proof.
  intros Hrm Hroot Hchild Hactive sub.
  destruct (cleanup_lookup mgr w Hrm Hroot) as (n & w' & -> & Hlookup).
  cbn [fst snd]. rewrite Hlookup.
  assert (Hswept : Utils.swept (fs w) (Utils.active_deps mgr) (global_deps_dir mgr)
                     (global_deps_dir mgr ++ child :: sub) = true).
  { unfold Utils.swept.
    assert (Hitem : take (S (length (global_deps_dir mgr)))
                      (global_deps_dir mgr ++ child :: sub)
                    = global_deps_dir mgr ++ [child]).
    { change (child :: sub) with ([child] ++ sub). rewrite app_assoc.
      rewrite take_app_le by (rewrite length_app; simpl; lia).
      rewrite take_ge by (rewrite length_app; simpl; lia). done. }
    rewrite Hitem, Hchild.
    rewrite take_app_le by lia. rewrite take_ge by lia.
    rewrite bool_decide_eq_true_2 by done.
    rewrite (bool_decide_eq_false_2 _ Hactive).
    rewrite length_app. simpl.
    replace (length (global_deps_dir mgr) <? length (global_deps_dir mgr) + S (length sub))%nat
      with true by (symmetry; apply Nat.ltb_lt; lia).
    reflexivity. }
  by rewrite Hswept.
Qed.
End CleanupFacts.

(** C1, the code at a failing input. After both plugins are initialized,
    every directory on record lies two levels below the isolated-deps
    root, [cleanup_orphaned_deps] looks at the first level only, finds the
    per-plugin directories there, none of them on record, and removes them
    with everything below: a directory [plugin_a] has on record is
    gone. *)
Lemma cleanup_removes_directories_on_record :
  let st := Demo.initialized append_order in
  let numpy_dir := "/ComfyUI/custom_nodes/comfyui-dependency-isolation/isolated_deps/plugin_a/numpy_afd1f656f208" in
  plugins_get (plugins st.1) "plugin_a" <> None
  /\ get_plugin_deps_paths st.1 "plugin_a"
     = [numpy_dir;
        "/ComfyUI/custom_nodes/comfyui-dependency-isolation/isolated_deps/plugin_a/pillow_fe34fab1d3f2"]
  /\ Fs.is_dir (fs st.2) (PyPath.parse numpy_dir) = true
  /\ (Utils.cleanup_orphaned_deps (sets := append_order) (host := Demo.host) st).1 = Return 2%nat
  /\ Fs.exists_ (fs (Utils.cleanup_orphaned_deps (sets := append_order) (host := Demo.host) st).2.2)
       (PyPath.parse numpy_dir) = false
  /\ GlobalDependencyManager.cleanup_orphaned_deps st = st.
Proof.
  intros st numpy_dir. split; [| split; [| split; [| split; [| split]]]].
  - vm_compute. discriminate.
  - vm_compute. reflexivity.
  - vm_compute. reflexivity.
  - vm_compute. reflexivity.
  - vm_compute. reflexivity.
  - reflexivity.
Qed.

(** ** Configuration *)

Section ConfigFacts.

Lemma fold_insert_lookup (l : list (string * JSON)) (d : ConfigDict) (k : string) :
  NoDup l.*1 ->
  fold_left (fun m kv => <[kv.1 := kv.2]> m) l d !! k
  = match (list_to_map l : ConfigDict) !! k with
    | Some v => Some v
    | None => d !! k
    end.
Proof.
  revert d. induction l as [| [k' v'] l IH]; intros d Hnd.
  - simpl. by rewrite lookup_empty.
  - simpl in *. apply NoDup_cons in Hnd as [Hk' Hnd]. rewrite IH by done.
    destruct (decide (k' = k)) as [-> | Hne].
    + rewrite !lookup_insert_eq.
      by rewrite (not_elem_of_list_to_map_1 (M := gmap string) l k Hk').
    + rewrite !lookup_insert_ne by done. done.
Qed.

Lemma fold_insert_union (config d : ConfigDict) :
  fold_left (fun m kv => <[kv.1 := kv.2]> m) (map_to_list config) d = config ∪ d.
Proof.
  apply map_eq. intros k.
  rewrite fold_insert_lookup by apply NoDup_fst_map_to_list.
  rewrite list_to_map_to_list, lookup_union.
  destruct (config !! k), (d !! k); done.
Qed.

End ConfigFacts.

(** C9. Saving a configuration and loading it gives the saved mapping with
    the keys it lacks filled from the defaults, provided the file can be
    written (its directory exists and no directory stands in its place);
    without a config file the load gives the defaults, and so does a file
    whose content is not a JSON document. *)
Theorem config_save_load (package_dir : Path) (w : World) :
  (forall config,
      Fs.is_dir (fs w) (PyPath.parent (Config.config_path package_dir)) = true ->
      Fs.is_dir (fs w) (Config.config_path package_dir) = false ->
      Config.load_config package_dir (Config.save_config package_dir config w)
      = Some (config ∪ Config.DEFAULT_CONFIG)
      /\ forall k, (config ∪ Config.DEFAULT_CONFIG) !! k
                   = match config !! k with
                     | Some v => Some v
                     | None => Config.DEFAULT_CONFIG !! k
                     end)
  /\ (Fs.exists_ (fs w) (Config.config_path package_dir) = false ->
      Config.load_config package_dir w = Some Config.DEFAULT_CONFIG)
  /\ (forall s, fs w !! Config.config_path package_dir = Some (File (Text s)) ->
      Config.load_config package_dir w = Some Config.DEFAULT_CONFIG).
Proof.
  split; [| split].
  - intros config Hparent Hfile. split.
    + unfold Config.save_config, Fs.write_file. rewrite Hparent.
      assert (Hw : match fs w !! Config.config_path package_dir with
                   | Some Dir => (None : option FS)
                   | _ => Some (<[Config.config_path package_dir
                                  := File (JsonDoc (JObj (map_to_list config)))]> (fs w))
                   end
                   = Some (<[Config.config_path package_dir
                             := File (JsonDoc (JObj (map_to_list config)))]> (fs w))).
      { unfold Fs.is_dir in Hfile.
        destruct (fs w !! Config.config_path package_dir) as [[| c] |]; done. }
      rewrite Hw. unfold Config.load_config, Fs.exists_. simpl.
      rewrite lookup_insert_eq. simpl. by rewrite fold_insert_union.
    + intros k. rewrite lookup_union.
      destruct (config !! k), (Config.DEFAULT_CONFIG !! k); done.
  - intros Hex. unfold Config.load_config. by rewrite Hex.
  - intros s Hs. unfold Config.load_config, Fs.exists_. by rewrite Hs.
Qed.

(** ** The theorems on the host of [Demo] *)

Lemma surjective_fst {A B : Type} (p : A * B) (a : A) : p.1 = a -> p = (a, p.2).
Proof. destruct p. simpl. by intros ->. Qed.

Lemma mkdir_fresh (tree : FS) (p : Path) :
  tree !! p = None -> tree !! PyPath.parent p = Some Dir ->
  Fs.mkdir_exist_ok tree p = Return (<[p := Dir]> tree).
Proof. intros Hp Hparent. unfold Fs.mkdir_exist_ok. by rewrite Hp, Hparent. Qed.

(** C5 on [plugin_a], initialized once: the second call is a cache hit. *)
Lemma initialize_all_cached_witness :
  let st := Demo.initialized_a append_order in
  plugins_get (plugins st.1) "plugin_a" = Some Demo.info_a
  /\ Fs.is_dir (fs st.2) (isolated_deps_dir Demo.info_a) = true
  /\ forallb (fun req => Fs.exists_ (fs st.2) (pkg_isolated_dir Demo.info_a req.1.1 req.1.2))
       (_parse_requirements st.2 (requirements_file Demo.info_a)) = true
  /\ exists st',
       initialize_plugin_dependencies (sets := append_order) (host := Demo.host)
         "plugin_a" (st.1, st.2) = (Return true, st')
       /\ pip_log st'.2 = pip_log st.2.
Proof.
  intros st.
  assert (H1 : plugins_get (plugins st.1) "plugin_a" = Some Demo.info_a)
    by (vm_compute; reflexivity).
  assert (H2 : Fs.is_dir (fs st.2) (isolated_deps_dir Demo.info_a) = true)
    by (vm_compute; reflexivity).
  assert (H3 : forallb
                 (fun req => Fs.exists_ (fs st.2)
                               (pkg_isolated_dir Demo.info_a req.1.1 req.1.2))
                 (_parse_requirements st.2 (requirements_file Demo.info_a)) = true)
    by (vm_compute; reflexivity).
  split; [exact H1 |]. split; [exact H2 |]. split; [exact H3 |].
  exact (initialize_all_cached_runs_no_installer (sets := append_order) (host := Demo.host)
           "plugin_a" st.1 st.2 Demo.info_a H1 H2 H3).
Defined.

(** C6 and C10 on [plugin_b]: numpy==1.21.0 installs, missing-package does
    not, numpy>=1.24 installs. *)
Lemma initialize_partial_failure_witness :
  let st := Demo.initialized_a append_order in
  let fs1 := <[isolated_deps_dir Demo.info_b := Dir]> (fs st.2) in
  let reqs := _parse_requirements st.2 (requirements_file Demo.info_b) in
  let outs :=
    requirement_outcomes (sets := append_order) (host := Demo.host)
      "plugin_b" Demo.info_b reqs (st.1, set_fs fs1 st.2) in
  outs = [true; false; true]
  /\ exists st',
       initialize_plugin_dependencies (sets := append_order) (host := Demo.host)
         "plugin_b" (st.1, st.2) = (Return true, st')
       /\ (forall d, d ∈ get_plugin_deps_paths st'.1 "plugin_b"
                     <-> d ∈ get_plugin_deps_paths st.1 "plugin_b"
                         \/ d ∈ recorded_dirs Demo.info_b reqs outs).
Proof.
  intros st fs1 reqs outs.
  assert (Houts : outs = [true; false; true]) by (vm_compute; reflexivity).
  split; [exact Houts |].
  assert (H1 : plugins_get (plugins st.1) "plugin_b" = Some Demo.info_b)
    by (vm_compute; reflexivity).
  assert (H2 : Fs.mkdir_exist_ok (fs st.2) (isolated_deps_dir Demo.info_b) = Return fs1).
  { apply mkdir_fresh; vm_compute; reflexivity. }
  assert (H3 : true ∈ outs) by (rewrite Houts; apply list_elem_of_here).
  assert (H4 : false ∈ outs)
    by (rewrite Houts; apply list_elem_of_further, list_elem_of_here).
  destruct (initialize_partial_failure (sets := append_order) (host := Demo.host)
              "plugin_b" st.1 st.2 Demo.info_b fs1 H1 H2 H3 H4)
    as (st' & Hinit & _ & Hpaths & _).
  exists st'. split; [exact Hinit | exact Hpaths].
Defined.


(** C3 on [plugin_a], with a set that iterates over new elements first. *)
Lemma deps_paths_each_once_witness :
  NoDup (get_plugin_deps_paths Demo.ready_a.1 "plugin_a")
  /\ let outs :=
       requirement_outcomes (sets := prepend_order) (host := Demo.host)
         "plugin_a" Demo.info_a Demo.reqs_a (Demo.ready_a.1, Demo.ready_a.2) in
     let mgr' :=
       (process_requirements (sets := prepend_order) (host := Demo.host)
          "plugin_a" Demo.info_a Demo.reqs_a 0 (Demo.ready_a.1, Demo.ready_a.2)).2.1 in
     NoDup (get_plugin_deps_paths mgr' "plugin_a")
     /\ (forall d, d ∈ get_plugin_deps_paths mgr' "plugin_a"
                   <-> d ∈ get_plugin_deps_paths Demo.ready_a.1 "plugin_a"
                       \/ d ∈ recorded_dirs Demo.info_a Demo.reqs_a outs)
     /\ get_plugin_deps_paths mgr' "plugin_a"
        ≡ₚ remove_dups (get_plugin_deps_paths Demo.ready_a.1 "plugin_a"
                        ++ recorded_dirs Demo.info_a Demo.reqs_a outs).
Proof.
  assert (Hnd : NoDup (get_plugin_deps_paths Demo.ready_a.1 "plugin_a")).
  { vm_compute. apply NoDup_nil_2. }
  split; [exact Hnd |].
  exact (deps_paths_each_once_in_set_order (sets := prepend_order) (host := Demo.host)
           "plugin_a" Demo.info_a Demo.reqs_a 0 Demo.ready_a.1 Demo.ready_a.2 Hnd).
Defined.



(** C9 on the host of [Demo]: a configuration with two options set, no
    config file at first, and a file that is not a JSON document. *)
Lemma config_save_load_witness :
  let w := Demo.world0 in
  let config : ConfigDict := <["timeout" := JInt 60]> (<["mirror_url" := JStr "https://mirror"]> ∅) in
  let corrupt :=
    set_fs (<[Config.config_path Demo.manager_dir := File (Text "{not json")]> (fs w)) w in
  Fs.is_dir (fs w) (PyPath.parent (Config.config_path Demo.manager_dir)) = true
  /\ Fs.is_dir (fs w) (Config.config_path Demo.manager_dir) = false
  /\ Config.load_config Demo.manager_dir (Config.save_config Demo.manager_dir config w)
     = Some (config ∪ Config.DEFAULT_CONFIG)
  /\ (config ∪ Config.DEFAULT_CONFIG) !! "timeout" = Some (JInt 60)
  /\ (config ∪ Config.DEFAULT_CONFIG) !! "log_level" = Some (JStr "INFO")
  /\ Fs.exists_ (fs w) (Config.config_path Demo.manager_dir) = false
  /\ Config.load_config Demo.manager_dir w = Some Config.DEFAULT_CONFIG
  /\ Config.load_config Demo.manager_dir corrupt = Some Config.DEFAULT_CONFIG.
Proof.
  intros w config corrupt.
  assert (H1 : Fs.is_dir (fs w) (PyPath.parent (Config.config_path Demo.manager_dir)) = true)
    by (vm_compute; reflexivity).
  assert (H2 : Fs.is_dir (fs w) (Config.config_path Demo.manager_dir) = false)
    by (vm_compute; reflexivity).
  assert (H3 : Fs.exists_ (fs w) (Config.config_path Demo.manager_dir) = false)
    by (vm_compute; reflexivity).
  destruct (config_save_load Demo.manager_dir w) as (Hsave & Hnone & _).
  destruct (config_save_load Demo.manager_dir corrupt) as (_ & _ & Hcorrupt).
  destruct (Hsave config H1 H2) as [Hload Hkeys].
  split; [exact H1 |]. split; [exact H2 |]. split; [exact Hload |].
  split; [rewrite Hkeys; vm_compute; reflexivity |].
  split; [rewrite Hkeys; vm_compute; reflexivity |].
  split; [exact H3 |]. split; [exact (Hnone H3) |].
  apply (Hcorrupt "{not json"). unfold corrupt. simpl fs. apply lookup_insert_eq.
Defined.

(* ===================================================================== *)
(** * Further properties *)
(* ===================================================================== *)

(** ** Parsing a declaration file *)

Section SubstringFacts.

Lemma startswith_take (k : nat) (s p : string) :
  PyStr.startswith (PyStr.take k s) p = true -> PyStr.startswith s p = true.
Proof.
  revert k s. induction p as [| c p IH]; intros k s; [by destruct s, k |].
  destruct k as [| k], s as [| d s]; simpl; try done.
  destruct (Ascii.eqb c d); [apply IH | done].
Qed.

Lemma contains_take (k : nat) (s p : string) :
  PyStr.contains (PyStr.take k s) p = true -> PyStr.contains s p = true.
Proof.
  revert k. induction s as [| d s IH]; intros k.
  - by destruct k.
  - destruct k as [| k].
    + simpl. intros Hc. rewrite orb_false_r in Hc.
      destruct p; [done | done].
    + cbn [PyStr.take PyStr.contains]. intros Hc. apply orb_true_iff in Hc as [Hst | Hrest].
      * change (String d (PyStr.take k s)) with (PyStr.take (S k) (String d s)) in Hst.
        apply startswith_take in Hst. by rewrite Hst.
      * rewrite (IH k Hrest). by rewrite orb_true_r.
Qed.

Lemma contains_drop (k : nat) (s p : string) :
  PyStr.contains (PyStr.drop k s) p = true -> PyStr.contains s p = true.
Proof.
  revert s. induction k as [| k IH]; intros s; [by destruct s |].
  destruct s as [| d s]; [done |]. cbn [PyStr.drop]. intros Hc.
  cbn [PyStr.contains]. rewrite (IH s Hc). by rewrite orb_true_r.
Qed.

Lemma lstrip_fuel_drop (fuel : nat) (s : string) :
  exists k, PyStr.lstrip_fuel fuel s = PyStr.drop k s.
Proof.
  revert s. induction fuel as [| fuel IH]; intros s; [by exists 0%nat; destruct s |].
  simpl. destruct (PyStr.leading_space s) as [ws |]; [| by exists 0%nat; destruct s].
  destruct (IH (PyStr.drop (String.length ws) s)) as [k ->].
  exists (String.length ws + k)%nat. generalize (String.length ws). clear.
  intros n. revert s. induction n as [| n IH]; intros s; simpl.
  - by destruct s.
  - destruct s as [| d s]; [by destruct k | apply IH].
Qed.

Lemma rstrip_fuel_take (fuel : nat) (s : string) :
  exists k, PyStr.rstrip_fuel fuel s = PyStr.take k s.
Proof.
  revert s. induction fuel as [| fuel IH]; intros s.
  - exists (String.length s). simpl. induction s as [| d s IHs]; [done |].
    simpl. by rewrite <- IHs.
  - simpl. destruct (PyStr.trailing_space s) as [ws |].
    + destruct (IH (PyStr.take (String.length s - String.length ws) s)) as [k ->].
      exists (Nat.min k (String.length s - String.length ws)).
      generalize (String.length s - String.length ws)%nat. clear. intros n.
      revert k s. induction n as [| n IH]; intros k s.
      * destruct k, s; done.
      * destruct s as [| d s]; [by destruct k |]. destruct k as [| k]; [done |].
        simpl. by rewrite IH.
    + exists (String.length s). induction s as [| d s IHs]; [done |].
      simpl. by rewrite <- IHs.
Qed.

Lemma contains_strip (s p : string) :
  PyStr.contains (PyStr.strip s) p = true -> PyStr.contains s p = true.
Proof.
  unfold PyStr.strip.
  destruct (lstrip_fuel_drop (String.length s) s) as [k ->].
  destruct (rstrip_fuel_take (String.length (PyStr.drop k s)) (PyStr.drop k s)) as [j ->].
  intros Hc. by apply contains_take, contains_drop in Hc.
Qed.

Lemma split_head_take (sep s : string) : exists k, PyStr.split_head sep s = PyStr.take k s.
Proof.
  induction s as [| c s [k IH]]; [by exists 0%nat |].
  cbn [PyStr.split_head]. destruct (PyStr.startswith (String c s) sep).
  - by exists 0%nat.
  - exists (S k). simpl. by rewrite IH.
Qed.

Lemma split_head_no_sep (sep s : string) :
  sep <> "" -> PyStr.contains (PyStr.split_head sep s) sep = false.
Proof.
  intros Hsep. induction s as [| c s IH].
  - simpl. destruct sep; done.
  - cbn [PyStr.split_head]. destruct (PyStr.startswith (String c s) sep) eqn:Hst.
    + simpl. destruct sep; done.
    + cbn [PyStr.contains]. rewrite IH, orb_false_r.
      apply not_true_is_false. intros Hst'.
      destruct (split_head_take sep s) as [k Hk]. rewrite Hk in Hst'.
      change (String c (PyStr.take k s)) with (PyStr.take (S k) (String c s)) in Hst'.
      apply startswith_take in Hst'. congruence.
Qed.

Lemma contains_split_head (sep s p : string) :
  PyStr.contains (PyStr.split_head sep s) p = true -> PyStr.contains s p = true.
Proof. destruct (split_head_take sep s) as [k ->]. apply contains_take. Qed.

Lemma parse_line_Some (ln : nat) (line : string) (r : Requirement) :
  parse_line ln line = Some r <->
  PyStr.strip line <> "" /\ PyStr.startswith (PyStr.strip line) "#" = false
  /\ r = (PyStr.strip
            (PyStr.split_head "<="
               (PyStr.split_head ">=" (PyStr.split_head "==" (PyStr.strip line)))),
          PyStr.strip line, ln).
Proof.
  unfold parse_line. cbv zeta.
  destruct (String.eqb (PyStr.strip line) "") eqn:He; simpl.
  - apply String.eqb_eq in He. split; [done | by intros [? _]].
  - apply String.eqb_neq in He.
    destruct (PyStr.startswith (PyStr.strip line) "#"); simpl.
    + split; [done | by intros (_ & ? & _)].
    + split; [by intros [= <-] | by intros (_ & _ & ->)].
Qed.

Lemma parse_lines_elem (k : nat) (ls : list string) (r : Requirement) :
  r ∈ parse_lines k ls <->
  exists line, (k <= r.2)%nat /\ ls !! (r.2 - k)%nat = Some line
               /\ parse_line r.2 line = Some r.
Proof.
  revert k. induction ls as [| l ls IH]; intros k.
  - simpl. split; [intros Hin; by apply elem_of_nil in Hin | by intros (line & _ & ? & _)].
  - cbn [parse_lines].
    assert (Hrest : r ∈ parse_lines (S k) ls <->
              exists line, (k < r.2)%nat /\ (l :: ls) !! (r.2 - k)%nat = Some line
                           /\ parse_line r.2 line = Some r).
    { rewrite IH. split; intros (line & Hk & Hl & Hp); exists line.
      - split; [lia |]. split; [| done].
        replace (r.2 - k)%nat with (S (r.2 - S k)) by lia. done.
      - split; [lia |]. split; [| done].
        replace (r.2 - k)%nat with (S (r.2 - S k)) in Hl by lia. done. }
    assert (Hhere : forall r', parse_line k l = Some r' ->
              (r = r' <-> (k = r.2 /\ parse_line r.2 l = Some r))).
    { intros r' Hr'. split.
      - intros ->. apply parse_line_Some in Hr' as Hr''. destruct Hr'' as (_ & _ & ->).
        simpl. done.
      - intros [-> Hp]. congruence. }
    destruct (parse_line k l) as [r' |] eqn:Hpl.
    + rewrite elem_of_cons, Hrest, (Hhere r' eq_refl). split.
      * intros [[Hk Hp] | (line & Hk & Hl & Hp)].
        -- exists l. split; [lia |]. split; [| done]. by rewrite Hk, Nat.sub_diag.
        -- exists line. split; [lia | done].
      * intros (line & Hk & Hl & Hp). destruct (decide (k = r.2)) as [Heq | Hne].
        -- left. split; [done |]. rewrite <- Heq, Nat.sub_diag in Hl.
           injection Hl as <-. done.
        -- right. exists line. split; [lia | done].
    + rewrite Hrest. split.
      * intros (line & Hk & Hl & Hp). exists line. split; [lia | done].
      * intros (line & Hk & Hl & Hp). destruct (decide (k = r.2)) as [Heq | Hne].
        -- rewrite <- Heq, Nat.sub_diag in Hl. injection Hl as <-.
           rewrite <- Heq in Hp. congruence.
        -- exists line. split; [lia | done].
Qed.

Lemma parse_lines_sorted (k : nat) (ls : list string) :
  StronglySorted lt (map snd (parse_lines k ls))
  /\ Forall (fun r : Requirement => (k <= r.2)%nat) (parse_lines k ls).
Proof.
  revert k. induction ls as [| l ls IH]; intros k.
  - split; constructor.
  - cbn [parse_lines]. destruct (IH (S k)) as [Hs Hf].
    assert (Hf' : Forall (fun r : Requirement => (k <= r.2)%nat) (parse_lines (S k) ls)).
    { eapply Forall_impl; [exact Hf |]. simpl. intros r Hr. lia. }
    destruct (parse_line k l) as [r |] eqn:Hpl; [| done].
    apply parse_line_Some in Hpl as (_ & _ & ->). split.
    + simpl. constructor; [done |]. apply Forall_fmap.
      eapply Forall_impl; [exact Hf |]. simpl. intros r Hr. lia.
    + constructor; [simpl; lia | done].
Qed.
End SubstringFacts.


(** ** The registry of plugins *)

Section RegistryFacts.

Lemma plugins_get_set_same (ps : list (string * PluginInfo)) (k : string) (v : PluginInfo) :
  plugins_get (plugins_set ps k v) k = Some v.
Proof.
  induction ps as [| [k' v'] ps IH]; simpl.
  - by rewrite String.eqb_refl.
  - destruct (String.eqb k' k) eqn:Hk; simpl.
    + by rewrite String.eqb_refl.
    + by rewrite Hk.
Qed.

Lemma plugins_get_set_other (ps : list (string * PluginInfo)) (k q : string)
    (v : PluginInfo) :
  q <> k -> plugins_get (plugins_set ps k v) q = plugins_get ps q.
Proof.
  intros Hq. induction ps as [| [k' v'] ps IH]; simpl.
  - apply String.eqb_neq in Hq. rewrite String.eqb_sym in Hq. by rewrite Hq.
  - destruct (String.eqb k' k) eqn:Hk; simpl.
    + apply String.eqb_eq in Hk. subst k'.
      assert (Hkq : String.eqb k q = false).
      { apply String.eqb_neq. congruence. }
      by rewrite Hkq.
    + by rewrite IH.
Qed.

Lemma plugins_set_keys (ps : list (string * PluginInfo)) (k : string) (v : PluginInfo) :
  map fst (plugins_set ps k v)
  = if bool_decide (k ∈ map fst ps) then map fst ps else map fst ps ++ [k].
Proof.
  induction ps as [| [k' v'] ps IH]; simpl.
  - done.
  - destruct (String.eqb k' k) eqn:Hk; simpl.
    + apply String.eqb_eq in Hk. subst k'.
      rewrite bool_decide_eq_true_2; [done |]. apply elem_of_cons. by left.
    + rewrite IH. apply String.eqb_neq in Hk.
      destruct (decide (k ∈ map fst ps)) as [Hin | Hnin].
      * rewrite !bool_decide_eq_true_2; [done | | done]. apply elem_of_cons. by right.
      * rewrite !bool_decide_eq_false_2; [done | | done].
        intros Hin. apply elem_of_cons in Hin as [? | ?]; [congruence | done].
Qed.

Lemma requirements_hash_length (w : World) (requirements_file : Path) (h : string) :
  _get_requirements_hash w requirements_file = Some h -> String.length h = 16%nat.
Proof.
  unfold _get_requirements_hash.
  destruct (fs w !! requirements_file) as [[| [content | doc]] |];
    [discriminate | | discriminate | discriminate].
  intros Hh.
  assert (Heq : h = PyStr.take 16 (MD5.hexdigest (PyStr.universal_newlines content)))
    by congruence.
  rewrite Heq. apply take_length. rewrite hexdigest_length. lia.
Qed.
End RegistryFacts.

(** X2. Registering a plugin makes [get_plugin_info] return its entry,
    whose private root is the isolated-deps root joined with the plugin's
    name and whose hash has 16 characters; the entries of all other
    plugins stay as they are; a name already registered keeps its place in
    [list_plugins], a new one goes to the end, so that no name is listed
    twice. The store and the file tree are not touched. When the
    declaration file cannot be read the call raises and registers
    nothing. *)
Theorem register_plugin_then_lookup {sets : PySet} {host : Host} (plugin_name : string)
    (plugin_dir requirements_file : Path) (mgr : Manager) (w : World) :
  match _get_requirements_hash w requirements_file with
  | None =>
      exists e, _register_plugin plugin_name plugin_dir requirements_file (mgr, w)
                = (Raise e, (mgr, w))
  | Some h =>
      exists mgr' w',
        _register_plugin plugin_name plugin_dir requirements_file (mgr, w)
        = (Return tt, (mgr', w'))
        /\ get_plugin_info mgr' plugin_name
           = Some {| dir := plugin_dir; requirements_file := requirements_file;
                     deps_hash := h;
                     isolated_deps_dir := global_deps_dir mgr </> plugin_name;
                     registered_time := clock (ticks w) |}
        /\ String.length h = 16%nat
        /\ (forall q, q <> plugin_name -> get_plugin_info mgr' q = get_plugin_info mgr q)
        /\ list_plugins mgr'
           = (if bool_decide (plugin_name ∈ list_plugins mgr) then list_plugins mgr
              else list_plugins mgr ++ [plugin_name])
        /\ (NoDup (list_plugins mgr) -> NoDup (list_plugins mgr'))
        /\ installed_deps mgr' = installed_deps mgr
        /\ dependency_metadata mgr' = dependency_metadata mgr
        /\ fs w' = fs w /\ sys_path w' = sys_path w
  end.
Proof.
  unfold _register_plugin.
  destruct (_get_requirements_hash w requirements_file) as [h |] eqn:Hhash.
  - eexists _, _. split; [reflexivity |]. unfold get_plugin_info, list_plugins. simpl.
    split; [apply plugins_get_set_same |].
    split.
    { by eapply requirements_hash_length. }
    split; [intros q Hq; by apply plugins_get_set_other |].
    split; [apply plugins_set_keys |].
    split; [| done].
    intros Hnd. rewrite plugins_set_keys.
    destruct (decide (plugin_name ∈ map fst (plugins mgr))) as [Hin | Hnin].
    + by rewrite bool_decide_eq_true_2.
    + rewrite bool_decide_eq_false_2 by done. apply NoDup_app. split; [done |].
      split; [| apply NoDup_singleton].
      intros x Hx Hx'. apply list_elem_of_singleton in Hx'. by subst x.
  - by eexists.
Qed.

(** ** The search path and the store under initialization *)

Section SearchPathFacts.
Context {sets : PySet} {host : Host}.

Lemma install_keeps_search_path (pkg_spec : string) (target_dir : Path)
    (plugin_name : string) (w : World) :
  sys_path (_install_package_isolated pkg_spec target_dir plugin_name w).2 = sys_path w
  /\ builtins_import (_install_package_isolated pkg_spec target_dir plugin_name w).2
     = builtins_import w
  /\ pip_log w `prefix_of`
     pip_log (_install_package_isolated pkg_spec target_dir plugin_name w).2.
Proof.
  unfold _install_package_isolated, subprocess_run.
  destruct (run_process _ _ _ _) as [out fs']. 
  assert (Hpre : pip_log w `prefix_of` pip_log w ++ [pip_command w pkg_spec target_dir])
    by apply prefix_app_r, reflexivity.
  destruct out as [rc err | | n]; simpl; done.
Qed.

Lemma track_dependency_search_path (plugin_name n s : string) (d : Path) (mgr : Manager)
    (w : World) :
  sys_path (track_dependency plugin_name n s d (mgr, w)).2
  = (if bool_decide (PyPath.str d ∈ sys_path w) then sys_path w
     else PyPath.str d :: sys_path w)
  /\ builtins_import (track_dependency plugin_name n s d (mgr, w)).2 = builtins_import w.
Proof.
  unfold track_dependency, time_time. cbn.
  destruct (bool_decide _); done.
Qed.

(** One turn of the loop and the search path. *)
Lemma process_requirement_search_path (plugin_name : string) (info : PluginInfo)
    (req : Requirement) (mgr : Manager) (w : World) :
  exists b mgr' w',
    process_requirement plugin_name info req (mgr, w) = (Return b, (mgr', w'))
    /\ sys_path w'
       = (if b && negb (bool_decide (dir_string info req ∈ sys_path w))
          then dir_string info req :: sys_path w else sys_path w)
    /\ builtins_import w' = builtins_import w
    /\ pip_log w `prefix_of` pip_log w'.
Proof.
  destruct req as [[n s] l]. unfold process_requirement, dir_string. cbn [fst snd].
  destruct (Fs.exists_ (fs w) (pkg_isolated_dir info n s)) eqn:Hex.
  - destruct (track_dependency_search_path plugin_name n s (pkg_isolated_dir info n s) mgr w)
      as [Hpath Himp].
    destruct (track_dependency_world plugin_name n s (pkg_isolated_dir info n s) mgr w)
      as (t & _ & _ & Hlog).
    destruct (track_dependency _ _ _ _ _) as [mgr' w']. cbn [fst snd] in *.
    exists true, mgr', w'. split; [reflexivity |]. rewrite Hpath, Hlog.
    split; [| split; [done | reflexivity]].
    by destruct (bool_decide (PyPath.str (pkg_isolated_dir info n s) ∈ sys_path w)).
  - destruct (install_keeps_search_path s (pkg_isolated_dir info n s) plugin_name w)
      as (Hpath & Himp & Hlog).
    destruct (install_returns s (pkg_isolated_dir info n s) plugin_name w)
      as (b & w1 & Hinst).
    rewrite Hinst in *. cbn [fst snd] in *. destruct b.
    + destruct (track_dependency_search_path plugin_name n s (pkg_isolated_dir info n s)
                  mgr w1) as [Hpath' Himp'].
      destruct (track_dependency_world plugin_name n s (pkg_isolated_dir info n s) mgr w1)
        as (t & _ & _ & Hlog').
      destruct (track_dependency _ _ _ _ _) as [mgr' w']. cbn [fst snd] in *.
      exists true, mgr', w'. split; [reflexivity |]. rewrite Hpath', Hpath, Hlog'.
      split; [| split; [congruence | done]].
      by destruct (bool_decide (PyPath.str (pkg_isolated_dir info n s) ∈ sys_path w)).
    + exists false, mgr, w1. split; [reflexivity |]. done.
Qed.

(** The loop and the search path: it only puts directories in front,
    each one a directory of a counted requirement that was not on the path
    yet, and every directory of a counted requirement is on the path in
    the end. *)
Lemma process_requirements_search_path (plugin_name : string) (info : PluginInfo)
    (reqs : list Requirement) (c : nat) (mgr : Manager) (w : World) :
  let st' := (process_requirements plugin_name info reqs c (mgr, w)).2 in
  let outs := requirement_outcomes plugin_name info reqs (mgr, w) in
  exists added,
    sys_path st'.2 = added ++ sys_path w
    /\ NoDup added
    /\ (forall d, d ∈ added -> (d ∉ sys_path w) /\ d ∈ recorded_dirs info reqs outs)
    /\ (forall d, d ∈ recorded_dirs info reqs outs -> d ∈ sys_path st'.2)
    /\ builtins_import st'.2 = builtins_import w
    /\ pip_log w `prefix_of` pip_log st'.2.
Proof.
  revert c mgr w. induction reqs as [| req reqs IH]; intros c mgr w; simpl.
  - exists []. split; [done |]. split; [apply NoDup_nil_2 |].
    split; [intros d Hd; by apply elem_of_nil in Hd |].
    split; [intros d Hd; by apply elem_of_nil in Hd |]. done.
  - destruct (process_requirement_search_path plugin_name info req mgr w)
      as (b & mgr1 & w1 & Hstep & Hpath & Himp & Hlog).
    rewrite Hstep.
    destruct (IH (if b then S c else c) mgr1 w1)
      as (added & Hadded & Hnd & Hnew & Hall & Himp' & Hlog').
    unfold recorded_dirs in *. rewrite counted_cons.
    set (d1 := dir_string info req) in *.
    destruct (b && negb (bool_decide (d1 ∈ sys_path w))) eqn:Hcase.
    + apply andb_true_iff in Hcase as [-> Hfresh].
      apply negb_true_iff, bool_decide_eq_false in Hfresh.
      exists (added ++ [d1]). rewrite Hadded, Hpath, <- app_assoc. split; [done |].
      split.
      { apply NoDup_app. split; [done |]. split; [| apply NoDup_singleton].
        intros d Hd Hd'. apply list_elem_of_singleton in Hd'. subst d.
        apply Hnew in Hd as [Hd _]. apply Hd. rewrite Hpath. apply elem_of_cons. by left. }
      split.
      { intros d Hd. apply elem_of_app in Hd as [Hd | Hd].
        - apply Hnew in Hd as [Hd Hrec]. split.
          + intros Hin. apply Hd. rewrite Hpath. apply elem_of_cons. by right.
          + simpl. apply elem_of_cons. by right.
        - apply list_elem_of_singleton in Hd. subst d. split; [done |].
          simpl. apply elem_of_cons. by left. }
      split.
      { intros d Hd. simpl in Hd. apply elem_of_cons in Hd as [-> | Hd].
        - apply elem_of_app. right. apply elem_of_cons. by left.
        - apply Hall in Hd. by rewrite Hadded, Hpath in Hd. }
      split; [congruence | by etrans].
    + exists added. rewrite Hadded, Hpath. split; [done |]. split; [done |].
      split.
      { intros d Hd. apply Hnew in Hd as [Hd Hrec]. rewrite Hpath in Hd. split; [done |].
        destruct b; [simpl; apply elem_of_cons; by right | done]. }
      split.
      { intros d Hd. destruct b.
        - simpl in Hd. apply elem_of_cons in Hd as [-> | Hd].
          + simpl in Hcase. apply negb_false_iff, bool_decide_eq_true in Hcase.
            apply elem_of_app. by right.
          + apply Hall in Hd. by rewrite Hadded, Hpath in Hd.
        - apply Hall in Hd. by rewrite Hadded, Hpath in Hd. }
      split; [congruence | by etrans].
Qed.

Lemma save_metadata_search_path (st : State) :
  sys_path (_save_metadata st).2 = sys_path st.2
  /\ builtins_import (_save_metadata st).2 = builtins_import st.2.
Proof.
  destruct st as [mgr w]. unfold _save_metadata, time_time. cbn.
  destruct (Fs.write_file _ _ _); done.
Qed.
End SearchPathFacts.

(** X3. Initializing a plugin only puts directories in front of the
    search path: the entries that were there stay, in their order; what is
    added are directories the plugin has on record afterwards, none of
    which was on the path before, and none twice; and every directory on
    the plugin's record afterwards was on its record before or is on the
    search path now, visible to every import of the process. *)
Theorem initialize_only_prepends_to_search_path {sets : PySet} {host : Host}
    (plugin_name : string) (mgr : Manager) (w : World) :
  let st' := (initialize_plugin_dependencies plugin_name (mgr, w)).2 in
  exists added,
    sys_path st'.2 = added ++ sys_path w
    /\ NoDup added
    /\ (forall d, d ∈ added ->
          (d ∉ sys_path w) /\ d ∈ get_plugin_deps_paths st'.1 plugin_name)
    /\ (forall d, d ∈ get_plugin_deps_paths st'.1 plugin_name ->
          d ∈ get_plugin_deps_paths mgr plugin_name \/ d ∈ sys_path st'.2).
Proof.
  assert (Hsame : exists added : list string,
             sys_path w = added ++ sys_path w /\ NoDup added
             /\ (forall d, d ∈ added ->
                   (d ∉ sys_path w) /\ d ∈ get_plugin_deps_paths mgr plugin_name)
             /\ (forall d, d ∈ get_plugin_deps_paths mgr plugin_name ->
                   d ∈ get_plugin_deps_paths mgr plugin_name \/ d ∈ sys_path w)).
  { exists []. split; [done |]. split; [apply NoDup_nil_2 |].
    split; [intros d Hd; by apply elem_of_nil in Hd | by left]. }
  unfold initialize_plugin_dependencies.
  destruct (plugins_get (plugins mgr) plugin_name) as [info |]; [| exact Hsame].
  destruct (_parse_requirements w (requirements_file info)) as [| req reqs] eqn:Hparse;
    [exact Hsame |].
  destruct (Fs.mkdir_exist_ok (fs w) (isolated_deps_dir info)) as [fs1 | e];
    [| exact Hsame].
  destruct (process_requirements_returns plugin_name info (req :: reqs) 0
              (mgr, set_fs fs1 w)) as [st1 Hrun].
  destruct (process_requirements_search_path plugin_name info (req :: reqs) 0 mgr
              (set_fs fs1 w)) as (added & Hadded & Hnd & Hnew & Hall & _).
  destruct (process_requirements_manager plugin_name info (req :: reqs) 0 mgr
              (set_fs fs1 w)) as (ts & Hts & Hmgr).
  rewrite Hrun in *. cbn [fst snd] in *.
  change (sys_path (set_fs fs1 w)) with (sys_path w) in *.
  destruct (save_metadata_manager st1) as [Hm _].
  destruct (save_metadata_search_path st1) as [Hp _].
  cbn zeta. cbn [fst snd]. rewrite Hm, Hp, Hmgr.
  pose proof (counted_zip _ _ ts Hts) as Hzip.
  exists added. split; [done |]. split; [done |]. split.
  - intros d Hd. apply Hnew in Hd as [Hd Hrec]. split; [done |].
    rewrite get_record_all, elem_of_set_update, Hzip. by right.
  - intros d Hd. rewrite get_record_all, elem_of_set_update, Hzip in Hd.
    destruct Hd as [Hd | Hd]; [by left | right]. by apply Hall.
Qed.

Section OnlyAddsFacts.
Context {sets : PySet} {host : Host}.

Lemma record_all_plugins (plugin_name : string) (info : PluginInfo)
    (l : list (Requirement * Q)) (mgr : Manager) :
  plugins (record_all plugin_name info l mgr) = plugins mgr.
Proof.
  unfold record_all. revert mgr. induction l as [| rt l IH]; intros mgr; [done |].
  simpl. by rewrite IH.
Qed.

(** One call of [initialize_plugin_dependencies] only adds. *)
Lemma initialize_only_adds (plugin_name : string) (mgr : Manager) (w : World) :
  let st' := (initialize_plugin_dependencies plugin_name (mgr, w)).2 in
  plugins st'.1 = plugins mgr
  /\ (forall q d, d ∈ get_plugin_deps_paths mgr q -> d ∈ get_plugin_deps_paths st'.1 q)
  /\ (forall q, q <> plugin_name ->
        get_plugin_deps_paths st'.1 q = get_plugin_deps_paths mgr q)
  /\ (forall k, is_Some (dependency_metadata mgr !! k) ->
        is_Some (dependency_metadata st'.1 !! k))
  /\ (forall k r, dependency_metadata st'.1 !! k = Some r ->
        dependency_metadata mgr !! k = Some r \/ plugin r = plugin_name)
  /\ pip_log w `prefix_of` pip_log st'.2
  /\ sys_path w `suffix_of` sys_path st'.2
  /\ builtins_import st'.2 = builtins_import w.
Proof.
  assert (Hsame : plugins mgr = plugins mgr
    /\ (forall q d, d ∈ get_plugin_deps_paths mgr q -> d ∈ get_plugin_deps_paths mgr q)
    /\ (forall q, q <> plugin_name ->
          get_plugin_deps_paths mgr q = get_plugin_deps_paths mgr q)
    /\ (forall k, is_Some (dependency_metadata mgr !! k) ->
          is_Some (dependency_metadata mgr !! k))
    /\ (forall k r, dependency_metadata mgr !! k = Some r ->
          dependency_metadata mgr !! k = Some r \/ plugin r = plugin_name)
    /\ pip_log w `prefix_of` pip_log w
    /\ sys_path w `suffix_of` sys_path w
    /\ builtins_import w = builtins_import w).
  { repeat split; try done. by left. }
  unfold initialize_plugin_dependencies.
  destruct (plugins_get (plugins mgr) plugin_name) as [info |]; [| exact Hsame].
  destruct (_parse_requirements w (requirements_file info)) as [| req reqs] eqn:Hparse;
    [exact Hsame |].
  destruct (Fs.mkdir_exist_ok (fs w) (isolated_deps_dir info)) as [fs1 | e];
    [| exact Hsame].
  destruct (process_requirements_returns plugin_name info (req :: reqs) 0
              (mgr, set_fs fs1 w)) as [st1 Hrun].
  destruct (process_requirements_search_path plugin_name info (req :: reqs) 0 mgr
              (set_fs fs1 w)) as (added & Hadded & _ & _ & _ & Himp & Hlog).
  destruct (process_requirements_manager plugin_name info (req :: reqs) 0 mgr
              (set_fs fs1 w)) as (ts & Hts & Hmgr).
  rewrite Hrun in *. cbn [fst snd] in *.
  change (sys_path (set_fs fs1 w)) with (sys_path w) in *.
  change (pip_log (set_fs fs1 w)) with (pip_log w) in *.
  change (builtins_import (set_fs fs1 w)) with (builtins_import w) in *.
  destruct (save_metadata_manager st1) as [Hm Hl].
  destruct (save_metadata_search_path st1) as [Hp Hb].
  cbn zeta. cbn [fst snd]. rewrite Hm, Hp, Hb, Hl, Hmgr.
  split; [apply record_all_plugins |].
  split.
  { intros q d Hd. destruct (decide (q = plugin_name)) as [-> | Hq].
    - rewrite get_record_all, elem_of_set_update. by left.
    - by rewrite get_record_all_other. }
  split; [intros q Hq; by apply get_record_all_other |].
  split; [intros k; apply metadata_record_all_mono |].
  split.
  { intros k r Hk. apply metadata_record_all_origin in Hk as [Hk | (rq & _ & _ & _ & _ & _ & Hpl)];
      [by left | by right]. }
  split; [done |]. split; [| done].
  rewrite Hadded. by apply suffix_app_r.
Qed.
End OnlyAddsFacts.

Section OnlyAddsLoop.
Context {sets : PySet} {host : Host}.

(** The loop of [auto_initialize_all_plugins] over any list of names. *)
Lemma initialize_each_only_adds (names : list string) (st : State) :
  let st' := (initialize_each names st).2 in
  plugins st'.1 = plugins st.1
  /\ (forall q d, d ∈ get_plugin_deps_paths st.1 q -> d ∈ get_plugin_deps_paths st'.1 q)
  /\ (forall q, q ∉ names -> get_plugin_deps_paths st'.1 q = get_plugin_deps_paths st.1 q)
  /\ (forall k, is_Some (dependency_metadata st.1 !! k) ->
        is_Some (dependency_metadata st'.1 !! k))
  /\ (forall k r, dependency_metadata st'.1 !! k = Some r ->
        dependency_metadata st.1 !! k = Some r \/ plugin r ∈ names)
  /\ pip_log st.2 `prefix_of` pip_log st'.2
  /\ sys_path st.2 `suffix_of` sys_path st'.2
  /\ builtins_import st'.2 = builtins_import st.2.
Proof.
  revert st.
  induction names as [| n names IH]; intros [m0 w0];
    cbn zeta; cbn [initialize_each fst snd].
  - repeat split; try done. by left.
  - pose proof (initialize_only_adds n m0 w0) as Hone.
    destruct (initialize_plugin_dependencies n (m0, w0)) as [res [m1 w1]].
    cbn zeta in Hone. cbn [fst snd] in Hone.
    destruct Hone as (Hpl & Hmono & Hother & Hkeys & Horig & Hlog & Hpath & Himp).
    assert (Hstop : plugins m1 = plugins m0
      /\ (forall q d, d ∈ get_plugin_deps_paths m0 q -> d ∈ get_plugin_deps_paths m1 q)
      /\ (forall q, q ∉ n :: names ->
            get_plugin_deps_paths m1 q = get_plugin_deps_paths m0 q)
      /\ (forall k, is_Some (dependency_metadata m0 !! k) ->
            is_Some (dependency_metadata m1 !! k))
      /\ (forall k r, dependency_metadata m1 !! k = Some r ->
            dependency_metadata m0 !! k = Some r \/ plugin r ∈ n :: names)
      /\ pip_log w0 `prefix_of` pip_log w1
      /\ sys_path w0 `suffix_of` sys_path w1
      /\ builtins_import w1 = builtins_import w0).
    { split; [done |]. split; [done |]. split.
      - intros q Hq. apply Hother. intros ->. apply Hq. apply elem_of_cons. by left.
      - split; [done |]. split; [| done].
        intros k rec Hk. apply Horig in Hk as [Hk | Hk]; [by left | right].
        apply elem_of_cons. by left. }
    destruct res as [b | e]; [| exact Hstop].
    specialize (IH (m1, w1)). cbn zeta in IH. cbn [fst snd] in IH.
    destruct IH as (Hpl' & Hmono' & Hother' & Hkeys' & Horig' & Hlog' & Hpath' & Himp').
    split; [congruence |]. split; [by auto |]. split.
    { intros q Hq. rewrite Hother'.
      - apply Hother. intros ->. apply Hq. apply elem_of_cons. by left.
      - intros Hin. apply Hq. apply elem_of_cons. by right. }
    split; [by auto |]. split.
    { intros k r Hk. apply Horig' in Hk as [Hk | Hk].
      - apply Horig in Hk as [Hk | Hk]; [by left | right]. apply elem_of_cons. by left.
      - right. apply elem_of_cons. by right. }
    split; [by etrans |]. split; [by etrans | congruence].
Qed.
End OnlyAddsLoop.

(** X4. Initializing all registered plugins only adds: the registrations
    stay as they are; no plugin loses a directory from its record, and a
    name that is not registered gets none; no record key disappears, and a
    record that is new or changed belongs to a registered plugin; the
    search path keeps its entries, in their order, behind what is put in
    front; the commands run so far stay at the head of the log; the import
    entry point is not touched. This holds also when the loop ends early
    with an exception. *)
Theorem auto_initialize_only_adds {sets : PySet} {host : Host} (mgr : Manager)
    (w : World) :
  let st' := (auto_initialize_all_plugins (mgr, w)).2 in
  list_plugins st'.1 = list_plugins mgr
  /\ (forall q d, d ∈ get_plugin_deps_paths mgr q -> d ∈ get_plugin_deps_paths st'.1 q)
  /\ (forall q, q ∉ list_plugins mgr ->
        get_plugin_deps_paths st'.1 q = get_plugin_deps_paths mgr q)
  /\ (forall k, is_Some (dependency_metadata mgr !! k) ->
        is_Some (dependency_metadata st'.1 !! k))
  /\ (forall k r, dependency_metadata st'.1 !! k = Some r ->
        dependency_metadata mgr !! k = Some r \/ plugin r ∈ list_plugins mgr)
  /\ pip_log w `prefix_of` pip_log st'.2
  /\ sys_path w `suffix_of` sys_path st'.2
  /\ builtins_import st'.2 = builtins_import w.
Proof.
  pose proof (initialize_each_only_adds (map fst (plugins mgr)) (mgr, w)) as Hgen.
  unfold auto_initialize_all_plugins, list_plugins. cbn [fst].
  cbn zeta in Hgen. cbn [fst snd] in Hgen.
  destruct Hgen as (Hpl & Hrest). split; [by rewrite Hpl | exact Hrest].
Qed.

(** ** Finding the host's root *)

Section RootFacts.

Lemma find_first {A : Type} (f : A -> bool) (l : list A) :
  match List.find f l with
  | Some x => exists l1 l2, l = l1 ++ x :: l2 /\ f x = true /\ forall y, y ∈ l1 -> f y = false
  | None => forall y, y ∈ l -> f y = false
  end.
Proof.
  induction l as [| a l IH]; simpl.
  - intros y Hy. by apply elem_of_nil in Hy.
  - destruct (f a) eqn:Hfa.
    + exists [], l. split; [done |]. split; [done |]. intros y Hy. by apply elem_of_nil in Hy.
    + destruct (List.find f l) as [x |].
      * destruct IH as (l1 & l2 & -> & Hx & Hl1). exists (a :: l1), l2.
        split; [done |]. split; [done |].
        intros y Hy. apply elem_of_cons in Hy as [-> | Hy]; [done | by apply Hl1].
      * intros y Hy. apply elem_of_cons in Hy as [-> | Hy]; [done | by apply IH].
Qed.

(** The directories looked at, nearest first: [current_dir] cut down to
    [k] parts, for [k] from its length down to [low]. *)
Lemma candidates_take (current_dir : Path) :
  let low :=
    match current_dir with
    | r :: _ => if PyPath.is_root r then 1%nat else 0%nat
    | [] => 0%nat
    end in
  current_dir :: PyPath.parents current_dir
  = map (fun i => take (length current_dir - i) current_dir)
      (seq 0 (S (length current_dir - low))).
Proof.
  intros low. unfold PyPath.parents.
  set (n := match current_dir with
            | r :: _ => if PyPath.is_root r then (length current_dir - 1)%nat
                        else length current_dir
            | [] => 0%nat
            end).
  assert (Hn : n = (length current_dir - low)%nat).
  { subst n low. destruct current_dir as [| r rest]; [done |].
    destruct (PyPath.is_root r); simpl; lia. }
  rewrite <- Hn. cbn [seq map]. rewrite Nat.sub_0_r, firstn_all. f_equal.
  rewrite <- seq_shift, map_map. apply map_ext. intros i. f_equal. lia.
Qed.
End RootFacts.

(** X5. [_find_comfyui_root] returns the nearest directory, among the
    module's directory and its ancestors, that holds [main.py] or
    [web/extensions.py]; when none of them does, it returns the parent of
    the parent of the module's directory. *)
Theorem find_comfyui_root_is_nearest_marked (tree : FS) (current_dir : Path) :
  let low :=
    match current_dir with
    | r :: _ => if PyPath.is_root r then 1%nat else 0%nat
    | [] => 0%nat
    end in
  let root := _find_comfyui_root tree current_dir in
  (exists k, (low <= k <= length current_dir)%nat
     /\ root = take k current_dir
     /\ is_comfyui_root tree root = true
     /\ forall j, (k < j <= length current_dir)%nat ->
          is_comfyui_root tree (take j current_dir) = false)
  \/ ((forall j, (low <= j <= length current_dir)%nat ->
         is_comfyui_root tree (take j current_dir) = false)
      /\ root = PyPath.parent (PyPath.parent current_dir)).
Proof.
  intros low root. subst root. unfold _find_comfyui_root.
  pose proof (candidates_take current_dir) as Hcand. fold low in Hcand. cbn zeta in Hcand.
  rewrite Hcand.
  pose proof (find_first (is_comfyui_root tree)
                (map (fun i => take (length current_dir - i) current_dir)
                   (seq 0 (S (length current_dir - low))))) as Hfind.
  assert (Hlow : (low <= length current_dir)%nat).
  { subst low. destruct current_dir as [| r rest]; [done |].
    destruct (PyPath.is_root r); simpl; lia. }
  destruct (List.find _ _) as [x |].
  - left. destruct Hfind as (l1 & l2 & Heq & Hx & Hl1).
    apply fmap_app_inv in Heq as (s1 & s2' & Hl1' & Hrest & Hseq).
    symmetry in Hrest. apply fmap_cons_inv in Hrest as (i & s2 & Hxi & Hl2 & ->).
    assert (Hi : i = length s1 /\ (length s1 + S (length s2) = S (length current_dir - low))%nat).
    { apply (f_equal length) in Hseq as Hlen. rewrite length_seq, length_app in Hlen.
      simpl in Hlen. split; [| lia].
      assert (Hnth : seq 0 (S (length current_dir - low)) !! length s1 = Some i).
      { rewrite Hseq. by rewrite list_lookup_middle. }
      apply lookup_seq in Hnth. lia. }
    destruct Hi as [-> Hlen].
    exists (length current_dir - length s1)%nat. split; [lia |]. split; [done |].
    split; [done |].
    intros j Hj. apply Hl1. rewrite Hl1'.
    apply list_elem_of_fmap. exists (length current_dir - j)%nat. split.
    + f_equal. lia.
    + assert (Hin : seq 0 (S (length current_dir - low)) !! (length current_dir - j)%nat
                    = Some (length current_dir - j)%nat).
      { apply lookup_seq. lia. }
      rewrite Hseq in Hin. rewrite lookup_app_l in Hin by lia.
      by eapply list_elem_of_lookup_2.
  - right. split; [| done]. intros j Hj. apply Hfind.
    apply list_elem_of_fmap. exists (length current_dir - j)%nat. split.
    + f_equal. lia.
    + apply elem_of_seq. lia.
Qed.

(** ** The metadata file *)

#[local] Arguments PyJson.str_elements : simpl never.
#[local] Arguments PyJson.set_raises : simpl never.

Section MetadataFileFacts.
Context {sets : PySet} {host : Host}.

Lemma dict_of_lookup (members : list (string * JSON)) (k : string) :
  NoDup members.*1 ->
  PyJson.dict_of members !! k = (list_to_map members : gmap string JSON) !! k.
Proof.
  intros Hnd. unfold PyJson.dict_of. rewrite fold_insert_lookup by done.
  rewrite lookup_empty. by destruct (list_to_map members !! k).
Qed.

Lemma dict_of_encoded {A : Type} (f : A -> JSON) (m : gmap string A) :
  PyJson.dict_of (map (fun kv => (kv.1, f kv.2)) (map_to_list m)) = f <$> m.
Proof.
  apply map_eq. intros k. rewrite dict_of_lookup.
  - change (map (fun kv : string * A => (kv.1, f kv.2)) (map_to_list m))
      with (prod_map id f <$> map_to_list m).
    by rewrite list_to_map_fmap, list_to_map_to_list.
  - change (map (fun kv : string * A => (kv.1, f kv.2)) (map_to_list m)).*1
      with ((prod_map id f <$> map_to_list m).*1).
    rewrite <- list_fmap_compose.
    replace (fst ∘ prod_map id f) with (@fst string A) by done.
    apply NoDup_fst_map_to_list.
Qed.

Lemma record_of_json_record_json (r : DepRecord) : record_of_json (record_json r) = Some r.
Proof. destruct r. vm_compute. reflexivity. Qed.

Lemma str_elements_encoded (s : list string) :
  PyJson.str_elements (JArr (map JStr s)) = Some s
  /\ PyJson.set_raises (JArr (map JStr s)) = false.
Proof.
  unfold PyJson.str_elements, PyJson.set_raises. split.
  - by apply (mapM_fmap_Some PyJson.as_str JStr).
  - induction s as [| x s IH]; [done |]. simpl. done.
Qed.

Lemma forallb_map_to_list {A : Type} (p : string * A -> bool) (m : gmap string A) :
  (forall k v, m !! k = Some v -> p (k, v) = true) ->
  forallb p (map_to_list m) = true.
Proof.
  intros Hall. apply forallb_forall. intros [k v] Hkv.
  apply list_elem_of_In, elem_of_map_to_list in Hkv. by apply Hall.
Qed.

Lemma existsb_map_to_list_false {A : Type} (p : string * A -> bool) (m : gmap string A) :
  (forall k v, m !! k = Some v -> p (k, v) = false) ->
  existsb p (map_to_list m) = false.
Proof.
  intros Hall. apply not_true_is_false. intros Hex.
  apply existsb_exists in Hex as ([k v] & Hkv & Hp).
  apply list_elem_of_In, elem_of_map_to_list in Hkv. rewrite (Hall k v Hkv) in Hp. done.
Qed.

(** Reading back what [_save_metadata] writes. *)
Lemma load_saved_document (mgr0 mgr : Manager) (w : World) (t : Q) :
  fs w !! (global_deps_dir mgr0 </> "metadata.json")
  = Some (File (JsonDoc (metadata_json mgr t))) ->
  _load_metadata mgr0 w
  = Some (set_installed_deps (set_update [] <$> installed_deps mgr)
            (set_dependency_metadata (dependency_metadata mgr) mgr0)).
Proof.
  intros Hfile. unfold _load_metadata, Fs.exists_. rewrite Hfile.
  unfold metadata_json.
  set (deps := JObj (map (fun kv => (kv.1, record_json kv.2))
                       (map_to_list (dependency_metadata mgr)))).
  set (inst := JObj (map (fun kv => (kv.1, JArr (map JStr kv.2)))
                       (map_to_list (installed_deps mgr)))).
  assert (Hd : PyJson.dict_of [("dependencies", deps); ("installed_deps", inst);
                               ("last_updated", JFloat t)] !! "dependencies" = Some deps).
  { unfold PyJson.dict_of. simpl. rewrite !lookup_insert_ne by done.
    apply lookup_insert_eq. }
  assert (Hi : PyJson.dict_of [("dependencies", deps); ("installed_deps", inst);
                               ("last_updated", JFloat t)] !! "installed_deps" = Some inst).
  { unfold PyJson.dict_of. simpl. rewrite lookup_insert_ne by done.
    apply lookup_insert_eq. }
  cbv zeta. rewrite Hd, Hi. simpl default.
  unfold deps, inst, records_of_json. cbv iota beta.
  rewrite (dict_of_encoded record_json).
  rewrite (dict_of_encoded (fun s : list string => JArr (map JStr s))).
  rewrite forallb_map_to_list.
  2:{ intros k v Hk. apply bool_decide_eq_true. rewrite lookup_fmap in Hk.
      destruct (dependency_metadata mgr !! k) as [r |]; [| done].
      injection Hk as <-. cbn [snd]. rewrite record_of_json_record_json. by eexists. }
  assert (Hrec : omap record_of_json (record_json <$> dependency_metadata mgr)
                 = dependency_metadata mgr).
  { apply map_eq. intros k. rewrite lookup_omap, lookup_fmap.
    destruct (dependency_metadata mgr !! k) as [r |]; [| done].
    simpl. apply record_of_json_record_json. }
  rewrite Hrec.
  rewrite existsb_map_to_list_false.
  2:{ intros k v Hk. rewrite lookup_fmap in Hk.
      destruct (installed_deps mgr !! k) as [s |]; [| done].
      injection Hk as <-. cbn [snd]. apply str_elements_encoded. }
  rewrite forallb_map_to_list.
  2:{ intros k v Hk. apply bool_decide_eq_true. rewrite lookup_fmap in Hk.
      destruct (installed_deps mgr !! k) as [s |]; [| done].
      injection Hk as <-. cbn [snd]. destruct (str_elements_encoded s) as [-> _].
      by eexists. }
  f_equal. f_equal. apply map_eq. intros k. rewrite lookup_omap, !lookup_fmap.
  destruct (installed_deps mgr !! k) as [s |]; [| done].
  simpl. by destruct (str_elements_encoded s) as [-> _].
Qed.
End MetadataFileFacts.

(** X6. What [_save_metadata] writes, [_load_metadata] reads back: when
    the metadata file can be written, a manager that loads it afterwards
    (the same one, or a new one in a later process with the same
    isolated-deps root) has the records that were saved and, for every
    plugin, the same set of directories; its registered plugins are not
    touched. *)
Theorem load_metadata_reads_back_saved {sets : PySet} {host : Host}
    (mgr mgr0 : Manager) (w : World) :
  let metadata_file := global_deps_dir mgr </> "metadata.json" in
  Fs.is_dir (fs w) (PyPath.parent metadata_file) = true ->
  Fs.is_dir (fs w) metadata_file = false ->
  global_deps_dir mgr0 = global_deps_dir mgr ->
  exists mgr',
    _load_metadata mgr0 (_save_metadata (mgr, w)).2 = Some mgr'
    /\ dependency_metadata mgr' = dependency_metadata mgr
    /\ (forall q d, d ∈ get_plugin_deps_paths mgr' q <-> d ∈ get_plugin_deps_paths mgr q)
    /\ (forall q, NoDup (get_plugin_deps_paths mgr' q))
    /\ (forall q, is_Some (installed_deps mgr' !! q) <-> is_Some (installed_deps mgr !! q))
    /\ plugins mgr' = plugins mgr0.
Proof.
  intros metadata_file Hparent Hfile Hroot.
  assert (Hsaved : exists t,
             fs (_save_metadata (mgr, w)).2 !! (global_deps_dir mgr0 </> "metadata.json")
             = Some (File (JsonDoc (metadata_json mgr t)))).
  { unfold _save_metadata, time_time, Fs.write_file. cbn [fs set_ticks].
    fold metadata_file. rewrite Hparent, Hroot. fold metadata_file.
    unfold Fs.is_dir in Hfile.
    destruct (fs w !! metadata_file) as [[| c] |] eqn:Hnode; [done | |];
      (eexists; cbn [snd fs set_fs]; apply lookup_insert_eq). }
  destruct Hsaved as [t Hsaved].
  eexists. split; [by apply (load_saved_document mgr0 mgr _ t) |].
  split; [done |]. unfold get_plugin_deps_paths. cbn [installed_deps set_installed_deps].
  split; [| split; [| split; [| done]]].
  - intros q d. rewrite lookup_fmap. destruct (installed_deps mgr !! q) as [s |]; [| done].
    simpl. rewrite elem_of_set_update. split; [| by right].
    intros [Hnil | ?]; [by apply elem_of_nil in Hnil | done].
  - intros q. rewrite lookup_fmap. destruct (installed_deps mgr !! q) as [s |].
    + simpl. apply NoDup_set_update, NoDup_nil_2.
    + simpl. apply NoDup_nil_2.
  - intros q. rewrite lookup_fmap. by rewrite fmap_is_Some.
Qed.

(** ** Discovery and construction *)

Section DiscoveryFacts.
Context {sets : PySet} {host : Host}.

Lemma name_snoc (p : Path) (x : string) : p <> [] -> PyPath.name (p ++ [x]) = x.
Proof.
  intros Hp. unfold PyPath.name. destruct p as [| a p]; [done |]. simpl.
  destruct (p ++ [x]) as [| b l] eqn:Hl; [by destruct p |].
  rewrite <- Hl. change (a :: p ++ [x]) with ((a :: p) ++ [x]). by rewrite last_last.
Qed.

Lemma name_last (p : Path) (x : string) :
  PyPath.is_root x = false -> PyPath.name (p ++ [x]) = x.
Proof.
  intros Hx. destruct p as [| a p]; [simpl; by rewrite Hx | by apply name_snoc].
Qed.

Lemma discover_each_registers (tree : FS) (cn md gd : Path) (entries : list Path) :
  cn <> [] ->
  NoDup entries ->
  (forall i, i ∈ entries -> exists x, i = cn ++ [x]) ->
  forall (mgr : Manager) (w : World),
    fs w = tree -> deps_manager_dir mgr = md -> global_deps_dir mgr = gd ->
    (discover_each entries (mgr, w)).1 = Return tt ->
    let st' := (discover_each entries (mgr, w)).2 in
    fs st'.2 = tree /\ sys_path st'.2 = sys_path w
    /\ installed_deps st'.1 = installed_deps mgr
    /\ dependency_metadata st'.1 = dependency_metadata mgr
    /\ forall x,
         if bool_decide (cn ++ [x] ∈ entries) && eligible tree cn md x then
           exists info,
             get_plugin_info st'.1 x = Some info
             /\ dir info = cn ++ [x]
             /\ requirements_file info = (cn ++ [x]) </> "requirements.txt"
             /\ isolated_deps_dir info = gd </> x
             /\ exists w0, fs w0 = tree
                  /\ _get_requirements_hash w0 (requirements_file info) = Some (deps_hash info)
         else get_plugin_info st'.1 x = get_plugin_info mgr x.
Proof.
  intros Hcn. induction entries as [| i entries IH]; intros Hnd Hshape mgr w Hfs Hmd Hgd Hret.
  - cbn zeta. cbn [discover_each fst snd]. repeat split; done.
  - apply NoDup_cons in Hnd as [Hi Hnd].
    destruct (Hshape i) as [xi Hxi]; [apply elem_of_cons; by left |].
    assert (Hshape' : forall j, j ∈ entries -> exists x, j = cn ++ [x]).
    { intros j Hj. apply Hshape. apply elem_of_cons. by right. }
    assert (Hhead : forall x, bool_decide (cn ++ [x] ∈ i :: entries)
                    = bool_decide (x = xi) || bool_decide (cn ++ [x] ∈ entries)).
    { intros x. apply eq_true_iff_eq.
      rewrite orb_true_iff, !bool_decide_eq_true, elem_of_cons. subst i. split.
      - intros [Heq | ?]; [left | by right]. apply app_inj_tail in Heq. tauto.
      - intros [-> | ?]; [by left | by right]. }
    assert (Hxi_rest : bool_decide (cn ++ [xi] ∈ entries) = false).
    { apply bool_decide_eq_false. by rewrite <- Hxi. }
    cbn zeta in *. cbn [discover_each] in *. rewrite Hfs, Hmd in *.
    destruct (Fs.is_dir tree i && negb (bool_decide (i = md))) eqn:Hcond.
    + destruct (Fs.exists_ tree (i </> "requirements.txt")) eqn:Hreq.
      * unfold _register_plugin in *.
        destruct (_get_requirements_hash w (i </> "requirements.txt")) as [h |] eqn:Hhash;
          [| done].
        unfold time_time in *. cbn [fst snd] in *.
        set (info := {| dir := i; requirements_file := i </> "requirements.txt";
                        deps_hash := h;
                        isolated_deps_dir := global_deps_dir mgr </> PyPath.name i;
                        registered_time := clock (ticks w) |}) in *.
        set (mgr1 := set_plugins (plugins_set (plugins mgr) (PyPath.name i) info) mgr) in *.
        set (w1 := set_ticks (S (ticks w)) w) in *.
        destruct (IH Hnd Hshape' mgr1 w1) as (Hfs' & Hpath & Hdeps & Hmeta & Hall); try done.
        split; [done |]. split; [done |]. split; [done |]. split; [done |].
        intros x. specialize (Hall x). rewrite Hhead.
        destruct (bool_decide (cn ++ [x] ∈ entries) && eligible tree cn md x) eqn:Hx.
        -- apply andb_true_iff in Hx as [Hin Hel]. rewrite Hin, orb_true_r, Hel. exact Hall.
        -- unfold get_plugin_info in *. rewrite Hall.
           assert (Hname : PyPath.name i = xi) by (rewrite Hxi; by apply name_snoc).
           destruct (decide (x = xi)) as [-> | Hne].
           ++ rewrite bool_decide_eq_true_2 by done. simpl orb.
              assert (Hel : eligible tree cn md xi = true).
              { unfold eligible. rewrite <- Hxi, Hcond, Hreq. done. }
              rewrite Hel. exists info. subst mgr1. cbn [plugins set_plugins].
              rewrite Hname, plugins_get_set_same. split; [done |].
              subst info. cbn [dir requirements_file isolated_deps_dir deps_hash].
              rewrite Hgd. split; [exact Hxi |]. split; [by rewrite Hxi |].
              split; [by rewrite Hname |]. exists w. split; [done |]. done.
           ++ rewrite bool_decide_eq_false_2 by done. simpl orb. rewrite Hx.
              subst mgr1. cbn [plugins set_plugins]. rewrite Hname.
              by apply plugins_get_set_other.
      * destruct (IH Hnd Hshape' mgr w) as (Hfs' & Hpath & Hdeps & Hmeta & Hall); try done.
        split; [done |]. split; [done |]. split; [done |]. split; [done |].
        intros x. specialize (Hall x). rewrite Hhead.
        destruct (decide (x = xi)) as [-> | Hne].
        -- rewrite Hxi_rest in *. simpl in Hall. rewrite bool_decide_eq_true_2 by done.
           simpl orb.
           assert (Hel : eligible tree cn md xi = false).
           { unfold eligible. rewrite <- Hxi, Hreq. by rewrite andb_false_r. }
           by rewrite Hel, andb_false_r.
        -- rewrite (bool_decide_eq_false_2 (x = xi)) by done. exact Hall.
    + destruct (IH Hnd Hshape' mgr w) as (Hfs' & Hpath & Hdeps & Hmeta & Hall); try done.
      split; [done |]. split; [done |]. split; [done |]. split; [done |].
      intros x. specialize (Hall x). rewrite Hhead.
      destruct (decide (x = xi)) as [-> | Hne].
      * rewrite Hxi_rest in *. simpl in Hall. rewrite bool_decide_eq_true_2 by done.
        simpl orb.
        assert (Hel : eligible tree cn md xi = false).
        { unfold eligible. rewrite <- Hxi, Hcond. done. }
        by rewrite Hel, andb_false_r.
      * rewrite (bool_decide_eq_false_2 (x = xi)) by done. exact Hall.
Qed.
End DiscoveryFacts.

(** X7. Discovery registers exactly the entries of the custom-nodes
    directory that are directories, are not the manager's own directory
    and hold a [requirements.txt]: each under the name of its directory,
    with the isolated-deps root joined with that name as its private root
    and the hash of its declaration file; every other name keeps the entry
    it had, or none. The store, the file tree and the search path are not
    touched. *)
Theorem auto_discover_registers_plugin_directories {sets : PySet} {host : Host}
    (mgr : Manager) (w : World) :
  custom_nodes_dir mgr <> [] ->
  (_auto_discover_plugins (mgr, w)).1 = Return tt ->
  let st' := (_auto_discover_plugins (mgr, w)).2 in
  let cn := custom_nodes_dir mgr in
  fs st'.2 = fs w /\ sys_path st'.2 = sys_path w
  /\ installed_deps st'.1 = installed_deps mgr
  /\ dependency_metadata st'.1 = dependency_metadata mgr
  /\ forall x,
       if eligible (fs w) cn (deps_manager_dir mgr) x then
         exists info,
           get_plugin_info st'.1 x = Some info
           /\ dir info = cn ++ [x]
           /\ requirements_file info = (cn ++ [x]) </> "requirements.txt"
           /\ isolated_deps_dir info = global_deps_dir mgr </> x
           /\ _get_requirements_hash w (requirements_file info) = Some (deps_hash info)
       else get_plugin_info st'.1 x = get_plugin_info mgr x.
Proof.
  intros Hcn Hret. unfold _auto_discover_plugins in *.
  destruct (Fs.iterdir (fs w) (custom_nodes_dir mgr)) as [entries |] eqn:Hiter.
  - pose proof (iterdir_NoDup _ _ _ Hiter) as Hnd.
    assert (Hshape : forall i, i ∈ entries -> exists x, i = custom_nodes_dir mgr ++ [x]).
    { intros i Hi. apply (iterdir_elem _ _ _ _ Hiter) in Hi as (_ & Hlast & Hne).
      destruct i as [| x i] using rev_ind; [by subst |].
      rewrite removelast_last in Hlast. exists x. by subst. }
    destruct (discover_each_registers (fs w) (custom_nodes_dir mgr) (deps_manager_dir mgr)
                (global_deps_dir mgr) entries Hcn Hnd Hshape mgr w)
      as (Hfs & Hpath & Hdeps & Hmeta & Hall); try done.
    cbn zeta. split; [done |]. split; [done |]. split; [done |]. split; [done |].
    intros x. specialize (Hall x).
    destruct (eligible (fs w) (custom_nodes_dir mgr) (deps_manager_dir mgr) x) eqn:Hel.
    + assert (Hin : custom_nodes_dir mgr ++ [x] ∈ entries).
      { apply (iterdir_elem _ _ _ _ Hiter). unfold eligible, Fs.is_dir in Hel.
        destruct (fs w !! (custom_nodes_dir mgr ++ [x])) as [n |] eqn:Hn; [| done].
        split; [by eexists |]. rewrite removelast_last. split; [done |].
        intros Heq. apply (f_equal length) in Heq. rewrite length_app in Heq.
        simpl in Heq. lia. }
      rewrite bool_decide_eq_true_2 in Hall by done. simpl in Hall.
      destruct Hall as (info & Hget & Hdir & Hreq & Hiso & w0 & Hw0 & Hhash).
      exists info. repeat split; try done.
      unfold _get_requirements_hash in *. by rewrite <- Hw0.
    + by rewrite andb_false_r in Hall.
  - by destruct (Fs.exists_ _ _).
Qed.

Section ConstructorFacts.
Context {sets : PySet} {host : Host}.

Lemma parent_snoc (p : Path) (x : string) :
  PyPath.is_root x = false -> PyPath.parent (p ++ [x]) = p.
Proof.
  intros Hx. unfold PyPath.parent. destruct p as [| a p]; simpl.
  - by rewrite Hx.
  - destruct (p ++ [x]) as [| b l] eqn:Hl; [by destruct p |].
    rewrite <- Hl. change (a :: p ++ [x]) with ((a :: p) ++ [x]). by rewrite removelast_last.
Qed.
End ConstructorFacts.

(** X8. The manager can be built only where its own directory is
    [custom_nodes/comfyui-dependency-isolation] under the root that
    [_find_comfyui_root] finds: when that directory does not exist,
    [__init__] raises [FileNotFoundError] on making the isolated-deps
    directory, before anything is loaded or discovered, and changes
    nothing in the world. *)
Theorem init_raises_without_manager_directory {sets : PySet} {host : Host}
    (current_dir : Path) (w : World) :
  let manager_dir :=
    _find_comfyui_root (fs w) current_dir </> "custom_nodes"
      </> "comfyui-dependency-isolation" in
  fs w !! manager_dir = None ->
  fs w !! (manager_dir </> "isolated_deps") = None ->
  exists mgr,
    __init__ current_dir w = Some (Raise FileNotFoundError, (mgr, w))
    /\ deps_manager_dir mgr = manager_dir
    /\ list_plugins mgr = []
    /\ installed_deps mgr = ∅ /\ dependency_metadata mgr = ∅.
Proof.
  intros manager_dir Hdir Hdeps. unfold __init__. cbv zeta. fold manager_dir.
  unfold Fs.mkdir_exist_ok. rewrite Hdeps.
  assert (Hparent : PyPath.parent (manager_dir </> "isolated_deps") = manager_dir).
  { change (manager_dir </> "isolated_deps") with (manager_dir ++ ["isolated_deps"]).
    by apply parent_snoc. }
  rewrite Hparent, Hdir. eexists. split; [reflexivity |]. done.
Qed.

Section ConstructorRuns.
Context {sets : PySet} {host : Host}.

(** Discovery, however it ends, leaves the store, the tree and the rest
    of the process alone. *)
Lemma discover_each_keeps_store (entries : list Path) (mgr : Manager) (w : World) :
  let st' := (discover_each entries (mgr, w)).2 in
  fs st'.2 = fs w /\ sys_path st'.2 = sys_path w
  /\ installed_deps st'.1 = installed_deps mgr
  /\ dependency_metadata st'.1 = dependency_metadata mgr
  /\ global_deps_dir st'.1 = global_deps_dir mgr
  /\ pip_log st'.2 = pip_log w /\ builtins_import st'.2 = builtins_import w.
Proof.
  revert mgr w. induction entries as [| i entries IH]; intros mgr w; [done |].
  cbn zeta. cbn [discover_each].
  destruct (Fs.is_dir (fs w) i && negb (bool_decide (i = deps_manager_dir mgr)));
    [| apply IH].
  destruct (Fs.exists_ (fs w) (i </> "requirements.txt")); [| apply IH].
  unfold _register_plugin.
  destruct (_get_requirements_hash w (i </> "requirements.txt")) as [h |]; [| done].
  unfold time_time. cbn [fst snd].
  match goal with
  | |- context [discover_each entries (?m, ?w1)] =>
      destruct (IH m w1) as (H1 & H2 & H3 & H4 & H5 & H6 & H7)
  end.
  cbn zeta in *. by rewrite H1, H2, H3, H4, H5, H6, H7.
Qed.

(** The constructor changes nothing of the process but the tree, where
    it may make the isolated-deps directory. *)
Lemma init_keeps_process (current_dir : Path) (w : World) (r : result unit)
    (mgr : Manager) (w' : World) :
  __init__ current_dir w = Some (r, (mgr, w')) ->
  sys_path w' = sys_path w /\ pip_log w' = pip_log w
  /\ builtins_import w' = builtins_import w
  /\ (fs w' = fs w \/ fs w' = <[global_deps_dir mgr := Dir]> (fs w))
  /\ PyPath.name (global_deps_dir mgr) = "isolated_deps".
Proof.
  unfold __init__. cbv zeta.
  set (deps := _ </> "isolated_deps").
  set (mgr0 := Build_Manager _ _ _ _ _ _).
  assert (Hname : PyPath.name deps = "isolated_deps").
  { by apply (name_last _ "isolated_deps"). }
  destruct (Fs.mkdir_exist_ok (fs w) deps) as [fs1 | e] eqn:Hmk.
  2:{ intros [= <- <- <-]. split; [done |]. split; [done |]. split; [done |].
      split; [by left | exact Hname]. }
  assert (Hfs1 : fs1 = fs w \/ fs1 = <[deps := Dir]> (fs w)).
  { unfold Fs.mkdir_exist_ok in Hmk.
    destruct (fs w !! deps) as [[| c] |]; [left | done |]; try congruence.
    destruct (fs w !! PyPath.parent deps) as [[| c] |]; try done.
    right. congruence. }
  destruct (_load_metadata mgr0 (set_fs fs1 w)) as [mgr1 |] eqn:Hload; [| done].
  assert (Hroot : global_deps_dir mgr1 = deps).
  { unfold _load_metadata in Hload.
    repeat match type of Hload with
           | (if ?b then _ else _) = _ => destruct b
           | match ?x with _ => _ end = _ => destruct x
           end; try done; by injection Hload as <-. }
  unfold _auto_discover_plugins.
  destruct (Fs.iterdir (fs (set_fs fs1 w)) (custom_nodes_dir mgr1)) as [entries |].
  - pose proof (discover_each_keeps_store entries mgr1 (set_fs fs1 w)) as Hk.
    cbn zeta in Hk.
    destruct (discover_each entries (mgr1, set_fs fs1 w)) as [r' [mgr' w1]].
    cbn [fst snd] in Hk. destruct Hk as (Hfs & Hpath & _ & _ & Hg & Hl & Hb).
    intros [= <- <- <-]. rewrite Hg, Hroot, Hfs. done.
  - destruct (Fs.exists_ _ _); intros [= <- <- <-]; rewrite Hroot; done.
Qed.
End ConstructorRuns.

(** X9. A manager built in a later process finds the store that was
    saved: when the isolated-deps directory exists and its metadata file
    holds the document [_save_metadata] wrote for a manager, [__init__]
    gives the new manager that manager's records and, plugin by plugin,
    its sets of directories. It does not touch the search path: a
    directory on record is not on the path of the new process until the
    plugin is initialized again. *)
Theorem init_restores_saved_store {sets : PySet} {host : Host} (current_dir : Path)
    (w : World) (saved : Manager) (t : Q) :
  let deps_dir :=
    _find_comfyui_root (fs w) current_dir </> "custom_nodes"
      </> "comfyui-dependency-isolation" </> "isolated_deps" in
  Fs.is_dir (fs w) deps_dir = true ->
  fs w !! (deps_dir </> "metadata.json") = Some (File (JsonDoc (metadata_json saved t))) ->
  exists r mgr w',
    __init__ current_dir w = Some (r, (mgr, w'))
    /\ global_deps_dir mgr = deps_dir
    /\ dependency_metadata mgr = dependency_metadata saved
    /\ (forall q d, d ∈ get_plugin_deps_paths mgr q <-> d ∈ get_plugin_deps_paths saved q)
    /\ sys_path w' = sys_path w
    /\ fs w' = fs w.
Proof.
  intros deps_dir Hdir Hfile. unfold __init__. cbv zeta. fold deps_dir.
  assert (Hmk : Fs.mkdir_exist_ok (fs w) deps_dir = Return (fs w)).
  { unfold Fs.mkdir_exist_ok, Fs.is_dir in *.
    destruct (fs w !! deps_dir) as [[| c] |]; done. }
  rewrite Hmk, set_fs_same.
  match goal with
  | |- context [_load_metadata ?m w] =>
      rewrite (load_saved_document m saved w t) by exact Hfile; set (mgr0 := m)
  end.
  set (mgr1 := set_installed_deps _ _).
  unfold _auto_discover_plugins.
  assert (Hpaths : forall q d, d ∈ get_plugin_deps_paths mgr1 q
                               <-> d ∈ get_plugin_deps_paths saved q).
  { intros q d. unfold get_plugin_deps_paths, mgr1. cbn [installed_deps set_installed_deps].
    rewrite lookup_fmap. destruct (installed_deps saved !! q) as [s |]; [| done].
    simpl. rewrite elem_of_set_update. split; [| by right].
    intros [Hnil | ?]; [by apply elem_of_nil in Hnil | done]. }
  destruct (Fs.iterdir (fs w) (custom_nodes_dir mgr1)) as [entries |].
  - pose proof (discover_each_keeps_store entries mgr1 w) as Hkeep. cbn zeta in Hkeep.
    destruct (discover_each entries (mgr1, w)) as [r [mgr' w']]. cbn [fst snd] in Hkeep.
    destruct Hkeep as (Hfs & Hpath & Hdeps & Hmeta & Hroot & _).
    exists r, mgr', w'. split; [done |]. split; [by rewrite Hroot |].
    split; [by rewrite Hmeta |]. split; [| done].
    intros q d. unfold get_plugin_deps_paths. rewrite Hdeps. apply Hpaths.
  - destruct (Fs.exists_ _ _); eexists _, mgr1, w; repeat split; try done; apply Hpaths.
Qed.

(** ** Orphan cleanup, in general *)

Section CleanupCountFacts.
Context {sets : PySet} {host : Host}.

(** The count of the second loop, when every removal succeeds: the
    items that are directories with a string not on record. *)
Lemma cleanup_fold_count (active : list string) (k : nat) (items : list Path) :
  (forall tree item, removable tree item = true) ->
  forall (tree : FS) (n : nat),
    NoDup items ->
    (forall i, i ∈ items -> length i = k) ->
    (fold_left (Utils.cleanup_item active) items (tree, n)).2
    = (n + length (List.filter
                     (fun i => Fs.is_dir tree i
                               && negb (bool_decide (PyPath.str i ∈ active))) items))%nat.
Proof.
  intros Hrm. induction items as [| i items IH]; intros tree n Hnd Hlen.
  - simpl. lia.
  - apply NoDup_cons in Hnd as [Hi Hnd].
    assert (Hlen' : forall j, j ∈ items -> length j = k).
    { intros j Hj. apply Hlen. by apply list_elem_of_further. }
    assert (Hik : length i = k) by (apply Hlen; apply list_elem_of_here).
    cbn [fold_left List.filter]. remember (Utils.cleanup_item active (tree, n) i) as st eqn:Hst.
    unfold Utils.cleanup_item in Hst.
    destruct (Fs.is_dir tree i && negb (bool_decide (PyPath.str i ∈ active))) eqn:Hcond;
      subst st.
    + rewrite Hrm, IH by done.
      assert (Hsame : List.filter
                        (fun j => Fs.is_dir (Fs.rmtree tree i) j
                                  && negb (bool_decide (PyPath.str j ∈ active))) items
                      = List.filter
                          (fun j => Fs.is_dir tree j
                                    && negb (bool_decide (PyPath.str j ∈ active))) items).
      { apply filter_ext_in. intros j Hj. apply list_elem_of_In in Hj.
        unfold Fs.is_dir. rewrite rmtree_lookup.
        rewrite (bool_decide_eq_false_2 (i `prefix_of` j)); [done |].
        intros Hpre. assert (Heq : i = j).
        { apply same_length_prefix; [| done]. rewrite Hik. symmetry. by apply Hlen'. }
        by subst j. }
      rewrite Hsame. simpl. lia.
    + rewrite IH by done. lia.
Qed.
End CleanupCountFacts.


(** ** Validating a declaration file *)

Section ValidationFacts.
Context {unicode : Unicode}.

Lemma startswith_cons_head (s p : string) (c : ascii) :
  PyStr.startswith s (String c p) = true -> exists s', s = String c s'.
Proof.
  destruct s as [| d s]; simpl; [done |].
  destruct (Ascii.eqb c d) eqn:Hcd; [| done].
  apply Ascii.eqb_eq in Hcd. subst d. by eexists.
Qed.

Lemma contains_has_char (s p : string) (c : ascii) :
  PyStr.contains s (String c p) = true -> PyStr.has_char c s = true.
Proof.
  induction s as [| d s IH].
  - simpl. done.
  - cbn [PyStr.contains PyStr.has_char]. intros Hc. apply orb_true_iff in Hc as [Hst | Hrest].
    + apply startswith_cons_head in Hst as [s' [= -> _]].
      by rewrite Ascii.eqb_refl.
    + rewrite (IH Hrest). by rewrite orb_true_r.
Qed.

Lemma contains_one_char (s : string) (c : ascii) :
  PyStr.contains s (String c "") = PyStr.has_char c s.
Proof.
  induction s as [| d s IH]; [done |].
  cbn [PyStr.contains PyStr.has_char PyStr.startswith]. rewrite IH.
  rewrite (Ascii.eqb_sym c d).
  assert (Hnil : PyStr.startswith s "" = true) by (by destruct s).
  rewrite Hnil. by destruct (Ascii.eqb d c).
Qed.

(** The six tests for an operator come down to four. *)
Lemma has_operator (l : string) :
  existsb (PyStr.contains l) Utils.operators
  = PyStr.contains l "==" || PyStr.has_char ">" l || PyStr.has_char "<" l || PyStr.has_char "@" l.
Proof.
  unfold Utils.operators. cbn [existsb]. rewrite !contains_one_char.
  pose proof (contains_has_char l "=" ">") as H2.
  pose proof (contains_has_char l "=" "<") as H3.
  destruct (PyStr.contains l "=="), (PyStr.contains l ">="), (PyStr.contains l "<="),
    (PyStr.has_char ">" l), (PyStr.has_char "<" l), (PyStr.has_char "@" l);
    simpl; try done; try (by specialize (H2 eq_refl)); by specialize (H3 eq_refl).
Qed.

Lemma has_char_remove_char (c d : ascii) (s : string) :
  c <> d -> PyStr.has_char c (PyStr.remove_char d s) = PyStr.has_char c s.
Proof.
  intros Hcd. induction s as [| a s IH]; [done |].
  cbn [PyStr.remove_char PyStr.has_char]. destruct (Ascii.eqb a d) eqn:Had.
  - apply Ascii.eqb_eq in Had. subst a. rewrite IH.
    assert (Hdc : Ascii.eqb d c = false) by (apply Ascii.eqb_neq; congruence).
    by rewrite Hdc.
  - cbn [PyStr.has_char]. by rewrite IH.
Qed.

Lemma chars_nonempty (c : ascii) (s : string) : PyStr.chars (String c s) <> [].
Proof.
  cbn [PyStr.chars]. destruct (PyStr.chars s) as [| [| d x] rest]; try done.
  by destruct (PyStr.is_continuation d).
Qed.

(** An ASCII character of a text starts one of its characters. *)
Lemma chars_ascii (c : ascii) (s : string) :
  PyStr.has_char c s = true -> (nat_of_ascii c < 128)%nat ->
  exists r, String c r ∈ PyStr.chars s.
Proof.
  intros Hin Hc. induction s as [| a s IH]; [done |].
  cbn [PyStr.has_char] in Hin. cbn [PyStr.chars].
  destruct (Ascii.eqb a c) eqn:Hac.
  - apply Ascii.eqb_eq in Hac. subst a.
    destruct (PyStr.chars s) as [| [| d x] rest].
    + eexists. apply list_elem_of_here.
    + eexists. apply list_elem_of_here.
    + destruct (PyStr.is_continuation d); eexists; apply list_elem_of_here.
  - simpl in Hin. destruct (IH Hin) as [r Hr].
    destruct (PyStr.chars s) as [| [| d x] rest].
    + by apply elem_of_nil in Hr.
    + exists r. by apply list_elem_of_further.
    + destruct (PyStr.is_continuation d) eqn:Hd.
      * apply elem_of_cons in Hr as [[= <- <-] | Hr].
        -- unfold PyStr.is_continuation in Hd. apply andb_true_iff in Hd as [Hd _].
           apply Nat.leb_le in Hd. lia.
        -- exists r. by apply list_elem_of_further.
      * exists r. by apply list_elem_of_further.
Qed.

Lemma isalnum_ascii_only (c : ascii) (s : string) :
  PyStr.has_char c s = true -> (nat_of_ascii c < 128)%nat -> PyStr.isalnum_ascii c = false ->
  PyText.isalnum s = false.
Proof.
  intros Hin Hc Hal. destruct (chars_ascii c s Hin Hc) as [r Hr].
  unfold PyText.isalnum. destruct (PyStr.chars s) as [| ch cs] eqn:Hchars; [done |].
  apply not_true_is_false. intros Hall.
  rewrite forallb_forall in Hall. specialize (Hall (String c r)).
  apply list_elem_of_In in Hr. specialize (Hall Hr).
  unfold PyText.char_isalnum in Hall.
  apply Nat.ltb_lt in Hc. rewrite Hc, Hal in Hall. done.
Qed.

Lemma remove_dashes_empty (s : string) :
  (forall c, PyStr.has_char c s = true -> c = "-"%char \/ c = "_"%char) ->
  PyStr.remove_char "_" (PyStr.remove_char "-" s) = "".
Proof.
  induction s as [| a s IH]; intros Hall; [done |].
  assert (Hrest : forall c, PyStr.has_char c s = true -> c = "-"%char \/ c = "_"%char).
  { intros c Hc. apply Hall. cbn [PyStr.has_char]. by rewrite Hc, orb_true_r. }
  destruct (Hall a) as [-> | ->].
  - cbn [PyStr.has_char]. by rewrite Ascii.eqb_refl.
  - cbn [PyStr.remove_char]. rewrite Ascii.eqb_refl. by apply IH.
  - cbn [PyStr.remove_char]. change (Ascii.eqb "_" "-") with false. cbn iota.
    cbn [PyStr.remove_char]. rewrite Ascii.eqb_refl. by apply IH.
Qed.
End ValidationFacts.

(** X11. [Utils.validate_requirements_file] accepts a readable file exactly when
    every line, stripped, is empty, or a comment, or holds [==], [>], [<]
    or [@], or is alphanumeric once its hyphens and underscores are taken
    out; a path that is no file gives [False]. *)
Theorem validate_requirements_file_accepts {unicode : Unicode} (w : World)
    (requirements_path : Path) :
  match fs w !! requirements_path with
  | Some (File (Text content)) =>
      Utils.validate_requirements_file w requirements_path = Some true
      <-> forall line, line ∈ PyStr.lines content ->
            let l := PyStr.strip line in
            l = "" \/ PyStr.startswith l "#" = true
            \/ PyStr.contains l "==" = true \/ PyStr.has_char ">" l = true
            \/ PyStr.has_char "<" l = true \/ PyStr.has_char "@" l = true
            \/ PyText.isalnum (PyStr.remove_char "_" (PyStr.remove_char "-" l)) = true
  | Some (File (JsonDoc _)) => Utils.validate_requirements_file w requirements_path = None
  | _ => Utils.validate_requirements_file w requirements_path = Some false
  end.
Proof.
  unfold Utils.validate_requirements_file.
  destruct (fs w !! requirements_path) as [[| [content | doc]] |]; try done.
  assert (Hline : forall line,
            Utils.valid_line line = true <->
            let l := PyStr.strip line in
            l = "" \/ PyStr.startswith l "#" = true
            \/ PyStr.contains l "==" = true \/ PyStr.has_char ">" l = true
            \/ PyStr.has_char "<" l = true \/ PyStr.has_char "@" l = true
            \/ PyText.isalnum (PyStr.remove_char "_" (PyStr.remove_char "-" l)) = true).
  { intros line. unfold Utils.valid_line. cbv zeta. rewrite has_operator.
    destruct (String.eqb (PyStr.strip line) "") eqn:He.
    { apply String.eqb_eq in He. simpl. split; [by left | done]. }
    apply String.eqb_neq in He.
    destruct (PyStr.startswith (PyStr.strip line) "#"); simpl.
    { split; [right; by left | done]. }
    destruct (PyStr.contains (PyStr.strip line) "=="); simpl.
    { split; [do 2 right; by left | done]. }
    destruct (PyStr.has_char ">" (PyStr.strip line)); simpl.
    { split; [do 3 right; by left | done]. }
    destruct (PyStr.has_char "<" (PyStr.strip line)); simpl.
    { split; [do 4 right; by left | done]. }
    destruct (PyStr.has_char "@" (PyStr.strip line)); simpl.
    { split; [do 5 right; by left | done]. }
    destruct (PyText.isalnum _); simpl.
    - split; [do 6 right; done | done].
    - split; [done |]. intros [? | [? | [? | [? | [? | [? | ?]]]]]]; done. }
  split.
  - intros [= Hall] line Hin. apply Hline. rewrite forallb_forall in Hall.
    apply Hall. by apply list_elem_of_In.
  - intros Hall. f_equal. apply forallb_forall. intros line Hin.
    apply Hline, Hall. by apply list_elem_of_In.
Qed.

(** X12. A declaration line that holds none of [==], [>], [<] and [@] is
    rejected as soon as it has an ASCII character other than a letter, a
    digit, a hyphen or an underscore (a dot, a bracket, a blank, [~] or
    [!] of another version operator), or is made of hyphens and
    underscores only: the whole file is then invalid. *)
Theorem validate_rejects_other_syntax {unicode : Unicode} (w : World)
    (requirements_path : Path) (content line : string) (c : ascii) :
  fs w !! requirements_path = Some (File (Text content)) ->
  line ∈ PyStr.lines content ->
  PyStr.strip line <> "" ->
  PyStr.startswith (PyStr.strip line) "#" = false ->
  PyStr.contains (PyStr.strip line) "==" = false ->
  PyStr.has_char ">" (PyStr.strip line) = false ->
  PyStr.has_char "<" (PyStr.strip line) = false ->
  PyStr.has_char "@" (PyStr.strip line) = false ->
  (PyStr.has_char c (PyStr.strip line) = true /\ (nat_of_ascii c < 128)%nat
   /\ PyStr.isalnum_ascii c = false /\ c <> "-"%char /\ c <> "_"%char)
  \/ (forall d, PyStr.has_char d (PyStr.strip line) = true -> d = "-"%char \/ d = "_"%char) ->
  Utils.validate_requirements_file w requirements_path = Some false.
Proof.
  intros Hfile Hin Hne Hcomment Heq Hgt Hlt Hat Hbad.
  unfold Utils.validate_requirements_file. rewrite Hfile. f_equal.
  apply not_true_is_false. intros Hall. rewrite forallb_forall in Hall.
  specialize (Hall line). apply list_elem_of_In in Hin. specialize (Hall Hin).
  unfold Utils.valid_line in Hall. cbv zeta in Hall.
  rewrite has_operator, Heq, Hgt, Hlt, Hat, Hcomment in Hall.
  apply String.eqb_neq in Hne. rewrite Hne in Hall. simpl in Hall.
  assert (Hal : PyText.isalnum (PyStr.remove_char "_" (PyStr.remove_char "-" (PyStr.strip line))) = false).
  { destruct Hbad as [(Hc & Hascii & Hnot & Hdash & Hunder) | Honly].
    - apply (isalnum_ascii_only c); [| done | done].
      by rewrite !has_char_remove_char.
    - by rewrite remove_dashes_empty. }
  by rewrite Hal in Hall.
Qed.

(** ** Formatting a size *)

Section SizeFacts.
Local Open Scope Z_scope.

Lemma float_of_int_exact (n : Z) :
  - (2 ^ 53) < n < 2 ^ 53 -> PyNum.float_of_int n = Return (inject_Z n).
Proof.
  intros Hn. unfold PyNum.float_of_int.
  assert (Ha : (Z.abs n <? 2 ^ 53) = true) by (apply Z.ltb_lt; lia).
  by rewrite Ha.
Qed.

Lemma round_half_even_whole (n : Z) : PyNum.round_half_even n 1 = n.
Proof.
  unfold PyNum.round_half_even. rewrite Z.div_1_r, Z.mod_1_r. reflexivity.
Qed.

Lemma hundredths_whole (n : Z) :
  0 <= n -> PyNum.hundredths (n * 100) = (PyNum.decimal n ++ ".00")%string.
Proof.
  intros Hn. unfold PyNum.hundredths.
  rewrite Z.div_mul by lia.
  replace (n * 100 / 10) with (n * 10) by (apply Z.div_unique_exact; lia).
  rewrite Z.mod_mul by lia.
  replace (n * 100) with (n * 10 * 10) by lia. rewrite Z.mod_mul by lia.
  reflexivity.
Qed.

Lemma format_2f_fraction (n : Z) (d : positive) :
  0 <= n -> PyNum.format_2f (n # d) = PyNum.hundredths (PyNum.round_half_even (n * 100) (Z.pos d)).
Proof.
  intros Hn. unfold PyNum.format_2f. cbn [Qnum Qden].
  assert (Hs : (n <? 0) = false) by (apply Z.ltb_ge; lia).
  rewrite Hs, Z.abs_eq by lia. reflexivity.
Qed.

Lemma below_1024_fraction (n : Z) (d : positive) :
  Utils.below_1024 (PyNum.PyFloat (n # d)) = (n <? 1024 * Z.pos d).
Proof.
  unfold Utils.below_1024, Qle_bool. cbn [Qnum Qden].
  rewrite Z.mul_1_r. rewrite Z.ltb_antisym. reflexivity.
Qed.

Lemma divide_1024_fraction (n : Z) (d : positive) :
  ((n # d) / 1024 = (n * 1 # d * 1024))%Q.
Proof. reflexivity. Qed.

Lemma format_units_cons (unit : string) (units : list string) (size_bytes : PyNum.Number) :
  Utils.format_units (unit :: units) size_bytes
  = if Utils.below_1024 size_bytes then Utils.format_size size_bytes unit
    else match Utils.divide_1024 size_bytes with
         | Return x => Utils.format_units units (PyNum.PyFloat x)
         | Raise e => Raise e
         end.
Proof. reflexivity. Qed.

(** The loop from the second unit on, on a float [n / d]. *)
Lemma format_units_fraction (units : list string) (n : Z) (d : positive) (k : nat) :
  0 <= n ->
  (k < length units)%nat ->
  Z.pos d * 1024 ^ Z.of_nat k <= n < Z.pos d * 1024 ^ Z.of_nat (S k) ->
  Utils.format_units units (PyNum.PyFloat (n # d))
  = Return (PyNum.hundredths (PyNum.round_half_even (n * 100) (Z.pos d * 1024 ^ Z.of_nat k))
            ++ " " ++ nth k units "")%string.
Proof.
  intros Hn. revert d k. induction units as [| unit units IH]; intros d k Hk Hrange.
  - simpl in Hk. lia.
  - cbn [Utils.format_units]. rewrite below_1024_fraction.
    destruct k as [| k].
    + assert (Hlt : (n <? 1024 * Z.pos d) = true).
      { apply Z.ltb_lt. change (Z.of_nat 1) with 1 in Hrange. lia. }
      rewrite Hlt. cbn [Utils.format_size nth]. rewrite format_2f_fraction by done.
      change (Z.of_nat 0) with 0. by rewrite Z.pow_0_r, Z.mul_1_r.
    + assert (Hpow : 1024 ^ Z.of_nat (S k) = 1024 * 1024 ^ Z.of_nat k).
      { rewrite Nat2Z.inj_succ, Z.pow_succ_r by lia. reflexivity. }
      assert (Hpow' : 1024 ^ Z.of_nat (S (S k)) = 1024 * 1024 ^ Z.of_nat (S k)).
      { rewrite (Nat2Z.inj_succ (S k)), Z.pow_succ_r by lia. reflexivity. }
      assert (Hpos : 0 < 1024 ^ Z.of_nat k) by (apply Z.pow_pos_nonneg; lia).
      assert (Hge : (n <? 1024 * Z.pos d) = false).
      { apply Z.ltb_ge. rewrite Hpow in Hrange. nia. }
      rewrite Hge. cbn [Utils.divide_1024]. rewrite divide_1024_fraction, Z.mul_1_r.
      rewrite (IH (d * 1024)%positive k).
      * cbn [nth]. rewrite Pos2Z.inj_mul, Hpow. do 4 f_equal. lia.
      * simpl in Hk. lia.
      * rewrite Pos2Z.inj_mul. rewrite Hpow, Hpow' in Hrange. rewrite Hpow. lia.
Qed.

(** The last unit: the loop has divided four times. *)
Lemma format_units_last (units : list string) (n : Z) (d : positive) :
  0 <= n ->
  Z.pos d * 1024 ^ Z.of_nat (length units) <= n ->
  Utils.format_units units (PyNum.PyFloat (n # d))
  = Return (PyNum.hundredths (PyNum.round_half_even (n * 100)
                          (Z.pos d * 1024 ^ Z.of_nat (length units)))
            ++ " TB")%string.
Proof.
  intros Hn. revert d. induction units as [| unit units IH]; intros d Hrange.
  - cbn [Utils.format_units Utils.format_size length]. rewrite format_2f_fraction by done.
    change (Z.of_nat 0) with 0. by rewrite Z.pow_0_r, Z.mul_1_r.
  - cbn [Utils.format_units length]. rewrite below_1024_fraction.
    assert (Hpow : 1024 ^ Z.of_nat (S (length units))
                   = 1024 * 1024 ^ Z.of_nat (length units)).
    { rewrite Nat2Z.inj_succ, Z.pow_succ_r by lia. reflexivity. }
    assert (Hpos : 0 < 1024 ^ Z.of_nat (length units)) by (apply Z.pow_pos_nonneg; lia).
    cbn [length] in Hrange. rewrite Hpow in Hrange.
    assert (Hge : (n <? 1024 * Z.pos d) = false) by (apply Z.ltb_ge; nia).
    rewrite Hge. cbn [Utils.divide_1024]. rewrite divide_1024_fraction, Z.mul_1_r.
    rewrite (IH (d * 1024)%positive).
    + rewrite Pos2Z.inj_mul, Hpow. do 4 f_equal. lia.
    + rewrite Pos2Z.inj_mul. lia.
Qed.

(** A size between two unit boundaries. *)
Lemma format_file_size_range (n : Z) (k : nat) :
  0 <= n < 2 ^ 53 -> (1 <= k <= 3)%nat ->
  1024 ^ Z.of_nat k <= n < 1024 ^ Z.of_nat (S k) ->
  Utils.format_file_size n
  = Return (PyNum.hundredths (PyNum.round_half_even (n * 100) (1024 ^ Z.of_nat k))
            ++ " " ++ nth k ["B"; "KB"; "MB"; "GB"] "")%string.
Proof.
  intros Hn Hk Hrange. unfold Utils.format_file_size. rewrite format_units_cons. cbn [Utils.below_1024].
  assert (Hpos : 1024 <= 1024 ^ Z.of_nat k).
  { change 1024 with (1024 ^ 1) at 1. apply Z.pow_le_mono_r; lia. }
  assert (Hge : (n <? 1024) = false) by (apply Z.ltb_ge; lia).
  rewrite Hge. cbn [Utils.divide_1024]. rewrite float_of_int_exact by lia.
  unfold inject_Z. rewrite divide_1024_fraction, Z.mul_1_r.
  destruct k as [| k]; [lia |].
  assert (Hpow : forall j, 1024 ^ Z.of_nat (S j) = 1024 * 1024 ^ Z.of_nat j).
  { intros j. rewrite Nat2Z.inj_succ, Z.pow_succ_r by lia. reflexivity. }
  rewrite (format_units_fraction ["KB"; "MB"; "GB"] n (1 * 1024)%positive k).
  - cbn [nth]. rewrite Hpow. reflexivity.
  - lia.
  - simpl length. lia.
  - rewrite !Hpow in Hrange. rewrite Hpow. change (Z.pos (1 * 1024)) with 1024. lia.
Qed.
End SizeFacts.

(** X13. For a size of at most 53 bits, [Utils.format_file_size] shows the size
    divided by the largest power of 1024 not above it, up to the fourth,
    rounded to two decimals (a tie to the even digit), with the unit of
    that power: B, KB, MB, GB or TB; a size below 1024 is shown whole, and
    a negative size is shown in bytes whatever its magnitude. *)
Theorem format_file_size_by_unit (n : Z) :
  (- (2 ^ 53) < n < 2 ^ 53)%Z ->
  Utils.format_file_size n
  = Return
      (if (n <? 0)%Z then "-" ++ PyNum.decimal (- n) ++ ".00 B"
       else if (n <? 1024)%Z then PyNum.decimal n ++ ".00 B"
       else if (n <? 1024 ^ 2)%Z then
         PyNum.hundredths (PyNum.round_half_even (n * 100) 1024) ++ " KB"
       else if (n <? 1024 ^ 3)%Z then
         PyNum.hundredths (PyNum.round_half_even (n * 100) (1024 ^ 2)) ++ " MB"
       else if (n <? 1024 ^ 4)%Z then
         PyNum.hundredths (PyNum.round_half_even (n * 100) (1024 ^ 3)) ++ " GB"
       else PyNum.hundredths (PyNum.round_half_even (n * 100) (1024 ^ 4)) ++ " TB")%string.
Proof.
  intros Hn.
  destruct (n <? 0)%Z eqn:Hneg.
  { apply Z.ltb_lt in Hneg. unfold Utils.format_file_size. rewrite format_units_cons. cbn [Utils.below_1024].
    assert (Hlt : (n <? 1024)%Z = true) by (apply Z.ltb_lt; lia).
    rewrite Hlt. cbn [Utils.format_size]. rewrite float_of_int_exact by lia.
    unfold PyNum.format_2f, inject_Z. cbn [Qnum Qden].
    assert (Hs : (n <? 0)%Z = true) by (apply Z.ltb_lt; lia).
    rewrite Hs, round_half_even_whole.
    replace (Z.abs n) with (- n)%Z by lia. rewrite hundredths_whole by lia.
    rewrite !append_assoc. reflexivity. }
  apply Z.ltb_ge in Hneg.
  destruct (n <? 1024)%Z eqn:H0.
  { unfold Utils.format_file_size. rewrite format_units_cons. cbn [Utils.below_1024]. rewrite H0.
    cbn [Utils.format_size]. rewrite float_of_int_exact by lia.
    unfold inject_Z. rewrite format_2f_fraction by done.
    rewrite round_half_even_whole, hundredths_whole by done.
    rewrite !append_assoc. reflexivity. }
  apply Z.ltb_ge in H0.
  destruct (n <? 1024 ^ 2)%Z eqn:H1.
  { apply Z.ltb_lt in H1. by rewrite (format_file_size_range n 1) by (simpl; lia). }
  apply Z.ltb_ge in H1.
  destruct (n <? 1024 ^ 3)%Z eqn:H2.
  { apply Z.ltb_lt in H2. by rewrite (format_file_size_range n 2) by (simpl; lia). }
  apply Z.ltb_ge in H2.
  destruct (n <? 1024 ^ 4)%Z eqn:H3.
  { apply Z.ltb_lt in H3. by rewrite (format_file_size_range n 3) by (simpl; lia). }
  apply Z.ltb_ge in H3.
  unfold Utils.format_file_size. rewrite format_units_cons. cbn [Utils.below_1024].
  assert (Hge : (n <? 1024)%Z = false) by (apply Z.ltb_ge; lia).
  rewrite Hge. cbn [Utils.divide_1024]. rewrite float_of_int_exact by lia.
  unfold inject_Z. rewrite divide_1024_fraction, Z.mul_1_r.
  rewrite (format_units_last ["KB"; "MB"; "GB"] n (1 * 1024)%positive) by (simpl; lia).
  reflexivity.
Qed.

(** X14. A size just below the boundary of the next unit is shown as
    [1024.00] of the smaller one: from 1023.995 units on, the two decimals
    round up to 1024. *)
Theorem format_file_size_shows_1024 (n : Z) (k : nat) :
  (1 <= k <= 3)%nat ->
  (1023995 * 1024 ^ Z.of_nat k <= 1000 * n)%Z ->
  (n < 1024 ^ Z.of_nat (S k))%Z ->
  Utils.format_file_size n
  = Return ("1024.00 " ++ nth k ["B"; "KB"; "MB"; "GB"] "")%string.
Proof.
  intros Hk Hlow Hhigh.
  assert (Hpow : (1024 ^ Z.of_nat (S k) = 1024 * 1024 ^ Z.of_nat k)%Z).
  { rewrite Nat2Z.inj_succ, Z.pow_succ_r by lia. reflexivity. }
  assert (Hpos : (0 < 1024 ^ Z.of_nat k)%Z) by (apply Z.pow_pos_nonneg; lia).
  assert (Hbound : (1024 ^ Z.of_nat (S k) <= 1024 ^ 4)%Z).
  { apply Z.pow_le_mono_r; lia. }
  rewrite (format_file_size_range n k); [| simpl in *; lia | done | lia].
  assert (Hround : PyNum.round_half_even (n * 100) (1024 ^ Z.of_nat k) = 102400%Z).
  { unfold PyNum.round_half_even. set (d := (1024 ^ Z.of_nat k)%Z) in *.
    assert (Hfl : (n * 100 / d = 102399)%Z).
    { symmetry. apply (Z.div_unique _ _ _ (n * 100 - d * 102399)); lia. }
    assert (Hr : ((n * 100) mod d = n * 100 - d * 102399)%Z).
    { symmetry. apply (Z.mod_unique _ _ 102399); lia. }
    rewrite Hfl, Hr.
    destruct (2 * (n * 100 - d * 102399) <? d)%Z eqn:H1; [apply Z.ltb_lt in H1; lia |].
    by destruct (d <? 2 * (n * 100 - d * 102399))%Z. }
  rewrite Hround. reflexivity.
Qed.

(** The number model on known values: a tie goes to the even digit, an
    int beyond 2^53 is rounded to the nearest float, and sizes outside
    the common range keep the first or the last unit. *)
Example number_model_known_values :
  PyNum.format_2f (1 # 8) = "0.12" /\ PyNum.format_2f (3 # 8) = "0.38"
  /\ PyNum.float_of_int (2 ^ 53 + 1) = Return (inject_Z (2 ^ 53))
  /\ PyNum.float_of_int (2 ^ 53 + 3) = Return (inject_Z (2 ^ 53 + 4))
  /\ Utils.format_file_size (5 * 1024 ^ 4) = Return "5.00 TB"
  /\ Utils.format_file_size (-5) = Return "-5.00 B".
Proof. vm_compute. repeat split; reflexivity. Qed.

(** ** The patcher over its life *)

Section PatcherFacts.
Context {sets : PySet}.

Lemma patcher_run_invariant (w0 : World) (pw : Patcher * World) :
  patcher_run w0 pw ->
  original_import pw.1 = builtins_import w0
  /\ NoDup (patched_plugins pw.1)
  /\ match _original_import_saved pw.1 with
     | Some f => f = builtins_import w0
     | None => patched_plugins pw.1 = []
     end
  /\ (patched_plugins pw.1 = [] -> builtins_import pw.2 = builtins_import w0)
  /\ (patched_plugins pw.1 <> [] ->
      exists k, builtins_import pw.2 = Custom k /\ (next_fn w0 <= k < next_fn pw.2)%nat)
  /\ (next_fn w0 <= next_fn pw.2)%nat.
Proof.
  induction 1 as [| mgr plugin_name [p w] Hrun IH | [p w] Hrun IH].
  - simpl. repeat split; try done. apply NoDup_nil_2.
  - destruct IH as (Horig & Hnd & Hsaved & Hempty & Hsome & Hnext). simpl in *.
    unfold patch_plugin_imports.
    destruct (bool_decide (plugin_name ∈ patched_plugins p)) eqn:Hin; [done |].
    destruct (get_plugin_deps_paths mgr plugin_name) as [| d ds]; [done |].
    apply bool_decide_eq_false in Hin. simpl.
    pose proof (set_add_fresh plugin_name (patched_plugins p) Hin) as Hperm.
    split; [done |]. split.
    { rewrite Hperm. by apply NoDup_cons. }
    split.
    { destruct (_original_import_saved p); done. }
    split.
    { intros Hnil. rewrite Hnil in Hperm. by apply Permutation_nil_cons in Hperm. }
    split; [| lia].
    intros _. exists (next_fn w). split; [done | lia].
  - destruct IH as (Horig & Hnd & Hsaved & Hempty & Hsome & Hnext). simpl in *.
    unfold restore_import.
    destruct (_original_import_saved p) as [f |] eqn:Hs; simpl.
    + repeat split; try done. apply NoDup_nil_2.
    + rewrite ?Hs. done.
Qed.

Lemma patch_plugin_imports_members (mgr : Manager) (plugin_name : string)
    (pw : Patcher * World) (n : string) :
  n ∈ patched_plugins (patch_plugin_imports mgr plugin_name pw).1
  <-> n ∈ patched_plugins pw.1
      \/ (n = plugin_name /\ get_plugin_deps_paths mgr plugin_name <> []).
Proof.
  destruct pw as [p w]. unfold patch_plugin_imports.
  destruct (bool_decide (plugin_name ∈ patched_plugins p)) eqn:Hin.
  { apply bool_decide_eq_true in Hin. simpl. split; [by left |].
    intros [? | [-> _]]; done. }
  destruct (get_plugin_deps_paths mgr plugin_name) as [| d ds] eqn:Hdeps.
  { simpl. split; [by left |]. intros [? | [_ ?]]; done. }
  simpl. rewrite elem_of_set_add. split.
  - intros [-> | ?]; [right | left]; done.
  - intros [? | [-> _]]; [right | left]; done.
Qed.

Lemma patch_plugin_imports_NoDup (mgr : Manager) (plugin_name : string)
    (pw : Patcher * World) :
  NoDup (patched_plugins pw.1) ->
  NoDup (patched_plugins (patch_plugin_imports mgr plugin_name pw).1).
Proof.
  destruct pw as [p w]. unfold patch_plugin_imports. intros Hnd.
  destruct (bool_decide _); [done |].
  destruct (get_plugin_deps_paths mgr plugin_name); [done |].
  simpl. by apply NoDup_set_add.
Qed.

(** The loop that enables interception, from any patcher. *)
Lemma patch_each_members (mgr : Manager) (names : list string) (pw : Patcher * World) :
  (forall n, n ∈ patched_plugins (Init.patch_each mgr names pw).1
             <-> n ∈ patched_plugins pw.1
                 \/ (n ∈ names /\ get_plugin_deps_paths mgr n <> []))
  /\ (NoDup (patched_plugins pw.1) ->
      NoDup (patched_plugins (Init.patch_each mgr names pw).1)).
Proof.
  unfold Init.patch_each. revert pw.
  induction names as [| x names IH]; intros pw; simpl.
  - split; [| done]. intros n. split; [by left |].
    intros [? | [Hin _]]; [done | by apply elem_of_nil in Hin].
  - destruct (IH (patch_plugin_imports mgr x pw)) as [Hmem Hnd]. split.
    + intros n. rewrite Hmem, patch_plugin_imports_members, elem_of_cons.
      split.
      * intros [[? | [-> ?]] | [? ?]]; [by left | right | right]; split; auto.
      * intros [? | [[-> | ?] ?]]; [left; by left | left; right; done | right; done].
    + intros Hp. apply Hnd. by apply patch_plugin_imports_NoDup.
Qed.

Lemma patch_each_run (mgr : Manager) (names : list string) (w0 : World)
    (pw : Patcher * World) :
  patcher_run w0 pw -> patcher_run w0 (Init.patch_each mgr names pw).
Proof.
  unfold Init.patch_each. revert pw.
  induction names as [| n names IH]; intros pw Hrun; [done |].
  simpl. apply IH. by apply run_patch.
Qed.

End PatcherFacts.

(** X15. Whatever calls of [patch_plugin_imports] and [restore_import] a
    patcher has gone through since it was built, [restore_import] puts
    back the import entry point that was in place when it was built and
    leaves no plugin intercepted. Before that, the entry point is that
    original one as long as no plugin is intercepted, and a closure made
    after the patcher was built as soon as one is. *)
Theorem restore_import_undoes_patching {sets : PySet} (w0 : World)
    (pw : Patcher * World) :
  patcher_run w0 pw ->
  builtins_import (restore_import pw).2 = builtins_import w0
  /\ get_patched_plugins (restore_import pw).1 = []
  /\ (get_patched_plugins pw.1 = [] -> builtins_import pw.2 = builtins_import w0)
  /\ (get_patched_plugins pw.1 <> [] ->
      exists k, builtins_import pw.2 = Custom k /\ (next_fn w0 <= k < next_fn pw.2)%nat).
Proof.
  intros Hrun.
  destruct (patcher_run_invariant w0 _ (run_restore w0 pw Hrun))
    as (_ & _ & Hsaved & Hempty & _).
  destruct (patcher_run_invariant w0 pw Hrun) as (_ & _ & Hs & He & Hc & _).
  unfold get_patched_plugins.
  assert (Hnil : patched_plugins (restore_import pw).1 = []).
  { destruct pw as [p w]. unfold restore_import. simpl in *.
    destruct (_original_import_saved p); done. }
  split; [by apply Hempty |]. split; [done |]. split; done.
Qed.

(** X16. After the loop that enables interception for a list of plugins, the
    intercepted plugins are those that were intercepted before and those of
    the list that have at least one directory on record, each once: a
    plugin without a recorded directory is never intercepted. *)
Theorem patch_each_intercepts_plugins_with_paths {sets : PySet} (mgr : Manager)
    (names : list string)
    (pw : Patcher * World) :
  (forall n, n ∈ get_patched_plugins (Init.patch_each mgr names pw).1
             <-> n ∈ get_patched_plugins pw.1
                 \/ (n ∈ names /\ get_plugin_deps_paths mgr n <> []))
  /\ (NoDup (get_patched_plugins pw.1) ->
      NoDup (get_patched_plugins (Init.patch_each mgr names pw).1)).
Proof.
  unfold get_patched_plugins. apply patch_each_members.
Qed.

Section CallerFacts.

(** Ownership of a file name among the registered plugins. *)
Lemma owner_Some (ps : list (string * PluginInfo)) (filename name : string) :
  owner ps filename = Some name <->
  exists ps1 info ps2,
    ps = ps1 ++ (name, info) :: ps2
    /\ PyStr.startswith filename (PyPath.str (dir info)) = true
    /\ forall q, q ∈ ps1 -> PyStr.startswith filename (PyPath.str (dir q.2)) = false.
Proof.
  induction ps as [| [n i] ps IH]; simpl.
  - split; [done |]. intros (ps1 & info & ps2 & Heq & _). by destruct ps1.
  - destruct (PyStr.startswith filename (PyPath.str (dir i))) eqn:Hst.
    + split.
      * intros [= <-]. exists [], i, ps. split; [done |]. split; [done |].
        intros q Hq. by apply elem_of_nil in Hq.
      * intros (ps1 & info & ps2 & Heq & Hown & Hnone).
        destruct ps1 as [| q ps1].
        -- by injection Heq as -> _ _.
        -- injection Heq as <- _. specialize (Hnone (n, i)). simpl in Hnone.
           rewrite Hnone in Hst; [done |]. apply elem_of_cons. by left.
    + rewrite IH. split.
      * intros (ps1 & info & ps2 & -> & Hown & Hnone).
        exists ((n, i) :: ps1), info, ps2. split; [done |]. split; [done |].
        intros q Hq. apply elem_of_cons in Hq as [-> | Hq]; [done | by apply Hnone].
      * intros (ps1 & info & ps2 & Heq & Hown & Hnone).
        destruct ps1 as [| q ps1].
        -- injection Heq as <- <- _. simpl in *. congruence.
        -- injection Heq as _ ->. exists ps1, info, ps2. split; [done |].
           split; [done |]. intros q' Hq'. apply Hnone. apply elem_of_cons. by right.
Qed.

Lemma owner_None (ps : list (string * PluginInfo)) (filename : string) :
  owner ps filename = None <->
  forall q, q ∈ ps -> PyStr.startswith filename (PyPath.str (dir q.2)) = false.
Proof.
  induction ps as [| [n i] ps IH]; simpl.
  - split; [| done]. intros _ q Hq. by apply elem_of_nil in Hq.
  - destruct (PyStr.startswith filename (PyPath.str (dir i))) eqn:Hst.
    + split; [done |]. intros Hall. specialize (Hall (n, i)). simpl in Hall.
      rewrite Hall in Hst; [done |]. apply elem_of_cons. by left.
    + rewrite IH. split.
      * intros Hall q Hq. apply elem_of_cons in Hq as [-> | Hq]; [done | by apply Hall].
      * intros Hall q Hq. apply Hall. apply elem_of_cons. by right.
Qed.

End CallerFacts.


(** ** Configuration, merged *)

Section ConfigMergeFacts.

(** Folding insertions over the members of an object: a later member
    with the same key wins. *)
Lemma fold_insert_last_wins (l : list (string * JSON)) (d : ConfigDict) :
  fold_left (fun m kv => <[kv.1 := kv.2]> m) l d = list_to_map (reverse l) ∪ d.
Proof.
  revert d. induction l as [| [k v] l IH]; intros d; simpl.
  - by rewrite (left_id_L ∅ (∪)).
  - rewrite IH, reverse_cons, list_to_map_app. simpl.
    rewrite insert_empty, <- (assoc_L (∪)). f_equal.
    by rewrite <- insert_union_singleton_l.
Qed.

Lemma update_pairs_keeps_keys (l : list JSON) (d config : ConfigDict) (b : bool) (k : string) :
  Config.update_pairs d l b = Config.UpdatedTo config ->
  is_Some (d !! k) -> is_Some (config !! k).
Proof.
  revert d b. induction l as [| j l IH]; intros d b; simpl.
  - destruct b; [| done]. by intros [= ->].
  - destruct (Config.as_pair j) as [[key v] |]; [| done].
    destruct key; try (destruct (Config.hashable _); [apply IH | done]).
    intros Hup Hk. eapply IH; [exact Hup |].
    destruct (decide (s = k)) as [-> | Hne].
    + rewrite lookup_insert_eq. by eexists.
    + by rewrite lookup_insert_ne.
Qed.

Lemma dict_update_keeps_keys (d config : ConfigDict) (j : JSON) (k : string) :
  Config.dict_update d j = Config.UpdatedTo config ->
  is_Some (d !! k) -> is_Some (config !! k).
Proof.
  destruct j; simpl; try done.
  - destruct (String.eqb s ""); [| done]. by intros [= ->].
  - apply update_pairs_keeps_keys.
  - intros [= <-] [v Hk]. rewrite fold_insert_last_wins, lookup_union.
    rewrite Hk. destruct (list_to_map (reverse members) !! k); by eexists.
Qed.

Lemma load_config_keeps_keys (package_dir : Path) (w : World) (config : ConfigDict)
    (k : string) :
  Config.load_config package_dir w = Some config ->
  is_Some (Config.DEFAULT_CONFIG !! k) -> is_Some (config !! k).
Proof.
  unfold Config.load_config.
  destruct (Fs.exists_ (fs w) (Config.config_path package_dir)); [| by intros [= <-]].
  destruct (fs w !! Config.config_path package_dir) as [[| [s | doc]] |];
    try by intros [= <-].
  destruct (Config.dict_update Config.DEFAULT_CONFIG doc) as [c | |] eqn:Hup;
    [| by intros [= <-] | done].
  intros [= <-]. by eapply dict_update_keeps_keys.
Qed.

Lemma load_after_save (package_dir : Path) (w : World) (config : ConfigDict) :
  Fs.is_dir (fs w) (PyPath.parent (Config.config_path package_dir)) = true ->
  Fs.is_dir (fs w) (Config.config_path package_dir) = false ->
  Config.load_config package_dir (Config.save_config package_dir config w)
  = Some (config ∪ Config.DEFAULT_CONFIG).
Proof.
  intros Hparent Hfile.
  unfold Config.save_config, Fs.write_file. rewrite Hparent.
  unfold Fs.is_dir in Hfile.
  destruct (fs w !! Config.config_path package_dir) as [[| c] |] eqn:Hnode; try done.
  - unfold Config.load_config, Fs.exists_. simpl.
    rewrite lookup_insert_eq. simpl. by rewrite fold_insert_union.
  - unfold Config.load_config, Fs.exists_. simpl.
    rewrite lookup_insert_eq. simpl. by rewrite fold_insert_union.
Qed.
End ConfigMergeFacts.

(** X18. Whatever the configuration file holds, a configuration that
    [load_config] returns has a value for every default option; when the
    file holds a JSON object, the result is the object's members (the last
    one of a repeated key) over the defaults, keys unknown to the defaults
    included. *)
Theorem load_config_has_every_default (package_dir : Path) (w : World)
    (config : ConfigDict) :
  Config.load_config package_dir w = Some config ->
  (forall k, is_Some (Config.DEFAULT_CONFIG !! k) -> is_Some (config !! k))
  /\ (forall members,
        fs w !! Config.config_path package_dir = Some (File (JsonDoc (JObj members))) ->
        config = list_to_map (reverse members) ∪ Config.DEFAULT_CONFIG
        /\ forall k, config !! k
                     = match list_to_map (M := ConfigDict) (reverse members) !! k with
                       | Some v => Some v
                       | None => Config.DEFAULT_CONFIG !! k
                       end).
Proof.
  intros Hload. split.
  - intros k. exact (load_config_keeps_keys package_dir w config k Hload).
  - intros members Hfile. unfold Config.load_config, Fs.exists_ in Hload.
    rewrite Hfile in Hload. simpl in Hload. injection Hload as <-.
    rewrite fold_insert_last_wins. split; [done |].
    intros k. rewrite lookup_union.
    destruct (list_to_map (reverse members) !! k), (Config.DEFAULT_CONFIG !! k); done.
Qed.

(** X19. Saving the configuration that was loaded and loading again gives
    the same configuration, provided the file can be written. *)
Theorem save_loaded_config_is_stable (package_dir : Path) (w : World)
    (config : ConfigDict) :
  Config.load_config package_dir w = Some config ->
  Fs.is_dir (fs w) (PyPath.parent (Config.config_path package_dir)) = true ->
  Fs.is_dir (fs w) (Config.config_path package_dir) = false ->
  Config.load_config package_dir (Config.save_config package_dir config w) = Some config.
Proof.
  intros Hload Hparent Hfile. rewrite load_after_save by done. f_equal.
  apply map_eq. intros k. rewrite lookup_union.
  destruct (config !! k) as [v |] eqn:Hk; [by destruct (Config.DEFAULT_CONFIG !! k) |].
  destruct (Config.DEFAULT_CONFIG !! k) as [v |] eqn:Hd; [| done].
  assert (Hsome : is_Some (config !! k)).
  { eapply load_config_keeps_keys; [exact Hload | by eexists]. }
  rewrite Hk in Hsome. by destruct Hsome.
Qed.

(** X20. The configuration for the web interface has exactly the three
    options [auto_initialize], [enable_web_ui] and [log_level], each with
    the value [load_config] gives it: the fall-back values of its own
    [get] calls never apply. *)
Theorem get_web_config_three_options (package_dir : Path) (w : World)
    (config : ConfigDict) :
  Config.load_config package_dir w = Some config ->
  exists web,
    Config.get_web_config package_dir w = Some web
    /\ dom web = {[ "auto_initialize"; "enable_web_ui"; "log_level" ]}
    /\ forall k, k ∈ dom web -> web !! k = config !! k.
Proof.
  intros Hload. unfold Config.get_web_config. rewrite Hload. eexists. split; [reflexivity |].
  assert (Hkey : forall k d, is_Some (Config.DEFAULT_CONFIG !! k) ->
                   Some (default d (config !! k)) = config !! k).
  { intros k d Hk. destruct (load_config_keeps_keys _ _ _ k Hload Hk) as [v ->]. done. }
  simpl. split.
  - rewrite !dom_insert_L, dom_empty_L. set_solver.
  - intros k. rewrite !dom_insert_L, dom_empty_L. intros Hk.
    assert (Hcases : k = "auto_initialize" \/ k = "enable_web_ui" \/ k = "log_level").
    { rewrite !elem_of_union, !elem_of_singleton, elem_of_empty in Hk. tauto. }
    destruct Hcases as [-> | [-> | ->]].
    + rewrite lookup_insert_eq. apply Hkey. by eexists.
    + rewrite lookup_insert_ne by done. rewrite lookup_insert_eq. apply Hkey. by eexists.
    + rewrite !lookup_insert_ne by done. rewrite lookup_insert_eq. apply Hkey. by eexists.
Qed.

(** ** Loading the package *)

Section StartupFacts.
Context {sets : PySet} {host : Host}.

(** Making the isolated-deps directory does not change what
    [load_config] reads. *)
Lemma load_config_insert_other (package_dir p : Path) (w : World) (fs1 : FS) :
  PyPath.name p <> "config.json" ->
  fs1 = fs w \/ fs1 = <[p := Dir]> (fs w) ->
  forall w1, fs w1 = fs1 -> Config.load_config package_dir w1 = Config.load_config package_dir w.
Proof.
  intros Hname Hfs w1 Hw1. unfold Config.load_config, Fs.exists_. rewrite Hw1.
  destruct Hfs as [-> | ->]; [done |].
  rewrite lookup_insert_ne; [done |].
  intros ->. apply Hname. by apply (name_last _ "config.json").
Qed.

Lemma patch_all_Some (mgr : Manager) (w : World) (p : Patcher) (w' : World) :
  Init.patch_all mgr w = (Some p, w') ->
  Init.patch_each mgr (list_plugins mgr) (init w, w) = (p, w').
Proof.
  unfold Init.patch_all. destruct (list_plugins mgr) as [| n names]; [done |].
  destruct (Init.patch_each mgr (n :: names) _) as [p1 w1]. by intros [= <- <-].
Qed.

End StartupFacts.

(** X21. With [auto_initialize] switched off in the configuration file,
    loading the package installs nothing and leaves the import entry point
    alone: whatever the outcome, no command has been run, the entry point
    is the one that was in place, the search path is the one before with
    the package directory in front, and no patcher is built. *)
Theorem startup_switched_off {sets : PySet} {host : Host} (package_dir : Path)
    (w : World) (config : ConfigDict) (r : result Init.Loaded) (w' : World) :
  Config.load_config package_dir w = Some config ->
  PyJson.truthy (default (JBool true) (config !! "auto_initialize")) = false ->
  Init.startup package_dir w = Some (r, w') ->
  pip_log w' = pip_log w
  /\ builtins_import w' = builtins_import w
  /\ sys_path w' = PyPath.str package_dir :: sys_path w
  /\ forall l, r = Return l -> Init.auto_patcher l = None.
Proof.
  intros Hconfig Hoff. unfold Init.startup. cbv zeta.
  set (w0 := set_sys_path _ w).
  destruct (__init__ package_dir w0) as [[res [mgr w1]] |] eqn:Hinit; [| done].
  destruct (init_keeps_process _ _ _ _ _ Hinit) as (Hpath & Hlog & Himp & Hfs & Hname).
  change (sys_path w0) with (PyPath.str package_dir :: sys_path w) in Hpath.
  change (pip_log w0) with (pip_log w) in Hlog.
  change (builtins_import w0) with (builtins_import w) in Himp.
  change (fs w0) with (fs w) in Hfs.
  destruct res as [[] | e].
  - assert (Hsame : Config.load_config package_dir w1 = Some config).
    { rewrite <- Hconfig.
      apply (load_config_insert_other package_dir (global_deps_dir mgr) w (fs w1));
        [by rewrite Hname | done | done]. }
    rewrite Hsame, Hoff. intros [= <- <-]. repeat split; try done.
    by intros l [= <-].
  - destruct (is_Exception e); intros [= <- <-]; repeat split; try done.
    by intros l [= <-].
Qed.

(** X22. When loading the package ends with a patcher, the plugins
    intercepted are the registered plugins with at least one directory on
    record, each once; the patcher keeps the import entry point that was
    in place before the package was loaded, and the entry point now is a
    replacement closure exactly when some plugin is intercepted. *)
Theorem startup_intercepts_plugins_with_paths {sets : PySet} {host : Host}
    (package_dir : Path) (w : World) (l : Init.Loaded) (w' : World) (p : Patcher) :
  Init.startup package_dir w = Some (Return l, w') ->
  Init.auto_patcher l = Some p ->
  exists mgr,
    Init.manager l = Some mgr
    /\ (forall n, n ∈ get_patched_plugins p
                  <-> n ∈ list_plugins mgr /\ get_plugin_deps_paths mgr n <> [])
    /\ NoDup (get_patched_plugins p)
    /\ original_import p = builtins_import w
    /\ (get_patched_plugins p = [] -> builtins_import w' = builtins_import w)
    /\ (get_patched_plugins p <> [] ->
        exists k, builtins_import w' = Custom k).
Proof.
  unfold Init.startup. cbv zeta. set (w0 := set_sys_path _ w).
  destruct (__init__ package_dir w0) as [[res [mgr w1]] |] eqn:Hinit; [| done].
  destruct (init_keeps_process _ _ _ _ _ Hinit) as (_ & _ & Himp & _).
  change (builtins_import w0) with (builtins_import w) in Himp.
  destruct res as [[] | e].
  2:{ destruct (is_Exception e); [| done]. by intros [= <- <-]. }
  destruct (Config.load_config package_dir w1) as [config |]; [| done].
  destruct (PyJson.truthy _); [| by intros [= <- <-]].
  pose proof (initialize_each_only_adds (map fst (plugins mgr)) (mgr, w1)) as Hadd.
  unfold auto_initialize_all_plugins. cbn [fst]. cbn zeta in Hadd. cbn [fst snd] in Hadd.
  destruct (initialize_each (map fst (plugins mgr)) (mgr, w1)) as [r2 [mgr2 w2]].
  cbn [fst snd] in Hadd. destruct Hadd as (_ & _ & _ & _ & _ & _ & _ & Himp2).
  destruct r2 as [[] | e].
  2:{ destruct (is_Exception e); [| done]. by intros [= <- <-]. }
  destruct (Init.patch_all mgr2 w2) as [p' w3] eqn:Hall. intros [= <- <-]. simpl.
  intros [= ->]. apply patch_all_Some in Hall.
  set (start := (init w2, w2)) in Hall.
  destruct (patch_each_members mgr2 (list_plugins mgr2) start) as [Hmem Hnd].
  destruct (patcher_run_invariant w2 _
              (patch_each_run mgr2 (list_plugins mgr2) w2 start
                 (run_init w2)))
    as (Horig & _ & _ & Hempty & Hsome & _).
  rewrite Hall in Hmem, Hnd, Horig, Hempty, Hsome. cbn [fst snd] in *.
  unfold get_patched_plugins.
  exists mgr2. split; [done |]. split.
  { intros n. rewrite Hmem. simpl. split; [| by right].
    intros [Hnil | ?]; [by apply elem_of_nil in Hnil | done]. }
  split; [apply Hnd, NoDup_nil_2 |].
  split; [congruence |]. split.
  - intros Hnil. rewrite (Hempty Hnil). congruence.
  - intros Hne. destruct (Hsome Hne) as (k & Hk & _). by exists k.
Qed.

(** ** The further properties on the host of [Demo] *)

Section Witnesses.
#[local] Existing Instance append_order.
#[local] Existing Instance Demo.host.

(** X6 on the store after both plugins are initialized, read back by a
    new manager. *)
Lemma load_metadata_reads_back_saved_witness :
  let mgr := (Demo.initialized append_order).1 in
  let w := (Demo.initialized append_order).2 in
  exists mgr',
    _load_metadata Demo.manager0 (_save_metadata (mgr, w)).2 = Some mgr'
    /\ dependency_metadata mgr' = dependency_metadata mgr
    /\ (forall q d, d ∈ get_plugin_deps_paths mgr' q <-> d ∈ get_plugin_deps_paths mgr q).
Proof.
  intros mgr w.
  destruct (load_metadata_reads_back_saved
              mgr Demo.manager0 w)
    as (mgr' & Hload & Hmeta & Hpaths & _);
    [vm_compute; reflexivity | vm_compute; reflexivity | vm_compute; reflexivity |].
  exists mgr'. split; [exact Hload |]. split; [exact Hmeta | exact Hpaths].
Defined.

(** X7 on the installation with two plugins: [plugin_a] is found. *)
Lemma auto_discover_registers_plugin_directories_witness :
  let st' := (_auto_discover_plugins
                (Demo.manager0, Demo.world0)).2 in
  exists info,
    get_plugin_info st'.1 "plugin_a" = Some info
    /\ dir info = Demo.nodes ++ ["plugin_a"]
    /\ isolated_deps_dir info = Demo.deps_dir </> "plugin_a".
Proof.
  intros st'.
  pose proof (auto_discover_registers_plugin_directories Demo.manager0 Demo.world0) as H.
  destruct H as (_ & _ & _ & _ & H); [discriminate | vm_compute; reflexivity |].
  specialize (H "plugin_a").
  assert (Hel : eligible (fs Demo.world0) (custom_nodes_dir Demo.manager0)
                  (deps_manager_dir Demo.manager0) "plugin_a" = true)
    by (vm_compute; reflexivity).
  rewrite Hel in H. destruct H as (info & Hget & Hdir & _ & Hiso & _).
  exists info. split; [exact Hget |]. split; [exact Hdir | exact Hiso].
Defined.

(** X8 on the installation where the package directory has the name of
    the repository, capitals included. *)
Lemma init_raises_without_manager_directory_witness :
  exists mgr,
    __init__ Demo.cloned_dir Demo.world_cloned
    = Some (Raise FileNotFoundError, (mgr, Demo.world_cloned))
    /\ list_plugins mgr = [].
Proof.
  destruct (init_raises_without_manager_directory
              Demo.cloned_dir Demo.world_cloned)
    as (mgr & Hinit & _ & Hplugins & _);
    [vm_compute; reflexivity | vm_compute; reflexivity |].
  exists mgr. split; [exact Hinit | exact Hplugins].
Defined.

(** X9 on a later process over the tree both initializations left: the
    metadata file is the one written at the eighth tick of the clock. *)
Lemma init_restores_saved_store_witness :
  exists r mgr w',
    __init__ Demo.manager_dir
      (Demo.restarted append_order) = Some (r, (mgr, w'))
    /\ dependency_metadata mgr = dependency_metadata (Demo.initialized append_order).1
    /\ sys_path w' = ["/usr/lib"].
Proof.
  destruct (init_restores_saved_store
              Demo.manager_dir (Demo.restarted append_order)
              (Demo.initialized append_order).1 (inject_Z 1700000007))
    as (r & mgr & w' & Hinit & _ & Hmeta & _ & Hpath & _);
    [vm_compute; reflexivity | vm_compute; reflexivity |].
  exists r, mgr, w'. split; [exact Hinit |]. split; [exact Hmeta | exact Hpath].
Defined.


(** X12 on a requirement with an extra: the bracket is the character
    that fails the line. *)
Lemma validate_rejects_other_syntax_witness :
  Utils.validate_requirements_file (unicode := Demo.ascii_table) Demo.world_extras
    Demo.requirements_c = Some false.
Proof.
  apply (validate_rejects_other_syntax (unicode := Demo.ascii_table) Demo.world_extras
           Demo.requirements_c
           ("# http" ++ Demo.newline ++ "requests[socks]" ++ Demo.newline)
           "requests[socks]" "["%char).
  - apply lookup_insert_eq.
  - vm_compute. apply list_elem_of_further, list_elem_of_here.
  - vm_compute. discriminate.
  - vm_compute; reflexivity.
  - vm_compute; reflexivity.
  - vm_compute; reflexivity.
  - vm_compute; reflexivity.
  - vm_compute; reflexivity.
  - left. split; [vm_compute; reflexivity |]. split; [vm_compute; lia |].
    split; [vm_compute; reflexivity |]. split; discriminate.
Defined.

(** X13 at one and a half kilobytes. *)
Lemma format_file_size_by_unit_witness :
  Utils.format_file_size 1536 = Return "1.50 KB".
Proof.
  rewrite (format_file_size_by_unit 1536) by lia. reflexivity.
Defined.

(** X14 at one byte below a megabyte. *)
Lemma format_file_size_shows_1024_witness :
  Utils.format_file_size 1048575 = Return "1024.00 KB".
Proof.
  apply (format_file_size_shows_1024 1048575 1); [lia | vm_compute; discriminate | reflexivity].
Defined.

(** X15 after both plugins are intercepted. *)
Lemma restore_import_undoes_patching_witness :
  builtins_import (restore_import (Demo.patched append_order)).2 = Original
  /\ get_patched_plugins
       (restore_import (Demo.patched append_order)).1 = [].
Proof.
  pose proof (restore_import_undoes_patching
                (Demo.initialized append_order).2 (Demo.patched append_order)
                (run_patch _ _ _ _
                   (run_patch _ _ _ _ (run_init _))))
    as (H1 & H2 & _).
  split; [exact H1 | exact H2].
Defined.

(** What [load_config] reads on the installation with a configuration
    file. *)
Lemma load_configured :
  Config.load_config Demo.manager_dir Demo.world_configured = Some Demo.configured.
Proof.
  unfold Config.load_config, Fs.exists_, Demo.world_configured, Config.config_path.
  cbn [fs set_fs]. rewrite lookup_insert_eq. reflexivity.
Qed.

(** X18, X19 and X20 on the installation whose configuration file
    switches start-up off and shortens the time limit. *)
Lemma load_config_has_every_default_witness :
  is_Some (Demo.configured !! "log_level")
  /\ Demo.configured = list_to_map (reverse Demo.user_config) ∪ Config.DEFAULT_CONFIG.
Proof.
  destruct (load_config_has_every_default Demo.manager_dir Demo.world_configured
              Demo.configured load_configured) as [Hkeys Hmembers].
  split.
  - apply Hkeys. exists (JStr "INFO"). vm_compute. reflexivity.
  - apply (Hmembers Demo.user_config). apply lookup_insert_eq.
Defined.

Lemma save_loaded_config_is_stable_witness :
  Config.load_config Demo.manager_dir
    (Config.save_config Demo.manager_dir Demo.configured Demo.world_configured)
  = Some Demo.configured.
Proof.
  apply save_loaded_config_is_stable;
    [exact load_configured | vm_compute; reflexivity | vm_compute; reflexivity].
Defined.

Lemma get_web_config_three_options_witness :
  exists web,
    Config.get_web_config Demo.manager_dir Demo.world_configured = Some web
    /\ web !! "auto_initialize" = Some (JBool false).
Proof.
  destruct (get_web_config_three_options Demo.manager_dir Demo.world_configured
              Demo.configured load_configured) as (web & Hweb & Hdom & Hval).
  exists web. split; [exact Hweb |].
  rewrite Hval; [reflexivity |]. rewrite Hdom. set_solver.
Defined.

(** X21 on the same installation: nothing is installed. *)
Lemma startup_switched_off_witness :
  match Init.startup Demo.manager_dir
          Demo.world_configured with
  | Some (r, w') =>
      pip_log w' = [] /\ builtins_import w' = Original
      /\ sys_path w' = [PyPath.str Demo.manager_dir; "/usr/lib"]
  | None => False
  end.
Proof.
  assert (Hsome : match Init.startup
                          Demo.manager_dir Demo.world_configured with
                  | Some _ => true
                  | None => false
                  end = true) by (vm_compute; reflexivity).
  destruct (Init.startup Demo.manager_dir Demo.world_configured) as [[r w'] |] eqn:Hs;
    [| discriminate Hsome].
  destruct (startup_switched_off
              Demo.manager_dir Demo.world_configured Demo.configured r w'
              load_configured eq_refl Hs) as (Hlog & Himp & Hpath & _).
  split; [exact Hlog |]. split; [exact Himp | exact Hpath].
Defined.

(** X22 on the installation with two plugins and no configuration
    file. *)
Lemma startup_intercepts_plugins_with_paths_witness :
  exists l w' p mgr,
    Init.startup Demo.manager_dir Demo.world0
    = Some (Return l, w')
    /\ Init.auto_patcher l = Some p /\ Init.manager l = Some mgr
    /\ (forall n, n ∈ get_patched_plugins p
                  <-> n ∈ list_plugins mgr /\ get_plugin_deps_paths mgr n <> [])
    /\ original_import p = Original.
Proof.
  assert (Hsome : match Init.startup
                          Demo.manager_dir Demo.world0 with
                  | Some (Return l, _) =>
                      match Init.auto_patcher l with Some _ => true | None => false end
                  | _ => false
                  end = true) by (vm_compute; reflexivity).
  destruct (Init.startup Demo.manager_dir Demo.world0) as [[[l | e] w'] |] eqn:Hs;
    [| discriminate Hsome | discriminate Hsome].
  destruct (Init.auto_patcher l) as [p |] eqn:Hp; [| discriminate Hsome].
  destruct (startup_intercepts_plugins_with_paths Demo.manager_dir Demo.world0 l w' p Hs Hp)
    as (mgr & Hmgr & Hmem & _ & Horig & _).
  exists l, w', p, mgr. split; [reflexivity |]. split; [exact Hp |].
  split; [exact Hmgr |]. split; [exact Hmem | exact Horig].
Defined.

End Witnesses.
